(** * model_deployment: the Modal setup script and the sentiment API

    A shallow embedding of [src/modal_setup.py] and [src/sentiment_api.py].

    Python values are modelled as follows.
    - [str] is a list of Unicode code points ([list N]); [str "..."] turns an
      ASCII literal into one.
    - [float] is an IEEE 754 binary64 value ([spec_float] of the Standard
      Library, precision 53, [emax] 1024); the built-ins [round], [*] and
      [str] on floats are defined in [PyFloat].
    - [dict] with string keys is a [gmap (list N) pyval].
    - A call that may raise returns an [outcome]; code with effects runs in
      the monad [M], which threads the list of [event]s performed so far.
    - Everything outside the repository (the transformers pipeline, the Modal
      client, subprocesses, the file system) is a field of a host record that
      gives the outcome of each external call. *)

From Stdlib Require Import ZArith List String Ascii Lia.
From Stdlib Require Import SpecFloat.
From stdpp Require Import base option list gmap.

Set Warnings "-register-all,-notation-for-abbreviation".
Local Open Scope Z_scope.

(** ** Python strings *)

Notation pystr := (list N) (only parsing).

(** An ASCII literal as a Python [str]. *)
Definition str (s : string) : list N :=
  (fun a => N_of_ascii a) <$> list_ascii_of_string s.

(** The newline character ["\n"]. *)
Definition nl : list N := [10%N].

Module PyStr.

(** [c.isspace()] for one code point: the characters [str.strip()] removes. *)
Definition is_space (c : N) : bool :=
  ((9 <=? c) && (c <=? 13) || (28 <=? c) && (c <=? 32) || (c =? 133) || (c =? 160)
   || (c =? 5760) || (8192 <=? c) && (c <=? 8202) || (c =? 8232) || (c =? 8233)
   || (c =? 8239) || (c =? 8287) || (c =? 12288))%N.

Fixpoint lstrip (s : list N) : list N :=
  match s with
  | c :: s' => if is_space c then lstrip s' else s
  | [] => []
  end.

Definition rstrip (s : list N) : list N := rev (lstrip (rev s)).

(** [s.strip()] *)
Definition strip (s : list N) : list N := rstrip (lstrip s).

(** [s.lower()], exact on ASCII: the letters A-Z are mapped to a-z, every
    other code point is kept. *)
Definition lower_char (c : N) : N :=
  if ((65 <=? c) && (c <=? 90))%N then (c + 32)%N else c.

Definition lower (s : list N) : list N := lower_char <$> s.

End PyStr.

(** ** Exceptions, outcomes and the effect monad *)

Module Py.

(** The exception classes the two scripts distinguish. [OtherException]
    stands for any further subclass of [Exception]; [KeyboardInterrupt] is
    the one class here that derives from [BaseException] only. *)
Inductive exc_class :=
| ImportError
| ModuleNotFoundError
| CalledProcessError
| FileNotFoundError
| IndexError
| ValueError
| AttributeError
| KeyboardInterrupt
| OtherException (name : list N).

(** An exception instance; [exc_msg e] is [str(e)]. *)
Record exn := Exn { exc_cls : exc_class; exc_msg : list N }.

(** [isinstance(e, Exception)] *)
Definition is_Exception (e : exn) : bool :=
  match exc_cls e with
  | KeyboardInterrupt => false
  | _ => true
  end.

(** [isinstance(e, ImportError)] *)
Definition is_ImportError (e : exn) : bool :=
  match exc_cls e with
  | ImportError | ModuleNotFoundError => true
  | _ => false
  end.

(** [isinstance(e, subprocess.CalledProcessError)] *)
Definition is_CalledProcessError (e : exn) : bool :=
  match exc_cls e with
  | CalledProcessError => true
  | _ => false
  end.

Inductive outcome (A : Type) :=
| Returns (a : A)
| Raises (e : exn).
Arguments Returns {A} a.
Arguments Raises {A} e.

(** What a run does to the outside world, in program order. *)
Inductive event :=
| Print (line : list N)
| Import (module : list N)
| Subprocess (argv : list (list N))
| PathExists (path : list N)
| LoadDotenv (path : list N)
| AppNew (name : list N)
| AppFunction (name : list N)
| PipelineNew (task : list N) (model : option (list N)) (return_all_scores : bool)
| PipelineCall (text : list N)
| RemoteCall (function : list N) (text : list N).

Definition M (A : Type) : Type := list event -> outcome A * list event.

Definition ret {A} (a : A) : M A := fun tr => (Returns a, tr).

Definition raise {A} (e : exn) : M A := fun tr => (Raises e, tr).

Definition bind {A B} (c : M A) (k : A -> M B) : M B :=
  fun tr =>
    match c tr with
    | (Returns a, tr') => k a tr'
    | (Raises e, tr') => (Raises e, tr')
    end.

(** [print(line)] *)
Definition print (line : list N) : M unit := fun tr => (Returns tt, tr ++ [Print line]).

(** A call that leaves the program: it is recorded, and its outcome is the
    one the host gives. *)
Definition external {A} (ev : event) (o : outcome A) : M A := fun tr => (o, tr ++ [ev]).

(** A pure computation that may raise. *)
Definition lift {A} (o : outcome A) : M A := fun tr => (o, tr).

(** [try: body  except C as e: handler(e)], where [catches e] is
    [isinstance(e, C)]. *)
Definition try_except {A} (body : M A) (catches : exn -> bool) (handler : exn -> M A) : M A :=
  fun tr =>
    match body tr with
    | (Raises e, tr') => if catches e then handler e tr' else (Raises e, tr')
    | r => r
    end.

End Py.

Import Py.

Declare Scope py_scope.
Delimit Scope py_scope with py.
Notation "x <- c ;; k" := (bind c (fun x => k))
  (at level 100, c at next level, right associativity) : py_scope.
Notation "c ;; k" := (bind c (fun _ => k))
  (at level 100, right associativity) : py_scope.
Local Open Scope py_scope.

(** ** Python values *)

Inductive pyval :=
| VNone
| VBool (b : bool)
| VInt (z : Z)
| VFloat (f : spec_float)
| VStr (s : list N)
| VList (l : list pyval)
| VDict (d : gmap (list N) pyval).

(** [bool(v)] *)
Definition truthy (v : pyval) : bool :=
  match v with
  | VNone => false
  | VBool b => b
  | VInt z => negb (z =? 0)
  | VFloat f => match f with S754_zero _ => false | _ => true end
  | VStr s => match s with [] => false | _ => true end
  | VList l => match l with [] => false | _ => true end
  | VDict d => negb (bool_decide (d = ∅))
  end.

(** [type(v).__name__] *)
Definition type_name (v : pyval) : list N :=
  match v with
  | VNone => str "NoneType"
  | VBool _ => str "bool"
  | VInt _ => str "int"
  | VFloat _ => str "float"
  | VStr _ => str "str"
  | VList _ => str "list"
  | VDict _ => str "dict"
  end.

(** The call returned. *)
Definition is_returned {A} (o : outcome A) : bool :=
  match o with
  | Returns _ => true
  | Raises _ => false
  end.

(** [xs[0]] on a list *)
Definition getitem0 {A} (xs : list A) : outcome A :=
  match xs with
  | x :: _ => Returns x
  | [] => Raises (Exn IndexError (str "list index out of range"))
  end.

(** ** Python floats

    [round(x, n)] for [n >= 0] is CPython's [double_round]: the exact value
    of [x] is rounded to [n] decimal places, ties to even, and the decimal is
    read back as the nearest double. [repr] is the shortest decimal string
    that reads back as [x], in the layout of [float.__repr__]. *)

Module PyFloat.

Definition prec : Z := 53.
Definition emax : Z := 1024.

Definition valid (x : spec_float) : bool := valid_binary prec emax x.

(** [float(z)] *)
Definition of_Z (z : Z) : spec_float := binary_normalize prec emax z 0 false.

(** [x * y] *)
Definition mul (x y : spec_float) : spec_float := SFmul prec emax x y.

(** [x < y], [x <= y], [x > y] *)
Definition lt (x y : spec_float) : bool := SFltb x y.
Definition le (x y : spec_float) : bool := SFleb x y.
Definition gt (x y : spec_float) : bool := SFltb y x.

(** [0 <= x <= 1] *)
Definition in_unit (x : spec_float) : bool := le (of_Z 0) x && le x (of_Z 1).

(** The double nearest to the rational [n / d], ties to even, with sign [s]. *)
Definition nearest (s : bool) (n d : positive) : spec_float :=
  let '(q, e, l) := SFdiv_core_binary prec emax (Zpos n) 0 (Zpos d) 0 in
  binary_round_aux prec emax s q e l.

(** The double nearest to the decimal [c * 10^q]. *)
Definition of_decimal (c : positive) (q : Z) : spec_float :=
  if 0 <=? q then binary_normalize prec emax (Zpos c * 10 ^ q) 0 false
  else nearest false c (Z.to_pos (10 ^ (- q))).

(** [num / den] rounded to an integer, ties to even ([0 < den]). *)
Definition half_even (num den : Z) : Z :=
  let q := num / den in
  match 2 * (num mod den) ?= den with
  | Lt => q
  | Gt => q + 1
  | Eq => if Z.even q then q else q + 1
  end.

(** The exact value of the finite float with mantissa [m] and exponent [e]
    is [num_of m e / den_of e]. *)
Definition num_of (m : positive) (e : Z) : Z := Zpos m * 2 ^ Z.max e 0.
Definition den_of (e : Z) : Z := 2 ^ Z.max (- e) 0.

(** [round(x, ndigits)] *)
Definition round (x : spec_float) (ndigits : nat) : spec_float :=
  match x with
  | S754_finite s m e =>
      let p := 10 ^ Z.of_nat ndigits in
      match half_even (num_of m e * p) (den_of e) with
      | Zpos k => nearest s k (Z.to_pos p)
      | _ => S754_zero s
      end
  | _ => x
  end.

(** Decimal digits of a non-negative integer, most significant first. *)
Fixpoint digits_fuel (fuel : nat) (n : Z) (acc : list N) : list N :=
  match fuel with
  | O => acc
  | S fuel' =>
      let acc' := (48 + Z.to_N (n mod 10))%N :: acc in
      if n <? 10 then acc' else digits_fuel fuel' (n / 10) acc'
  end.

Definition digits (n : Z) : list N := digits_fuel (S (Z.to_nat (Z.log2 n))) n [].

(** [decpt num den] is the integer [E] with [10^(E-1) <= num/den < 10^E]. *)
Fixpoint decpt_up (fuel : nat) (num den E : Z) : Z :=
  match fuel with
  | O => E
  | S fuel' => if num <? den * 10 ^ E then E else decpt_up fuel' num den (E + 1)
  end.

Fixpoint decpt_down (fuel : nat) (num den E : Z) : Z :=
  match fuel with
  | O => E
  | S fuel' => if den <=? num * 10 ^ (1 - E) then E else decpt_down fuel' num den (E - 1)
  end.

Definition decpt (num den : Z) : Z :=
  if den <=? num then decpt_up 400 num den 1 else decpt_down 400 num den 0.

Definition same_finite (x y : spec_float) : bool :=
  match x, y with
  | S754_finite _ m1 e1, S754_finite _ m2 e2 => Pos.eqb m1 m2 && Z.eqb e1 e2
  | _, _ => false
  end.

(** The two [p]-digit decimals around [num/den], as [(c, q)] for [c * 10^q]:
    the one that reads back as [x] is kept, the nearer one when both do. *)
Definition candidate (x : spec_float) (num den E p : Z) : option (Z * Z) :=
  let q := E - p in
  let n' := num * 10 ^ Z.max (- q) 0 in
  let d' := den * 10 ^ Z.max q 0 in
  let lo := n' / d' in
  let r := n' mod d' in
  let hi := if r =? 0 then lo else lo + 1 in
  let ok c := same_finite (of_decimal (Z.to_pos c) q) x in
  let prefer_lo := match 2 * r ?= d' with Lt => true | Gt => false | Eq => Z.even lo end in
  match ok lo, ok hi with
  | true, true => Some (if prefer_lo then lo else hi, q)
  | true, false => Some (lo, q)
  | false, true => Some (hi, q)
  | false, false => None
  end.

(** The shortest decimal that reads back as [x]: 17 digits always do. *)
Fixpoint shortest (fuel : nat) (x : spec_float) (num den E p : Z) : Z * Z :=
  match fuel with
  | O => (0, 0)
  | S fuel' =>
      match candidate x num den E p with
      | Some cq => cq
      | None => shortest fuel' x num den E (p + 1)
      end
  end.

Fixpoint strip_zeros (fuel : nat) (c q : Z) : Z * Z :=
  match fuel with
  | O => (c, q)
  | S fuel' =>
      if (c mod 10 =? 0) && (0 <? c) then strip_zeros fuel' (c / 10) (q + 1) else (c, q)
  end.

Definition zeros (n : Z) : list N := repeat 48%N (Z.to_nat n).

Definition sign_str (s : bool) : list N := if s then str "-" else [].

(** [repr(x)], which is also [str(x)] and what an f-string field without a
    format specification inserts. *)
Definition repr (x : spec_float) : list N :=
  match x with
  | S754_nan => str "nan"
  | S754_infinity s => sign_str s ++ str "inf"
  | S754_zero s => sign_str s ++ str "0.0"
  | S754_finite s m e =>
      let num := num_of m e in
      let den := den_of e in
      let '(c0, q0) := shortest 17 x num den (decpt num den) 1 in
      let '(c, q) := strip_zeros 20 c0 q0 in
      let ds := digits c in
      let n := Z.of_nat (length ds) in
      let pt := q + n in
      let body :=
        if (pt <=? -4) || (16 <? pt) then
          firstn 1 ds ++ (if 1 <? n then str "." ++ skipn 1 ds else [])
          ++ str "e" ++ (if pt - 1 <? 0 then str "-" else str "+")
          ++ (if Z.abs (pt - 1) <? 10 then str "0" else []) ++ digits (Z.abs (pt - 1))
        else if pt <=? 0 then str "0." ++ zeros (- pt) ++ ds
        else if pt <? n then firstn (Z.to_nat pt) ds ++ str "." ++ skipn (Z.to_nat pt) ds
        else ds ++ zeros (pt - n) ++ str ".0" in
      sign_str s ++ body
  end.

End PyFloat.

(** ** [src/sentiment_api.py] *)

Notation pydict := (gmap (list N) pyval) (only parsing).

Module SentimentApi.

(** One entry [{'label': ..., 'score': ...}] of a pipeline's output. *)
Record class_score := ClassScore { cs_label : list N; cs_score : spec_float }.

(** The transformers library, as the two functions use it:
    - [import_pipeline] is [from transformers import pipeline];
    - [pipeline_all_scores] is the call
      [pipeline("sentiment-analysis", model=MODEL, return_all_scores=True)],
      whose result maps a text to one list of class scores per input;
    - [pipeline_default] is the call [pipeline("sentiment-analysis")], whose
      result maps a text to one top class per input. *)
Record transformers := {
  import_pipeline : outcome unit;
  pipeline_all_scores : outcome (list N -> outcome (list (list class_score)));
  pipeline_default : outcome (list N -> outcome (list class_score))
}.

Definition MODEL : list N := str "cardiffnlp/twitter-roberta-base-sentiment-latest".

(** *** Module level: application name and deployment descriptor *)

Record image_spec := { python_version : list N; pip_packages : list (list N) }.

Definition image : image_spec :=
  {| python_version := str "3.11";
     pip_packages := [str "transformers==4.36.0"; str "torch==2.1.0";
                      str "fastapi==0.104.1"; str "pydantic==2.5.0"] |}.

(** The arguments of an [@app.function(...)] decorator. *)
Record function_options := {
  fn_image : image_spec;
  fn_timeout : option Z;
  fn_concurrency_limit : option Z
}.

Section Config.

(** [int(s)] for a [str]. *)
Variable int_of_str : list N -> outcome Z.

(** [os.environ] as [os.getenv] sees it, after [load_dotenv('.env.local')]. *)
Variable environ : gmap (list N) (list N).

(** [os.getenv("SENTIMENT_APP_NAME", "sentiment-analyzer")] *)
Definition app_name : list N :=
  default (str "sentiment-analyzer") (environ !! str "SENTIMENT_APP_NAME").

(** [int(os.getenv("MAX_CONCURRENT_REQUESTS", 10))] *)
Definition concurrency_limit : outcome Z :=
  match environ !! str "MAX_CONCURRENT_REQUESTS" with
  | Some s => int_of_str s
  | None => Returns 10
  end.

(** The decorator of [analyze_sentiment]. *)
Definition analyze_sentiment_options : outcome function_options :=
  match concurrency_limit with
  | Returns limit =>
      Returns {| fn_image := image; fn_timeout := Some 300; fn_concurrency_limit := Some limit |}
  | Raises e => Raises e
  end.

End Config.

(** The decorators of the other three functions. *)
Definition sentiment_endpoint_options : function_options :=
  {| fn_image := image; fn_timeout := None; fn_concurrency_limit := None |}.

Definition health_check_options : function_options :=
  {| fn_image := image; fn_timeout := None; fn_concurrency_limit := None |}.

Definition batch_sentiment_analysis_options : function_options :=
  {| fn_image := image; fn_timeout := Some 600; fn_concurrency_limit := None |}.

(** *** The label mapping *)

(** A value [{'label': ..., 'emoji': ...}] of [label_map]. *)
Record display := Display { d_label : list N; d_emoji : list N }.

(** The glyphs, code point by code point as the source text has them. *)
Definition glyph_negative : list N := [240; 376; 732; 382]%N.
Definition glyph_neutral : list N := [240; 376; 732]%N.
Definition glyph_positive : list N := [240; 376; 732; 352]%N.
Definition glyph_unknown : list N := [240; 376; 164; 8221]%N.

Definition label_map : gmap (list N) display :=
  {[ str "LABEL_0" := Display (str "Negative") glyph_negative;
     str "LABEL_1" := Display (str "Neutral") glyph_neutral;
     str "LABEL_2" := Display (str "Positive") glyph_positive;
     str "negative" := Display (str "Negative") glyph_negative;
     str "neutral" := Display (str "Neutral") glyph_neutral;
     str "positive" := Display (str "Positive") glyph_positive ]}.

(** [label_map.get(label.lower(), {'label': label, 'emoji': ...})] *)
Definition mapped_of (label : list N) : display :=
  default (Display label glyph_unknown) (label_map !! PyStr.lower label).

(** *** [analyze_sentiment] *)

(** [max(results, key=lambda x: x['score'])]: the first item whose score no
    later item exceeds. *)
Fixpoint max_from (best : class_score) (rest : list class_score) : class_score :=
  match rest with
  | [] => best
  | item :: rest' =>
      max_from (if PyFloat.gt (cs_score item) (cs_score best) then item else best) rest'
  end.

Definition max_by_score (results : list class_score) : outcome class_score :=
  match results with
  | first :: rest => Returns (max_from first rest)
  | [] => Raises (Exn ValueError (str "max() arg is an empty sequence"))
  end.

Definition success_result (text : list N) (top_result : class_score) : gmap (list N) pyval :=
  let label := cs_label top_result in
  let score := cs_score top_result in
  let mapped := mapped_of label in
  {[ str "text" := VStr text;
     str "label" := VStr (d_label mapped);
     str "score" := VFloat (PyFloat.round score 3);
     str "confidence" :=
       VStr (PyFloat.repr (PyFloat.round (PyFloat.mul score (PyFloat.of_Z 100)) 1) ++ str "%");
     str "emoji" := VStr (d_emoji mapped);
     str "status" := VStr (str "success") ]}.

Definition error_result (text : list N) (e : exn) : gmap (list N) pyval :=
  {[ str "text" := VStr text;
     str "error" := VStr (exc_msg e);
     str "status" := VStr (str "error") ]}.

(** The Modal client, at a call [f.remote(text)] of a deployed function:
    - [remote_call f text] is the outcome of the invocation itself, before
      the body of [f] runs (it raises when the application is not running
      or the function cannot be reached);
    - [remote_return f text] is the outcome of waiting for the result once
      the body has returned (it raises on a timeout or a lost connection).
    When both return, the call gives what the body gives, and an exception
    of the body is raised to the caller. *)
Record modal_client := {
  remote_call : list N -> list N -> outcome unit;
  remote_return : list N -> list N -> outcome unit
}.

Section Functions.

Variable T : transformers.
Variable P : modal_client.

Definition analyze_sentiment (text : list N) : M (gmap (list N) pyval) :=
  external (Import (str "transformers")) (import_pipeline T) ;;
  sentiment_pipeline <-
    external (PipelineNew (str "sentiment-analysis") (Some MODEL) true) (pipeline_all_scores T) ;;
  try_except
    (output <- external (PipelineCall text) (sentiment_pipeline text) ;;
     results <- lift (getitem0 output) ;;
     top_result <- lift (max_by_score results) ;;
     ret (success_result text top_result))
    is_Exception
    (fun e => ret (error_result text e)).

(** [analyze_sentiment.remote(text)]: the call is recorded; the platform
    may refuse it, otherwise the body runs, and the platform may still fail
    to hand a returned result back. *)
Definition analyze_sentiment_remote (text : list N) : M (gmap (list N) pyval) :=
  external (RemoteCall (str "analyze_sentiment") text)
    (remote_call P (str "analyze_sentiment") text) ;;
  result <- analyze_sentiment text ;;
  lift (remote_return P (str "analyze_sentiment") text) ;;
  ret result.

Definition validation_error : gmap (list N) pyval :=
  {[ str "error" := VStr (str "Please provide text to analyze");
     str "status" := VStr (str "error") ]}.

(** The test [not text or text.strip() == ""] is read by the type of [text]:
    on a [str] it is the source's test; any other falsy value passes
    [not text]; any other truthy value has no [strip]. *)
Definition sentiment_endpoint (data : gmap (list N) pyval) : M (gmap (list N) pyval) :=
  let text := default (VStr (str "")) (data !! str "text") in
  match text with
  | VStr s =>
      if negb (truthy text) || bool_decide (PyStr.strip s = str "") then ret validation_error
      else result <- analyze_sentiment_remote s ;; ret result
  | v =>
      if negb (truthy v) then ret validation_error
      else raise (Exn AttributeError
                    (str "'" ++ type_name v ++ str "' object has no attribute 'strip'"))
  end.

Definition health_check : M (gmap (list N) pyval) :=
  ret {[ str "status" := VStr (str "healthy");
         str "service" := VStr (str "sentiment-analyzer");
         str "message" :=
           VStr (str "Ready to analyze sentiment! Send POST requests to /sentiment_endpoint") ]}.

(** *** [batch_sentiment_analysis] *)

Definition batch_success (text : list N) (result : class_score) : gmap (list N) pyval :=
  {[ str "text" := VStr text;
     str "label" := VStr (cs_label result);
     str "score" := VFloat (PyFloat.round (cs_score result) 3);
     str "status" := VStr (str "success") ]}.

(** The body of the [for] loop: one [results.append(...)]. *)
Definition batch_step (sentiment_pipeline : list N -> outcome (list class_score))
    (results : list (gmap (list N) pyval)) (text : list N) : M (list (gmap (list N) pyval)) :=
  try_except
    (output <- external (PipelineCall text) (sentiment_pipeline text) ;;
     result <- lift (getitem0 output) ;;
     ret (results ++ [batch_success text result]))
    is_Exception
    (fun e => ret (results ++ [error_result text e])).

(** [for text in texts: ...] *)
Fixpoint batch_loop (sentiment_pipeline : list N -> outcome (list class_score))
    (results : list (gmap (list N) pyval)) (texts : list (list N))
    : M (list (gmap (list N) pyval)) :=
  match texts with
  | [] => ret results
  | text :: texts' =>
      results' <- batch_step sentiment_pipeline results text ;;
      batch_loop sentiment_pipeline results' texts'
  end.

Definition batch_sentiment_analysis (texts : list (list N)) : M (list (gmap (list N) pyval)) :=
  external (Import (str "transformers")) (import_pipeline T) ;;
  sentiment_pipeline <-
    external (PipelineNew (str "sentiment-analysis") None false) (pipeline_default T) ;;
  batch_loop sentiment_pipeline [] texts.

End Functions.

End SentimentApi.

(** *** [test_local] *)

Module SentimentApiLocal.

Import SentimentApi.

(** [result[key]], for the keys the harness reads (plain identifiers). *)
Definition getitem (result : gmap (list N) pyval) (key : list N) : outcome pyval :=
  match result !! key with
  | Some v => Returns v
  | None => Raises (Exn (OtherException (str "KeyError")) (str "'" ++ key ++ str "'"))
  end.

Definition test_texts : list (list N) :=
  [str "I love this workshop!"; str "This is terrible"; str "It's an okay day";
   str "Machine learning is amazing!"].

(** The first line printed, code point by code point as the source text
    has it. *)
Definition test_banner : list N :=
  [240; 376; 167; 170]%N ++ str " Testing sentiment analysis locally...".

Definition rule : list N := concat (repeat (str "-") 50).

Section TestLocal.

Variable T : transformers.
Variable P : modal_client.

(** [str(v)] for a value that is not a [str]. *)
Variable str_of_value : pyval -> list N.

(** A replacement field [{v}] of an f-string. *)
Definition format_field (v : pyval) : list N :=
  match v with
  | VStr s => s
  | _ => str_of_value v
  end.

(** The body of the [for] loop. *)
Definition test_one (text : list N) : M unit :=
  result <- analyze_sentiment_remote T P text ;;
  print (str "Text: '" ++ text ++ str "'") ;;
  label <- lift (getitem result (str "label")) ;;
  emoji <- lift (getitem result (str "emoji")) ;;
  confidence <- lift (getitem result (str "confidence")) ;;
  print (str "Result: " ++ format_field label ++ str " " ++ format_field emoji
         ++ str " (" ++ format_field confidence ++ str ")") ;;
  print rule.

Fixpoint test_loop (texts : list (list N)) : M unit :=
  match texts with
  | [] => ret tt
  | text :: texts' => test_one text ;; test_loop texts'
  end.

Definition test_local : M unit :=
  print test_banner ;;
  test_loop test_texts.

End TestLocal.

End SentimentApiLocal.

(** ** [src/modal_setup.py] *)

Module ModalSetup.

(** The machine the script runs on: the outcome of each call that leaves the
    program, in the order of the source.
    - [import_modal]: [import modal] in [check_modal_installation];
    - [pip_install]: [subprocess.check_call([sys.executable, "-m", "pip", "install", "modal"])];
    - [env_local_exists]: [os.path.exists('.env.local')];
    - [load_dotenv]: [load_dotenv('.env.local')];
    - [modal_setup]: [subprocess.run(["modal", "setup"], check=True, ...)];
    - [import_modal_again]: [import modal] in [verify_modal_connection];
    - [app_new]: [modal.App("test-connection")];
    - [app_function]: the decorator [@app.function()] on [test_function]. *)
Record host := {
  sys_executable : list N;
  import_modal : outcome unit;
  pip_install : outcome unit;
  env_local_exists : bool;
  load_dotenv : outcome unit;
  modal_setup : outcome unit;
  import_modal_again : outcome unit;
  app_new : outcome unit;
  app_function : outcome unit
}.

Definition pip_argv (executable : list N) : list (list N) :=
  [executable; str "-m"; str "pip"; str "install"; str "modal"].

Definition setup_argv : list (list N) := [str "modal"; str "setup"].

Section Script.

Variable H : host.

Definition check_modal_installation : M bool :=
  try_except
    (external (Import (str "modal")) (import_modal H) ;;
     print (str "Modal is already installed - ready to proceed") ;;
     ret true)
    is_ImportError
    (fun _ =>
       print (str "Modal not found on your system - installing now...") ;;
       print (str "This may take a minute to download and install...") ;;
       external (Subprocess (pip_argv (sys_executable H))) (pip_install H) ;;
       print (str "Modal installed successfully") ;;
       ret true).

Definition setup_modal_auth : M bool :=
  print (nl ++ str "Setting up Modal authentication...") ;;
  print (str "This will open a browser window where you can:") ;;
  print (str "1. Create a free Modal account (if you don't have one)") ;;
  print (str "2. Authorize this computer to deploy to Modal") ;;
  print (str "3. Get your authentication tokens") ;;
  try_except
    (external (Subprocess setup_argv) (modal_setup H) ;;
     print (str "Modal authentication successful - you can now deploy models") ;;
     ret true)
    is_CalledProcessError
    (fun e =>
       print (str "Modal setup failed with error: " ++ exc_msg e) ;;
       print (str "Please run 'modal setup' manually in your terminal and try again") ;;
       ret false).

Definition verify_modal_connection : M bool :=
  try_except
    (external (Import (str "modal")) (import_modal_again H) ;;
     external (AppNew (str "test-connection")) (app_new H) ;;
     external (AppFunction (str "test_function")) (app_function H) ;;
     print (str "Modal connection verified - ready to deploy real models") ;;
     ret true)
    is_Exception
    (fun e =>
       print (str "Modal connection test failed: " ++ exc_msg e) ;;
       print (str "Try running 'modal setup' again or check your internet connection") ;;
       ret false).

Definition load_environment : M unit :=
  found <- external (PathExists (str ".env.local")) (Returns (env_local_exists H)) ;;
  if (found : bool) then
    external (LoadDotenv (str ".env.local")) (load_dotenv H) ;;
    print (str "Custom environment variables loaded from .env.local") ;;
    print (str "You can edit .env.local to customize app names and settings")
  else
    print (str "No .env.local file found - using default settings") ;;
    print (str "You can create .env.local later to customize your deployments").

Definition step1_banner : list N := str "Step 1: Checking Modal installation...".
Definition step2_banner : list N := nl ++ str "Step 2: Loading environment settings...".
Definition step3_banner : list N := nl ++ str "Step 3: Setting up Modal authentication...".
Definition step4_banner : list N := nl ++ str "Step 4: Verifying Modal connection...".
Definition install_failed : list N := str "Failed to install Modal - please install manually".

Definition main : M bool :=
  print (str "Modal Workshop Setup") ;;
  print (str "This script will prepare your computer for serverless ML deployment") ;;
  print (concat (repeat (str "=") 60)) ;;
  print step1_banner ;;
  installed <- check_modal_installation ;;
  if negb installed then
    print install_failed ;;
    ret false
  else
  print step2_banner ;;
  load_environment ;;
  print step3_banner ;;
  authenticated <- setup_modal_auth ;;
  if negb authenticated then
    print (str "Authentication failed - please try manual setup") ;;
    ret false
  else
  print step4_banner ;;
  connected <- verify_modal_connection ;;
  if negb connected then
    print (str "Connection test failed - please check setup") ;;
    ret false
  else
  print (nl ++ str "Setup complete! Your system is ready for serverless ML deployment") ;;
  print (nl ++ str "What you can do now:") ;;
  print (str "1. Deploy simple models: python sentiment_api.py") ;;
  print (str "2. Deploy to Modal cloud: modal deploy sentiment_api.py") ;;
  print (str "3. Test your deployments: python test_deployment.py") ;;
  print (str "4. Try GPU models: modal deploy image_classifier.py") ;;
  ret true.

(** The [if __name__ == "__main__":] block, run from an empty trace: what
    the run did and the exit status of the process. [sys.exit(1)] exits with
    status 1; the interpreter exits with status 1 on an uncaught [Exception]
    and with 130 on an uncaught [KeyboardInterrupt]; falling off the end of
    the script exits with status 0. *)
Definition script : list event * Z :=
  match main [] with
  | (Returns success, tr) =>
      if negb success then
        (tr ++ [Print (nl ++ str "Setup failed - please ask for help before proceeding")], 1)
      else (tr ++ [Print (nl ++ str "You're all set! Start with sentiment_api.py")], 0)
  | (Raises e, tr) => (tr, if is_Exception e then 1 else 130)
  end.

End Script.

End ModalSetup.

(** ** Vocabulary of the statements *)

Module PyFloatSpec.

(** Zero or a positive finite number: the shape of a float in [0, 1]. *)
Definition unit_like (x : spec_float) : Prop :=
  match x with
  | S754_zero _ => True
  | S754_finite s _ _ => s = false
  | _ => False
  end.

Definition sign_of (x : spec_float) : bool :=
  match x with
  | S754_zero s | S754_infinity s | S754_finite s _ _ => s
  | S754_nan => false
  end.

(** The exact value of a finite float is [value_num x / value_den x], with
    [0 < value_den x]. *)
Definition value_num (x : spec_float) : Z :=
  match x with
  | S754_finite s m e => if s then - (Zpos m * 2 ^ Z.max e 0) else Zpos m * 2 ^ Z.max e 0
  | _ => 0
  end.

Definition value_den (x : spec_float) : Z :=
  match x with
  | S754_finite _ _ e => 2 ^ Z.max (- e) 0
  | _ => 1
  end.

(** One unit in the last place of [x] is [ulp_num x / value_den x]. *)
Definition ulp_num (x : spec_float) : Z :=
  match x with
  | S754_finite _ _ e => 2 ^ Z.max e 0
  | _ => 0
  end.

(** [x] is the fraction [num / den] (with [0 <= num] and [0 < den])
    rounded to the nearest double, ties to even: [x] is valid and not
    negative; it is a zero only when the fraction is zero; otherwise it
    lies within half a unit in its last place of the fraction, with an even
    mantissa when it lies exactly half a unit away; and when [x] is a power
    of two above the fraction, where the doubles below [x] are twice as
    close to each other, it lies within a quarter of a unit. *)
Definition correctly_rounded (x : spec_float) (num den : Z) : bool :=
  valid_binary 53 1024 x &&
  match x with
  | S754_zero _ => num =? 0
  | S754_finite false m e =>
      let above := value_num x * den - num * value_den x in
      let unit := ulp_num x * den in
      ((2 * Z.abs above <? unit) || ((2 * Z.abs above =? unit) && Z.even (Zpos m)))
      && (if (Zpos m =? 2 ^ 52) && (-1074 <? e) && (0 <? above) then 4 * above <=? unit
          else true)
  | _ => false
  end.

(** The doubles that a computation can return as a number: the zeros and
    the valid finite numbers. *)
Definition is_double (y : spec_float) : Prop :=
  valid_binary 53 1024 y = true /\
  match y with
  | S754_zero _ | S754_finite _ _ _ => True
  | _ => False
  end.

(** [x] is at least as near to the fraction [num / den] as [y] is. *)
Definition no_farther (x y : spec_float) (num den : Z) : Prop :=
  Z.abs (value_num x * den - num * value_den x) * value_den y <=
  Z.abs (value_num y * den - num * value_den y) * value_den x.

(** The exact value of a double in units of [2^-1074], the least positive
    double: an integer. *)
Definition scaled (x : spec_float) : Z :=
  match x with
  | S754_finite s m e => if s then - (Zpos m * 2 ^ (e + 1074)) else Zpos m * 2 ^ (e + 1074)
  | _ => 0
  end.

(** After [k] shifts of the mantissa [M], the record holds the quotient by
    [2^k], and its two bits tell where the remainder lies. *)
Definition located (M k : Z) (mrs : shr_record) : Prop :=
  0 <= shr_m mrs /\
  exists rest,
    M = shr_m mrs * 2 ^ k + rest /\ 0 <= rest < 2 ^ k /\
    match shr_r mrs, shr_s mrs with
    | false, false => rest = 0
    | false, true => 0 < rest /\ 2 * rest < 2 ^ k
    | true, false => 2 * rest = 2 ^ k
    | true, true => 2 ^ k < 2 * rest
    end.

(** [k] is the integer nearest to [num / den] (with [0 < den]), the even
    one when two integers are equally near. *)
Definition nearest_integer (k num den : Z) : Prop :=
  2 * Z.abs (num - k * den) <= den /\
  (2 * Z.abs (num - k * den) = den -> Z.even k = true).

(** A valid double whose exact value lies in [0, 1]. *)
Definition probability (x : spec_float) : Prop :=
  valid_binary 53 1024 x = true /\ unit_like x /\ value_num x <= value_den x.

(** The character of a decimal digit. *)
Definition digit (d : Z) : N := (48 + Z.to_N d)%N.

(** The numeral of [j / 10] with one decimal place, for [0 <= j < 10000]:
    ["0.5"] for 5, ["90.0"] for 900, ["100.0"] for 1000. *)
Definition tenths (j : Z) : list N :=
  (if j <? 100 then [digit (j / 10)]
   else if j <? 1000 then [digit (j / 100); digit (j / 10 mod 10)]
   else [digit (j / 1000); digit (j / 100 mod 10); digit (j / 10 mod 10)])
  ++ str "." ++ [digit (j mod 10)].

End PyFloatSpec.

Module SentimentApiSpec.

Import SentimentApi.

(** The request body has no usable text: the key is missing, or its value
    is a string of whitespace only (the empty string included). *)
Definition blank_text (data : gmap (list N) pyval) : Prop :=
  data !! str "text" = None \/
  exists s, data !! str "text" = Some (VStr s) /\ Forall (fun c => PyStr.is_space c = true) s.

(** What the batch loop appends for one text. *)
Definition batch_entry (pipe : list N -> outcome (list class_score)) (text : list N)
    : gmap (list N) pyval :=
  match pipe text with
  | Returns (result :: _) => batch_success text result
  | Returns [] => error_result text (Exn IndexError (str "list index out of range"))
  | Raises e => error_result text e
  end.

(** The analysis of one text by the default pipeline fails. *)
Definition item_fails (pipe : list N -> outcome (list class_score)) (text : list N) : Prop :=
  match pipe text with
  | Returns (_ :: _) => False
  | _ => True
  end.

(** A transformers installation whose pipelines give the same answer to
    every text. *)
Definition answering (all : outcome (list (list class_score)))
    (top : outcome (list class_score)) : transformers :=
  {| import_pipeline := Returns tt;
     pipeline_all_scores := Returns (fun _ => all);
     pipeline_default := Returns (fun _ => top) |}.

(** 0.9 and 0.1 *)
Definition nine_tenths : spec_float := PyFloat.nearest false 9 10.
Definition one_tenth : spec_float := PyFloat.nearest false 1 10.

(** The classifier is sure of one class, which it calls [label]. *)
Definition sure_of (label : list N) : transformers :=
  answering (Returns [[ClassScore label nine_tenths]]) (Returns [ClassScore label nine_tenths]).

(** The specification's reading of the table, a lookup without regard to
    case: [d] is the entry of a key that equals [label] once both are
    lowered. *)
Definition table_entry (label : list N) (d : display) : Prop :=
  exists key, label_map !! key = Some d /\ PyStr.lower key = PyStr.lower label.

(** 0.03 and 0.07 *)
Definition three_hundredths : spec_float := PyFloat.nearest false 3 100.
Definition seven_hundredths : spec_float := PyFloat.nearest false 7 100.

(** A three-way classifier that names its classes by index and is sure of
    the last one. *)
Definition index_labelled : transformers :=
  answering
    (Returns [[ClassScore (str "LABEL_0") three_hundredths;
               ClassScore (str "LABEL_1") seven_hundredths;
               ClassScore (str "LABEL_2") nine_tenths]])
    (Returns [ClassScore (str "LABEL_2") nine_tenths]).

(** The model cannot be loaded. *)
Definition load_error : exn :=
  Exn (OtherException (str "OSError"))
      (str "cardiffnlp/twitter-roberta-base-sentiment-latest is not a valid model identifier").

Definition unloadable : transformers :=
  {| import_pipeline := Returns tt;
     pipeline_all_scores := Raises load_error;
     pipeline_default := Raises load_error |}.

(** A default pipeline that fails on the text ["b"] only. *)
Definition runtime_error : exn := Exn (OtherException (str "RuntimeError")) (str "out of memory").

Definition fails_on_b : transformers :=
  {| import_pipeline := Returns tt;
     pipeline_all_scores :=
       Returns (fun text => if bool_decide (text = str "b") then Raises runtime_error
                            else Returns [[ClassScore (str "neutral") one_tenth;
                                           ClassScore (str "positive") nine_tenths]]);
     pipeline_default :=
       Returns (fun text => if bool_decide (text = str "b") then Raises runtime_error
                            else Returns [ClassScore (str "POSITIVE") nine_tenths]) |}.

(** The name under which [analyze_sentiment] is called remotely. *)
Definition analysis : list N := str "analyze_sentiment".

(** The platform runs the remote analysis of [text] and hands its result
    back. *)
Definition delivers (P : modal_client) (text : list N) : Prop :=
  remote_call P analysis text = Returns tt /\ remote_return P analysis text = Returns tt.

(** A deployed application that is running. *)
Definition running : modal_client :=
  {| remote_call := fun _ _ => Returns tt; remote_return := fun _ _ => Returns tt |}.

Definition execution_error : exn :=
  Exn (OtherException (str "ExecutionError"))
      (str "Function has not been hydrated with the metadata it needs to run on Modal, because the App it is defined on is not running.").

(** The application is not running: every remote call is refused. *)
Definition not_running : modal_client :=
  {| remote_call := fun _ _ => Raises execution_error;
     remote_return := fun _ _ => Returns tt |}.

Definition timeout_error : exn :=
  Exn (OtherException (str "FunctionTimeoutError")) (str "Task exceeded its timeout of 300s").

(** The platform gives up waiting for every result. *)
Definition timing_out : modal_client :=
  {| remote_call := fun _ _ => Returns tt;
     remote_return := fun _ _ => Raises timeout_error |}.

(** The events of [analyze_sentiment]: each call imports, constructs the
    pipeline and, when that succeeds, calls it once. *)
Definition analysis_events (T : transformers) (text : list N) : list event :=
  Import (str "transformers") ::
  match import_pipeline T with
  | Raises _ => []
  | Returns _ =>
      PipelineNew (str "sentiment-analysis") (Some MODEL) true ::
      match pipeline_all_scores T with
      | Raises _ => []
      | Returns _ => [PipelineCall text]
      end
  end.

(** A line of output; any other event is a call that leaves the program. *)
Definition is_print (ev : event) : bool :=
  match ev with
  | Print _ => true
  | _ => false
  end.

Definition is_call (ev : event) : bool := negb (is_print ev).

(** The calls [test_local] makes for one text. *)
Definition test_calls (T : transformers) (text : list N) : list event :=
  RemoteCall (str "analyze_sentiment") text :: analysis_events T text.

Definition key_error (key : list N) : exn :=
  Exn (OtherException (str "KeyError")) (str "'" ++ key ++ str "'").

(** A classifier that answers every text with an empty list. *)
Definition unanswered : transformers := answering (Returns []) (Returns []).

Definition keyboard_interrupt : exn := Exn KeyboardInterrupt [].

(** A default pipeline that is interrupted on the text ["b"]. *)
Definition interrupted_on_b : transformers :=
  {| import_pipeline := Returns tt;
     pipeline_all_scores := Raises load_error;
     pipeline_default :=
       Returns (fun text => if bool_decide (text = str "b") then Raises keyboard_interrupt
                            else Returns [ClassScore (str "POSITIVE") nine_tenths]) |}.

End SentimentApiSpec.

Module ModalSetupSpec.

Import ModalSetup.

(** An event other than a line of output. *)
Definition is_action (ev : event) : bool :=
  match ev with
  | Print _ => false
  | _ => true
  end.

(** The run printed [line]. *)
Definition printed (line : list N) (tr : list event) : bool :=
  existsb (fun ev => match ev with
                     | Print l => bool_decide (l = line)
                     | _ => false
                     end) tr.

(** Lines of [main] and of the script. *)
Definition auth_failed_line : list N := str "Authentication failed - please try manual setup".
Definition connection_failed_line : list N := str "Connection test failed - please check setup".
Definition complete_line : list N :=
  nl ++ str "Setup complete! Your system is ready for serverless ML deployment".
Definition setup_failed_line : list N :=
  nl ++ str "Setup failed - please ask for help before proceeding".
Definition all_set_line : list N := nl ++ str "You're all set! Start with sentiment_api.py".

(** The calls of each step, when the step runs to its end. *)
Definition step1_actions (H : host) : list event :=
  Import (str "modal") ::
  match import_modal H with
  | Raises e => if is_ImportError e then [Subprocess (pip_argv (sys_executable H))] else []
  | Returns _ => []
  end.

Definition step2_actions (H : host) : list event :=
  PathExists (str ".env.local") ::
  (if env_local_exists H then [LoadDotenv (str ".env.local")] else []).

Definition step3_actions : list event := [Subprocess setup_argv].

(** The calls of step 4 that are reached: each one is made only when the
    one before it returned. *)
Definition step4_attempted (H : host) : list event :=
  Import (str "modal") ::
  match import_modal_again H with
  | Raises _ => []
  | Returns _ =>
      AppNew (str "test-connection") ::
      match app_new H with
      | Raises _ => []
      | Returns _ => [AppFunction (str "test_function")]
      end
  end.

(** Each step runs to its end and succeeds. *)
Definition step1_ok (H : host) : bool :=
  match import_modal H with
  | Returns _ => true
  | Raises e => is_ImportError e && is_returned (pip_install H)
  end.

Definition step2_ok (H : host) : bool :=
  if env_local_exists H then is_returned (load_dotenv H) else true.

Definition step3_ok (H : host) : bool := is_returned (modal_setup H).

Definition step4_ok (H : host) : bool :=
  is_returned (import_modal_again H) && is_returned (app_new H)
  && is_returned (app_function H).

(** Authentication fails: the command [modal setup] ends with a non-zero
    status, which [subprocess.run(..., check=True)] reports as a
    [CalledProcessError]. *)
Definition auth_fails (H : host) : bool :=
  match modal_setup H with
  | Raises e => is_CalledProcessError e
  | Returns _ => false
  end.

(** Verification fails: the first of its three calls that raises, raises
    an [Exception]. *)
Definition verification_fails (H : host) : bool :=
  match import_modal_again H with
  | Raises e => is_Exception e
  | Returns _ =>
      match app_new H with
      | Raises e => is_Exception e
      | Returns _ =>
          match app_function H with
          | Raises e => is_Exception e
          | Returns _ => false
          end
      end
  end.

(** The exception that escapes from each of the first three steps, if any:
    an import error of another class than [ImportError] or a failed
    installation; a failing [load_dotenv]; a failure of [modal setup] other
    than a [CalledProcessError]. *)
Definition escaping_step1 (H : host) : option exn :=
  match import_modal H with
  | Raises e =>
      if is_ImportError e then
        match pip_install H with
        | Raises e' => Some e'
        | Returns _ => None
        end
      else Some e
  | Returns _ => None
  end.

Definition escaping_step2 (H : host) : option exn :=
  if env_local_exists H then
    match load_dotenv H with
    | Raises e => Some e
    | Returns _ => None
    end
  else None.

Definition escaping_step3 (H : host) : option exn :=
  match modal_setup H with
  | Raises e => if is_CalledProcessError e then None else Some e
  | Returns _ => None
  end.

(** The first of them, in the order of the steps. *)
Definition escaping (H : host) : option exn :=
  match escaping_step1 H with
  | Some e => Some e
  | None =>
      match escaping_step2 H with
      | Some e => Some e
      | None => escaping_step3 H
      end
  end.

(** The exception that escapes from [verify_modal_connection], if any. *)
Definition escaping_verification (H : host) : option exn :=
  match import_modal_again H with
  | Raises e => if is_Exception e then None else Some e
  | Returns _ =>
      match app_new H with
      | Raises e => if is_Exception e then None else Some e
      | Returns _ =>
          match app_function H with
          | Raises e => if is_Exception e then None else Some e
          | Returns _ => None
          end
      end
  end.

(** A machine on which everything works, with Modal already installed. *)
Definition ready : host :=
  {| sys_executable := str "/usr/bin/python3";
     import_modal := Returns tt;
     pip_install := Returns tt;
     env_local_exists := false;
     load_dotenv := Returns tt;
     modal_setup := Returns tt;
     import_modal_again := Returns tt;
     app_new := Returns tt;
     app_function := Returns tt |}.



Definition pip_failed : exn :=
  Exn CalledProcessError
      (str "Command '['/usr/bin/python3', '-m', 'pip', 'install', 'modal']' returned non-zero exit status 1.").

(** A machine without Modal on which [pip install modal] fails. *)
Definition uninstallable : host :=
  {| sys_executable := str "/usr/bin/python3";
     import_modal := Raises (Exn ModuleNotFoundError (str "No module named 'modal'"));
     pip_install := Raises pip_failed;
     env_local_exists := false;
     load_dotenv := Returns tt;
     modal_setup := Returns tt;
     import_modal_again := Returns tt;
     app_new := Returns tt;
     app_function := Returns tt |}.

Definition no_modal_command : exn :=
  Exn FileNotFoundError (str "[Errno 2] No such file or directory: 'modal'").

(** The [modal] command is not on the path. *)
Definition without_cli : host :=
  {| sys_executable := str "/usr/bin/python3";
     import_modal := Returns tt;
     pip_install := Returns tt;
     env_local_exists := true;
     load_dotenv := Returns tt;
     modal_setup := Raises no_modal_command;
     import_modal_again := Returns tt;
     app_new := Returns tt;
     app_function := Returns tt |}.

Definition connection_refused : exn :=
  Exn (OtherException (str "ConnectionError")) (str "connection refused").

(** The Modal servers cannot be reached. *)
Definition offline : host :=
  {| sys_executable := str "/usr/bin/python3";
     import_modal := Returns tt;
     pip_install := Returns tt;
     env_local_exists := true;
     load_dotenv := Returns tt;
     modal_setup := Returns tt;
     import_modal_again := Returns tt;
     app_new := Raises connection_refused;
     app_function := Returns tt |}.

End ModalSetupSpec.

(** * Proofs *)

Module PyFloatFacts.
Import PyFloat PyFloatSpec.

Lemma digits2_bound (m : positive) : Zpos m < 2 ^ Zpos (digits2_pos m).
Proof.
  induction m as [m IH | m IH |]; simpl digits2_pos.
  - rewrite Pos2Z.inj_succ, Z.pow_succ_r by lia. lia.
  - rewrite Pos2Z.inj_succ, Z.pow_succ_r by lia. lia.
  - reflexivity.
Qed.

Lemma valid_mantissa_bound s m e :
  valid (S754_finite s m e) = true -> Zpos m < 2 ^ 53.
Proof.
  unfold valid, valid_binary, bounded, canonical_mantissa, fexp, emin, prec, emax.
  intros Hv. apply andb_prop in Hv as [Hc _]. apply Z.eqb_eq in Hc.
  pose proof (digits2_bound m) as Hd.
  assert (Zpos (digits2_pos m) <= 53) by lia.
  eapply Z.lt_le_trans; [exact Hd |].
  apply Z.pow_le_mono_r; lia.
Qed.

Lemma of_Z_0 : of_Z 0 = S754_zero false.
Proof. reflexivity. Qed.

Lemma of_Z_1 : of_Z 1 = S754_finite false 4503599627370496 (-52).
Proof. vm_compute. reflexivity. Qed.

Lemma SFleb_finite_pos m e c f :
  SFleb (S754_finite false m e) (S754_finite false c f) = true ->
  e < f \/ e = f /\ (m <= c)%positive.
Proof.
  unfold SFleb, SFcompare.
  destruct (Z.compare_spec e f) as [He | He | He]; [| auto | discriminate].
  intros Hm. right. split; [exact He |].
  pose proof (Pos.compare_spec m c) as Hs. unfold Pos.compare in Hs.
  destruct Hs; try discriminate; lia.
Qed.

Lemma in_unit_cases x :
  in_unit x = true ->
  (exists s, x = S754_zero s) \/
  (exists m e, x = S754_finite false m e /\ (e < -52 \/ e = -52 /\ Zpos m <= 2 ^ 52)).
Proof.
  unfold in_unit, le. rewrite of_Z_0, of_Z_1.
  intros Hu. apply andb_prop in Hu as [H0 H1].
  destruct x as [s | s | | s m e].
  - left. eauto.
  - destruct s; discriminate.
  - discriminate.
  - destruct s; [discriminate |]. right. exists m, e. split; [reflexivity |].
    apply SFleb_finite_pos in H1 as [He | [He Hm]]; [left; exact He | right].
    split; [exact He |]. apply Pos2Z.pos_le_pos in Hm. exact Hm.
Qed.

(** The exact value of a float in the unit interval is at most one. *)
Lemma unit_value_le_one m e :
  valid (S754_finite false m e) = true ->
  in_unit (S754_finite false m e) = true ->
  num_of m e <= den_of e.
Proof.
  intros Hv Hu. apply valid_mantissa_bound in Hv.
  apply in_unit_cases in Hu as [[s Hs] | (m' & e' & Heq & Hc)]; [discriminate |].
  injection Heq as <- <-.
  unfold num_of, den_of.
  destruct Hc as [He | [He Hm]].
  - rewrite Z.max_r, Z.max_l by lia. rewrite Z.pow_0_r, Z.mul_1_r.
    assert (2 ^ 53 <= 2 ^ (- e)) by (apply Z.pow_le_mono_r; lia). lia.
  - subst e. change (2 ^ Z.max (-52) 0) with 1. change (Z.max (- -52) 0) with 52.
    rewrite Z.mul_1_r. exact Hm.
Qed.

Lemma den_of_pos e : 0 < den_of e.
Proof. unfold den_of. apply Z.pow_pos_nonneg; lia. Qed.

Lemma num_of_pos m e : 0 < num_of m e.
Proof.
  unfold num_of. apply Z.mul_pos_pos; [lia |]. apply Z.pow_pos_nonneg; lia.
Qed.

(** [half_even] is within one half of the quotient. *)
Lemma half_even_close num den :
  0 < den -> Z.abs (2 * (num - half_even num den * den)) <= den.
Proof.
  intros Hd. unfold half_even.
  pose proof (Z.div_mod num den ltac:(lia)) as Hdm.
  pose proof (Z.mod_pos_bound num den Hd) as Hr.
  destruct (Z.compare_spec (2 * (num mod den)) den) as [Hc | Hc | Hc].
  - destruct (Z.even (num / den)); nia.
  - nia.
  - nia.
Qed.

Lemma half_even_range num den p :
  0 < den -> 0 <= p -> 0 <= num <= p * den -> 0 <= half_even num den <= p.
Proof.
  intros Hd Hp Hn. unfold half_even.
  pose proof (Z.div_mod num den ltac:(lia)) as Hdm.
  pose proof (Z.mod_pos_bound num den Hd) as Hr.
  assert (0 <= num / den) by (apply Z.div_pos; lia).
  assert (num / den <= p) by (apply Z.div_le_upper_bound; lia).
  assert (num / den = p -> num mod den = 0) by nia.
  destruct (Z.compare_spec (2 * (num mod den)) den) as [Hc | Hc | Hc].
  - destruct (Z.even (num / den)); lia.
  - lia.
  - lia.
Qed.


Lemma in_unit_zero s : in_unit (S754_zero s) = true.
Proof. unfold in_unit, le. rewrite of_Z_0, of_Z_1. reflexivity. Qed.

Lemma round_finite s m e n :
  round (S754_finite s m e) n =
  match half_even (num_of m e * 10 ^ Z.of_nat n) (den_of e) with
  | Zpos k => nearest s k (Z.to_pos (10 ^ Z.of_nat n))
  | _ => S754_zero s
  end.
Proof. reflexivity. Qed.

(** *** The order on floats of the unit interval *)

Lemma in_unit_like x : in_unit x = true -> unit_like x.
Proof.
  intros Hu. destruct (in_unit_cases x Hu) as [[s ->] | (m & e & -> & _)]; simpl; auto.
Qed.

Ltac order_cases :=
  unfold le, gt, SFleb, SFltb, SFcompare;
  repeat match goal with
         | |- context [Pos.compare_cont Eq ?a ?b] =>
             change (Pos.compare_cont Eq a b) with (Pos.compare a b)
         | H : context [Pos.compare_cont Eq ?a ?b] |- _ =>
             change (Pos.compare_cont Eq a b) with (Pos.compare a b) in H
         end;
  repeat match goal with
         | |- context [Z.compare ?a ?b] => destruct (Z.compare_spec a b)
         | H : context [Z.compare ?a ?b] |- _ => destruct (Z.compare_spec a b)
         | |- context [Pos.compare ?a ?b] => destruct (Pos.compare_spec a b)
         | H : context [Pos.compare ?a ?b] |- _ => destruct (Pos.compare_spec a b)
         end;
  try reflexivity; try discriminate; try lia.

Lemma le_refl x : unit_like x -> le x x = true.
Proof. destruct x as [s | s | | s m e]; simpl; intros H; try contradiction; subst; order_cases. Qed.

Lemma le_of_not_gt a b : unit_like a -> unit_like b -> gt a b = false -> le a b = true.
Proof.
  destruct a as [s | s | | s m e], b as [t | t | | t n f]; simpl; intros Ha Hb;
    try contradiction; subst; order_cases.
Qed.

Lemma le_of_gt a b : unit_like a -> unit_like b -> gt a b = true -> le b a = true.
Proof.
  destruct a as [s | s | | s m e], b as [t | t | | t n f]; simpl; intros Ha Hb;
    try contradiction; subst; order_cases.
Qed.

Lemma le_trans a b c :
  unit_like a -> unit_like b -> unit_like c ->
  le a b = true -> le b c = true -> le a c = true.
Proof.
  destruct a as [s | s | | s m e], b as [t | t | | t n f], c as [u | u | | u p g]; simpl;
    intros Ha Hb Hc; try contradiction; subst; order_cases.
Qed.


Lemma lt_trans a b c :
  unit_like a -> unit_like b -> unit_like c ->
  lt a b = true -> lt b c = true -> lt a c = true.
Proof.
  unfold lt.
  destruct a as [s | s | | s m e], b as [t | t | | t n f], c as [u | u | | u p g]; simpl;
    intros Ha Hb Hc; try contradiction; subst; order_cases.
Qed.

Lemma le_lt_trans a b c :
  unit_like a -> unit_like b -> unit_like c ->
  le a b = true -> lt b c = true -> lt a c = true.
Proof.
  unfold lt.
  destruct a as [s | s | | s m e], b as [t | t | | t n f], c as [u | u | | u p g]; simpl;
    intros Ha Hb Hc; try contradiction; subst; order_cases.
Qed.

End PyFloatFacts.

Module PyFloatRounding.
Import PyFloat PyFloatSpec PyFloatFacts.

(** *** The number of binary digits *)

Lemma digits2_lower (m : positive) : 2 ^ (Zpos (digits2_pos m) - 1) <= Zpos m.
Proof.
  induction m as [m IH | m IH |]; simpl digits2_pos.
  - rewrite Pos2Z.inj_succ. replace (Z.succ (Zpos (digits2_pos m)) - 1)
      with (Z.succ (Zpos (digits2_pos m) - 1)) by lia.
    rewrite Z.pow_succ_r by lia. lia.
  - rewrite Pos2Z.inj_succ. replace (Z.succ (Zpos (digits2_pos m)) - 1)
      with (Z.succ (Zpos (digits2_pos m) - 1)) by lia.
    rewrite Z.pow_succ_r by lia. lia.
  - simpl. lia.
Qed.

Lemma digits2_unique (m : positive) k :
  2 ^ (k - 1) <= Zpos m < 2 ^ k -> Zpos (digits2_pos m) = k.
Proof.
  intros [Hlo Hhi].
  pose proof (digits2_lower m) as Hl. pose proof (digits2_bound m) as Hu.
  assert (0 < k) as Hk.
  { destruct (Z.lt_trichotomy 0 k) as [? | [<- | Hneg]]; [assumption | simpl in Hhi; lia |].
    rewrite (Z.pow_neg_r 2 k) in Hhi by lia. lia. }
  destruct (Z.lt_trichotomy (Zpos (digits2_pos m)) k) as [Hlt | [Heq | Hgt]]; [| exact Heq |].
  - assert (2 ^ Zpos (digits2_pos m) <= 2 ^ (k - 1)) by (apply Z.pow_le_mono_r; lia). lia.
  - assert (2 ^ k <= 2 ^ (Zpos (digits2_pos m) - 1)) by (apply Z.pow_le_mono_r; lia). lia.
Qed.

(** *** Shifting with a round bit and a sticky bit *)

Lemma located_start M : 0 <= M -> located M 0 (Build_shr_record M false false).
Proof. intros HM. split; [exact HM |]. exists 0. simpl. lia. Qed.

Lemma located_shr_1 M k mrs :
  0 <= k -> located M k mrs -> located M (k + 1) (shr_1 mrs).
Proof.
  intros Hk [Hm (rest & HM & Hrest & Hloc)].
  destruct mrs as [m r s]. simpl in Hm, HM, Hloc.
  assert (0 < 2 ^ k) as Hpow by (apply Z.pow_pos_nonneg; lia).
  assert (2 ^ (k + 1) = 2 * 2 ^ k) as Hp2 by (rewrite Z.pow_add_r, Z.pow_1_r by lia; lia).
  unfold located. rewrite Hp2.
  destruct m as [| [p | p |] |]; [| | | | lia]; simpl shr_1; cbn [shr_m shr_r shr_s].
  - split; [lia |]. exists rest.
    split; [lia |]. split; [lia |]. destruct r, s; simpl; lia.
  - split; [lia |]. exists (2 ^ k + rest).
    split; [rewrite HM, (Pos2Z.inj_xI p); ring |]. split; [lia |].
    destruct r, s; simpl; lia.
  - split; [lia |]. exists rest.
    split; [rewrite HM, (Pos2Z.inj_xO p); ring |]. split; [lia |].
    destruct r, s; simpl; lia.
  - split; [lia |]. exists (2 ^ k + rest).
    split; [lia |]. split; [lia |]. destruct r, s; simpl; lia.
Qed.

Lemma located_iter M p : forall k mrs,
  0 <= k -> located M k mrs -> located M (k + Zpos p) (SpecFloat.iter_pos shr_1 p mrs).
Proof.
  induction p as [p IH | p IH |]; intros k mrs Hk Hloc; simpl SpecFloat.iter_pos.
  - replace (k + Zpos p~1) with (k + 1 + Zpos p + Zpos p) by lia.
    apply IH; [lia |]. apply IH; [lia |]. apply located_shr_1; assumption.
  - replace (k + Zpos p~0) with (k + Zpos p + Zpos p) by lia.
    apply IH; [lia |]. apply IH; assumption.
  - apply located_shr_1; assumption.
Qed.

(** Rounding to nearest, ties to even, after [n] shifts. *)
Lemma round_nearest_even_located M n mrs :
  0 <= n -> located M n mrs ->
  shr_m mrs <= round_nearest_even (shr_m mrs) (loc_of_shr_record mrs) <= shr_m mrs + 1 /\
  2 * Z.abs (round_nearest_even (shr_m mrs) (loc_of_shr_record mrs) * 2 ^ n - M) <= 2 ^ n /\
  (2 * Z.abs (round_nearest_even (shr_m mrs) (loc_of_shr_record mrs) * 2 ^ n - M) = 2 ^ n ->
   Z.even (round_nearest_even (shr_m mrs) (loc_of_shr_record mrs)) = true).
Proof.
  intros Hn [Hm (rest & HM & Hrest & Hloc)].
  destruct mrs as [m r s]. cbn [shr_m shr_r shr_s] in *.
  assert (0 < 2 ^ n) as Hpow by (apply Z.pow_pos_nonneg; lia).
  set (P := 2 ^ n) in *.
  destruct r, s; cbn [loc_of_shr_record round_nearest_even].
  - replace ((m + 1) * P - M) with (P - rest) by (rewrite HM; ring). lia.
  - destruct (Z.even m) eqn:Hev.
    + replace (m * P - M) with (- rest) by (rewrite HM; ring).
      split; [lia |]. split; [lia |]. intros _. exact Hev.
    + replace ((m + 1) * P - M) with (P - rest) by (rewrite HM; ring).
      split; [lia |]. split; [lia |]. intros _.
      rewrite Z.even_add, Hev. reflexivity.
  - replace (m * P - M) with (- rest) by (rewrite HM; ring). lia.
  - replace (m * P - M) with (- rest) by (rewrite HM; ring). lia.
Qed.

Lemma shr_none mrs e n : n <= 0 -> shr mrs e n = (mrs, e).
Proof. intros Hn. destruct n; [reflexivity | lia | reflexivity]. Qed.

Lemma shr_some mrs e p : shr mrs e (Zpos p) = (SpecFloat.iter_pos shr_1 p mrs, e + Zpos p).
Proof. reflexivity. Qed.

(** [binary_round_aux] on an exact mantissa that has to be shortened: the
    result is a valid double within half a unit in its last place of
    [M * 2^E], with an even mantissa when it is exactly half a unit away. *)
Lemma round_aux_exact s (M : positive) E :
  E < fexp prec emax (Zpos (digits2_pos M) + E) ->
  fexp prec emax (Zpos (digits2_pos M) + E) < emax - prec ->
  2 ^ (fexp prec emax (Zpos (digits2_pos M) + E) - E) <= Zpos M ->
  exists mp ep,
    binary_round_aux prec emax s (Zpos M) E loc_Exact = S754_finite s mp ep /\
    valid (S754_finite s mp ep) = true /\
    fexp prec emax (Zpos (digits2_pos M) + E) <= ep <=
      fexp prec emax (Zpos (digits2_pos M) + E) + 1 /\
    2 * Z.abs (Zpos mp * 2 ^ (ep - E) - Zpos M) <= 2 ^ (ep - E) /\
    (2 * Z.abs (Zpos mp * 2 ^ (ep - E) - Zpos M) = 2 ^ (ep - E) -> Z.even (Zpos mp) = true) /\
    (Zpos mp = 2 ^ 52 -> -1074 < ep -> Zpos M < Zpos mp * 2 ^ (ep - E) ->
     4 * (Zpos mp * 2 ^ (ep - E) - Zpos M) <= 2 ^ (ep - E)).
Proof.
  set (d := Zpos (digits2_pos M)). set (e1 := fexp prec emax (d + E)).
  intros Hshift Hover Hnz.
  assert (e1 = Z.max (d + E - 53) (-1074)) as He1 by reflexivity.
  assert (exists np, e1 - E = Zpos np) as [np Hnp]
    by (destruct (e1 - E) as [| np | np] eqn:Hn; [lia | eauto | lia]).
  unfold binary_round_aux, shr_fexp.
  change (Zdigits2 (Zpos M)) with d. fold e1. rewrite Hnp, shr_some.
  replace (E + Zpos np) with e1 by lia.
  pose proof (located_iter (Zpos M) np 0 _ ltac:(lia) (located_start (Zpos M) ltac:(lia))) as Hloc.
  rewrite Z.add_0_l in Hloc.
  set (mrs := SpecFloat.iter_pos shr_1 np _) in *.
  destruct (round_nearest_even_located (Zpos M) (Zpos np) mrs ltac:(lia) Hloc)
    as (Hm2 & Hclose & Htie).
  set (m2 := round_nearest_even (shr_m mrs) (loc_of_shr_record mrs)) in *.
  destruct Hloc as [Hm1 (rest & HM & Hrest & _)].
  set (m1 := shr_m mrs) in *.
  assert (0 < 2 ^ Zpos np) as Hpow by (apply Z.pow_pos_nonneg; lia).
  pose proof (digits2_bound M) as Hdu. pose proof (digits2_lower M) as Hdl. fold d in Hdu, Hdl.
  assert (m1 < 2 ^ 53) as Hm1u.
  { assert (2 ^ d <= 2 ^ (Zpos np + 53)) as Hle by (apply Z.pow_le_mono_r; lia).
    rewrite Z.pow_add_r in Hle by lia. nia. }
  assert (1 <= m1) as Hm1l by (rewrite <- Hnp in *; nia).
  assert (-1074 < e1 -> 2 ^ 52 <= m1) as Hnormal.
  { intros Hn. assert (d - 1 = Zpos np + 52) as Hd by lia.
    rewrite Hd, Z.pow_add_r in Hdl by lia. nia. }
  destruct m2 as [| q |] eqn:Hq; [lia | | lia].
  destruct (Z.lt_ge_cases (Zpos q) (2 ^ 53)) as [Hsmall | Hcarry].
  - pose proof (digits2_lower q) as Hql.
    assert (Zpos (digits2_pos q) <= 53) as Hd2.
    { destruct (Z.le_gt_cases (Zpos (digits2_pos q)) 53) as [? | Hgt]; [assumption |].
      assert (2 ^ 53 <= 2 ^ (Zpos (digits2_pos q) - 1)) by (apply Z.pow_le_mono_r; lia). lia. }
    assert (fexp prec emax (Zpos (digits2_pos q) + e1) = e1) as Hcanon.
    { change (fexp prec emax (Zpos (digits2_pos q) + e1))
        with (Z.max (Zpos (digits2_pos q) + e1 - 53) (-1074)).
      destruct (Z.eq_dec e1 (-1074)) as [Hmin | Hnmin]; [lia |].
      rewrite (digits2_unique q 53); [lia |].
      split; [| exact Hsmall]. change (53 - 1) with 52. specialize (Hnormal ltac:(lia)). lia. }
    change (Zdigits2 (Zpos q)) with (Zpos (digits2_pos q)).
    rewrite shr_none by lia. cbn [shr_record_of_loc shr_m].
    replace (e1 <=? emax - prec) with true
      by (symmetry; apply Z.leb_le; unfold emax, prec in *; lia).
    exists q, e1. split; [reflexivity |]. split.
    + unfold valid, valid_binary, bounded, canonical_mantissa. rewrite Hcanon, Z.eqb_refl.
      apply Z.leb_le. unfold emax, prec in *. lia.
    + split; [lia |]. rewrite Hnp. split; [exact Hclose |]. split; [exact Htie |].
      intros Hpow2 Habove Hlt. exfalso. specialize (Hnormal Habove). nia.
  - assert (Zpos q = 2 ^ 53) as Hq53 by lia.
    assert (q = 9007199254740992%positive) as -> by (apply Pos2Z.inj; exact Hq53).
    change (Zdigits2 9007199254740992) with 54.
    assert (fexp prec emax (54 + e1) - e1 = 1) as ->
      by (change (fexp prec emax (54 + e1)) with (Z.max (54 + e1 - 53) (-1074)); lia).
    rewrite shr_some. cbn [shr_record_of_loc SpecFloat.iter_pos shr_1 shr_m].
    replace (e1 + 1 <=? emax - prec) with true
      by (symmetry; apply Z.leb_le; unfold emax, prec in *; lia).
    exists 4503599627370496%positive, (e1 + 1). split; [reflexivity |]. split.
    + unfold valid, valid_binary, bounded, canonical_mantissa.
      change (Zpos (digits2_pos 4503599627370496)) with 53.
      change (fexp prec emax (53 + (e1 + 1))) with (Z.max (53 + (e1 + 1) - 53) (-1074)).
      apply andb_true_intro. split; [apply Z.eqb_eq; lia |].
      apply Z.leb_le. unfold emax, prec in *. lia.
    + split; [lia |].
      replace (e1 + 1 - E) with (Zpos np + 1) by lia.
      rewrite Z.pow_add_r, Z.pow_1_r by lia.
      replace (4503599627370496 * (2 ^ Zpos np * 2) - Zpos M)
        with (9007199254740992 * 2 ^ Zpos np - Zpos M) by ring.
      split; [lia |]. split; [intros _; reflexivity |]. intros _ _ _. lia.
Qed.

(** *** The nearest integer *)

Lemma half_even_nearest num den :
  0 < den -> nearest_integer (half_even num den) num den.
Proof.
  intros Hd. split; [pose proof (half_even_close num den Hd); lia |].
  unfold half_even.
  pose proof (Z.div_mod num den ltac:(lia)) as Hdm.
  pose proof (Z.mod_pos_bound num den Hd) as Hr.
  destruct (Z.compare_spec (2 * (num mod den)) den) as [Hc | Hc | Hc].
  - destruct (Z.even (num / den)) eqn:Hev; intros _; [exact Hev |].
    rewrite Z.even_add, Hev. reflexivity.
  - intros Htie. exfalso. nia.
  - intros Htie. exfalso. nia.
Qed.

(** *** The three roundings of a result, value by value *)

(** Every [k / 1000] with [1 <= k <= 1000] is read as a double that is
    this fraction correctly rounded and lies in [0, 1]: checked one by
    one. *)
Lemma thousandths_rounded_table :
  forallb (fun k => correctly_rounded (nearest false (Pos.of_nat k) 1000) (Z.of_nat k) 1000
                    && (0 <=? value_num (nearest false (Pos.of_nat k) 1000))
                    && (value_num (nearest false (Pos.of_nat k) 1000)
                        <=? value_den (nearest false (Pos.of_nat k) 1000)))
    (seq 1 1000) = true.
Proof. vm_compute. reflexivity. Qed.

Lemma thousandths_rounded (k : positive) :
  Zpos k <= 1000 ->
  correctly_rounded (nearest false k 1000) (Zpos k) 1000 = true /\
  0 <= value_num (nearest false k 1000) <= value_den (nearest false k 1000).
Proof.
  intros Hk. pose proof thousandths_rounded_table as Ht.
  rewrite forallb_forall in Ht.
  specialize (Ht (Pos.to_nat k)). rewrite Pos2Nat.id, positive_nat_Z in Ht.
  apply andb_prop in Ht as [Ht H3]; [| apply in_seq; lia].
  apply andb_prop in Ht as [H1 H2].
  split; [exact H1 |]. split; [apply Z.leb_le; exact H2 | apply Z.leb_le; exact H3].
Qed.

(** Every double read from [j / 10] with [1 <= j <= 1000] is printed as
    the numeral of [j / 10] with one decimal place: checked one by one. *)
Lemma tenths_table :
  forallb (fun j => bool_decide (repr (nearest false (Pos.of_nat j) 10) = tenths (Z.of_nat j)))
    (seq 1 1000) = true.
Proof. vm_compute. reflexivity. Qed.

Lemma repr_tenths (j : positive) :
  Zpos j <= 1000 -> repr (nearest false j 10) = tenths (Zpos j).
Proof.
  intros Hj. pose proof tenths_table as Ht.
  rewrite forallb_forall in Ht.
  specialize (Ht (Pos.to_nat j)). rewrite Pos2Nat.id, positive_nat_Z in Ht.
  eapply bool_decide_eq_true_1, Ht. apply in_seq. lia.
Qed.

(** *** The product with 100 *)

Lemma of_Z_100 : of_Z 100 = S754_finite false 7036874417766400 (-46).
Proof. vm_compute. reflexivity. Qed.

Lemma valid_canonical s m e :
  valid (S754_finite s m e) = true ->
  -1074 <= e /\ Zpos (digits2_pos m) <= 53 /\ (e = -1074 \/ Zpos (digits2_pos m) = 53).
Proof.
  unfold valid, valid_binary, bounded, canonical_mantissa.
  change (fexp prec emax (Zpos (digits2_pos m) + e))
    with (Z.max (Zpos (digits2_pos m) + e - 53) (-1074)).
  intros Hv. apply andb_prop in Hv as [Hc _]. apply Z.eqb_eq in Hc. lia.
Qed.

(** The product of a double in the unit interval with 100 is the exact
    product correctly rounded, and it is at most 100. *)
Lemma mul_hundred m e :
  valid (S754_finite false m e) = true ->
  in_unit (S754_finite false m e) = true ->
  exists mp ep,
    mul (S754_finite false m e) (of_Z 100) = S754_finite false mp ep /\
    valid (S754_finite false mp ep) = true /\
    ep < 0 /\
    Zpos mp <= 100 * 2 ^ (- ep) /\
    correctly_rounded (S754_finite false mp ep)
      (value_num (S754_finite false m e) * 100) (value_den (S754_finite false m e)) = true.
Proof.
  intros Hv Hu.
  pose proof (unit_value_le_one m e Hv Hu) as Hle.
  destruct (in_unit_cases _ Hu) as [[s Hs] | (m' & e' & Heq & He)]; [discriminate |].
  injection Heq as <- <-.
  assert (e <= -52) as Hneg by lia. clear He.
  unfold num_of, den_of in Hle.
  replace (Z.max e 0) with 0 in Hle by lia. replace (Z.max (- e) 0) with (- e) in Hle by lia.
  rewrite Z.pow_0_r, Z.mul_1_r in Hle.
  destruct (valid_canonical _ _ _ Hv) as (Hemin & Hdm & Hnorm).
  rewrite of_Z_100.
  change (mul (S754_finite false m e) (S754_finite false 7036874417766400 (-46)))
    with (binary_round_aux prec emax false (Zpos (m * 7036874417766400)) (e + -46) loc_Exact).
  set (M := (m * 7036874417766400)%positive).
  set (T := 2 ^ 46).
  assert (0 < T) as HT by (subst T; lia).
  assert (Zpos M = Zpos m * (100 * T)) as HM by (subst M T; rewrite Pos2Z.inj_mul; reflexivity).
  set (a := 2 ^ (- e)) in *.
  assert (0 < a) as Ha by (subst a; apply Z.pow_pos_nonneg; lia).
  pose proof (digits2_bound M) as Hdu. pose proof (digits2_lower M) as Hdl.
  set (d := Zpos (digits2_pos M)) in *.
  assert (d + e <= 53) as Hd_hi.
  { assert (Zpos M < 2 ^ (53 - e)) as Hlt.
    { replace (53 - e) with (- e + 7 + 46) by lia. rewrite !Z.pow_add_r by lia.
      fold a. fold T. change (2 ^ 7) with 128. rewrite HM. nia. }
    assert (2 ^ (d - 1) < 2 ^ (53 - e)) as Hpow by lia.
    apply Z.pow_lt_mono_r_iff in Hpow; lia. }
  assert (46 < d) as Hd_lo.
  { assert (2 ^ 46 < 2 ^ d) as Hpow by (fold T; nia).
    apply Z.pow_lt_mono_r_iff in Hpow; lia. }
  assert (Zpos (digits2_pos m) = 53 -> 104 < d) as Hd_normal.
  { intros Hnormal. pose proof (digits2_lower m) as Hml. rewrite Hnormal in Hml.
    change (2 ^ (53 - 1)) with (2 ^ 52) in Hml.
    assert (2 ^ 104 < 2 ^ d) as Hpow.
    { replace 104 with (52 + 6 + 46) by lia. rewrite !Z.pow_add_r by lia.
      fold T. change (2 ^ 6) with 64. nia. }
    apply Z.pow_lt_mono_r_iff in Hpow; lia. }
  assert (fexp prec emax (d + (e + -46)) = Z.max (d + (e + -46) - 53) (-1074)) as Hfexp
    by reflexivity.
  destruct (round_aux_exact false M (e + -46))
    as (mp & ep & Hrun & Hvalid & Hep & Hclose & Htie & Hquarter).
  - fold d. rewrite Hfexp. destruct Hnorm as [-> | Hnormal]; [lia |].
    specialize (Hd_normal Hnormal). lia.
  - fold d. rewrite Hfexp. unfold emax, prec. lia.
  - fold d. rewrite Hfexp.
    destruct (Z.max_spec (d + (e + -46) - 53) (-1074)) as [[_ ->] | [_ ->]].
    + apply Z.le_trans with (2 ^ 46); [apply Z.pow_le_mono_r; lia |]. fold T. nia.
    + apply Z.le_trans with (2 ^ (d - 1)); [apply Z.pow_le_mono_r; lia | exact Hdl].
  - fold d in Hep. rewrite Hfexp in Hep.
    assert (ep < 0) as Hepneg by lia.
    set (b := 2 ^ (- ep)).
    assert (0 < b) as Hb by (subst b; apply Z.pow_pos_nonneg; lia).
    set (c := 2 ^ (ep - (e + -46))) in *.
    assert (0 < c) as Hc by (subst c; apply Z.pow_pos_nonneg; lia).
    assert (c * b = a * T) as Hcb.
    { subst a b c T. rewrite <- !Z.pow_add_r by lia. f_equal. lia. }
    assert (Zpos M <= 100 * (c * b)) as HMle by (rewrite Hcb, HM; nia).
    set (K := Zpos mp * a - Zpos m * 100 * b).
    assert ((Zpos mp * c - Zpos M) * b = K * T) as HK.
    { transitivity (Zpos mp * (c * b) - Zpos m * (100 * T) * b); [rewrite HM; ring |].
      rewrite Hcb. subst K. ring. }
    assert (Z.abs (Zpos mp * c - Zpos M) * b = Z.abs K * T) as Habs.
    { apply (f_equal Z.abs) in HK. rewrite !Z.abs_mul in HK.
      rewrite (Z.abs_eq b), (Z.abs_eq T) in HK by lia. exact HK. }
    set (X := Z.abs (Zpos mp * c - Zpos M)) in *.
    set (Y := Z.abs K) in *.
    assert (2 * Y <= a) as Hhalf.
    { apply (Z.mul_le_mono_pos_r _ _ T HT). rewrite <- Hcb.
      replace (2 * Y * T) with (2 * (Y * T)) by ring. rewrite <- Habs.
      replace (2 * (X * b)) with (2 * X * b) by ring.
      apply Z.mul_le_mono_nonneg_r; [lia | exact Hclose]. }
    assert (2 * Y = a -> 2 * X = c) as Htie'.
    { intros Heq. apply (Z.mul_reg_r _ _ b); [lia |].
      replace (2 * X * b) with (2 * (X * b)) by ring.
      rewrite Habs, Hcb, <- Heq. ring. }
    exists mp, ep. split; [exact Hrun |]. split; [exact Hvalid |]. split; [exact Hepneg |].
    split.
    + fold b. destruct (Z.le_gt_cases (Zpos mp) (100 * b)) as [? | Hgt]; [assumption |].
      exfalso.
      assert ((100 * b + 1) * c <= Zpos mp * c) as Hmul
        by (apply Z.mul_le_mono_nonneg_r; lia).
      assert (Zpos M + c <= Zpos mp * c) by lia. subst X. lia.
    + unfold correctly_rounded.
      change (valid_binary 53 1024 (S754_finite false mp ep))
        with (valid (S754_finite false mp ep)).
      rewrite Hvalid. cbn [andb value_num value_den ulp_num].
      replace (Z.max ep 0) with 0 by lia. replace (Z.max (- ep) 0) with (- ep) by lia.
      replace (Z.max e 0) with 0 by lia. replace (Z.max (- e) 0) with (- e) by lia.
      rewrite Z.pow_0_r, !Z.mul_1_r, Z.mul_1_l. fold a. fold b.
      replace (Zpos mp * a - Zpos m * 100 * b) with K by reflexivity. fold Y.
      apply andb_true_intro. split.
      * destruct (Z.ltb_spec (2 * Y) a) as [? | Hge]; [reflexivity |].
        assert (2 * Y = a) as Heq by lia.
        rewrite Heq, Z.eqb_refl. cbn [orb andb]. apply Htie, Htie', Heq.
      * destruct ((Zpos mp =? 2 ^ 52) && (-1074 <? ep) && (0 <? K)) eqn:Hedge;
          [| reflexivity].
        apply andb_prop in Hedge as [Hedge HK0]. apply andb_prop in Hedge as [Hpow2 Hmin].
        apply Z.eqb_eq in Hpow2. apply Z.ltb_lt in Hmin, HK0. apply Z.leb_le.
        assert (0 < (Zpos mp * c - Zpos M) * b) as Hpos by (rewrite HK; lia).
        apply (proj1 (Z.mul_pos_cancel_r _ b Hb)) in Hpos.
        assert (Zpos M < Zpos mp * c) as Hlt by lia.
        specialize (Hquarter Hpow2 Hmin Hlt).
        apply (Z.mul_le_mono_pos_r _ _ T HT). rewrite <- Hcb.
        replace (4 * K * T) with (4 * (K * T)) by ring. rewrite <- HK.
        replace (4 * ((Zpos mp * c - Zpos M) * b)) with (4 * (Zpos mp * c - Zpos M) * b) by ring.
        apply Z.mul_le_mono_nonneg_r; [lia | exact Hquarter].
Qed.

(** *** The fields of a result *)

Lemma SFleb_finite_pos_intro m e c f :
  e < f \/ e = f /\ (m <= c)%positive ->
  SFleb (S754_finite false m e) (S754_finite false c f) = true.
Proof.
  unfold SFleb, SFcompare. intros [He | [-> Hm]].
  - apply Z.compare_lt_iff in He. rewrite He. reflexivity.
  - rewrite Z.compare_refl.
    change (Pos.compare_cont Eq m c) with (Pos.compare m c).
    destruct (Pos.compare_spec m c) as [? | ? | Hgt]; [reflexivity | reflexivity |].
    exfalso. apply Pos.lt_nle in Hgt. contradiction.
Qed.

Lemma pow_52 : Zpos 4503599627370496 = 2 ^ 52.
Proof. reflexivity. Qed.

(** A probability is a double of the unit interval. *)
Lemma probability_in_unit x : probability x -> valid x = true /\ in_unit x = true.
Proof.
  intros (Hv & Hu & Hle). split; [exact Hv |].
  destruct x as [s | s | | s m e]; simpl in Hu; try contradiction; [apply in_unit_zero |].
  subst s. destruct (valid_canonical _ _ _ Hv) as (Hemin & Hdm & Hnorm).
  cbn [value_num value_den] in Hle.
  pose proof (digits2_lower m) as Hml.
  unfold in_unit, le. rewrite of_Z_0, of_Z_1.
  apply andb_true_intro. split; [reflexivity |].
  apply SFleb_finite_pos_intro.
  assert (0 < 2 ^ Z.max e 0) as Hp1 by (apply Z.pow_pos_nonneg; lia).
  set (u := 2 ^ Z.max e 0) in *.
  destruct (Z.lt_trichotomy e (-52)) as [He | [He | He]]; [left; exact He | right | exfalso].
  - split; [exact He |]. apply Pos.le_nlt. intros Hgt.
    apply Pos2Z.pos_lt_pos in Hgt. rewrite pow_52 in Hgt.
    subst e. change (Z.max (- -52) 0) with 52 in Hle. nia.
  - destruct Hnorm as [Hmin | Hnormal]; [lia |].
    rewrite Hnormal in Hml. change (53 - 1) with 52 in Hml.
    assert (2 ^ Z.max (- e) 0 < 2 ^ 52) as Hlt by (apply Z.pow_lt_mono_r; lia).
    set (v := 2 ^ Z.max (- e) 0) in *. set (w := 2 ^ 52) in *. nia.
Qed.

(** [round(x, 3)] of a double of the unit interval. *)
Lemma score_rounded x :
  valid x = true -> in_unit x = true ->
  exists k,
    0 <= k <= 1000 /\
    nearest_integer k (value_num x * 1000) (value_den x) /\
    correctly_rounded (round x 3) k 1000 = true /\
    0 <= value_num (round x 3) <= value_den (round x 3).
Proof.
  intros Hv Hu.
  destruct (in_unit_cases x Hu) as [[s ->] | (m & e & -> & _)].
  - exists 0. split; [lia |]. split; [split; simpl; lia |]. split; [reflexivity | simpl; lia].
  - pose proof (unit_value_le_one m e Hv Hu) as Hle.
    pose proof (num_of_pos m e) as Hn. pose proof (den_of_pos e) as Hd.
    rewrite round_finite. change (10 ^ Z.of_nat 3) with 1000.
    pose proof (half_even_range (num_of m e * 1000) (den_of e) 1000 Hd ltac:(lia) ltac:(lia))
      as Hr.
    pose proof (half_even_nearest (num_of m e * 1000) (den_of e) Hd) as Hnear.
    exists (half_even (num_of m e * 1000) (den_of e)).
    split; [exact Hr |]. split; [exact Hnear |].
    destruct (half_even (num_of m e * 1000) (den_of e)) as [| k | k]; [| | lia].
    + split; [reflexivity | simpl; lia].
    + change (Z.to_pos 1000) with 1000%positive. apply thousandths_rounded. lia.
Qed.

(** [round(p, 1)] of a double between 0 and 100, printed. *)
Lemma confidence_printed mp ep :
  ep < 0 -> Zpos mp <= 100 * 2 ^ (- ep) ->
  exists j,
    0 <= j <= 1000 /\
    nearest_integer j (value_num (S754_finite false mp ep) * 10)
      (value_den (S754_finite false mp ep)) /\
    repr (round (S754_finite false mp ep) 1) = tenths j.
Proof.
  intros Hep Hle.
  pose proof (den_of_pos ep) as Hd.
  assert (num_of mp ep = Zpos mp) as Hnum
    by (unfold num_of; replace (Z.max ep 0) with 0 by lia; rewrite Z.pow_0_r; lia).
  assert (den_of ep = 2 ^ (- ep)) as Hden
    by (unfold den_of; replace (Z.max (- ep) 0) with (- ep) by lia; reflexivity).
  rewrite round_finite. change (10 ^ Z.of_nat 1) with 10.
  change (value_num (S754_finite false mp ep)) with (num_of mp ep).
  change (value_den (S754_finite false mp ep)) with (den_of ep).
  pose proof (half_even_range (num_of mp ep * 10) (den_of ep) 1000 Hd ltac:(lia) ltac:(lia))
    as Hr.
  pose proof (half_even_nearest (num_of mp ep * 10) (den_of ep) Hd) as Hnear.
  exists (half_even (num_of mp ep * 10) (den_of ep)).
  split; [exact Hr |]. split; [exact Hnear |].
  destruct (half_even (num_of mp ep * 10) (den_of ep)) as [| j | j]; [reflexivity | | lia].
  change (Z.to_pos 10) with 10%positive. apply repr_tenths. lia.
Qed.

(** *** No double is nearer than a correctly rounded one *)

Lemma scaled_value x :
  is_double x -> value_num x * 2 ^ 1074 = scaled x * value_den x.
Proof.
  intros [Hv Hx]. destruct x as [s | s | | s m e]; [reflexivity | contradiction .. |].
  destruct (valid_canonical _ _ _ Hv) as (Hemin & _ & _).
  assert (Zpos m * 2 ^ Z.max e 0 * 2 ^ 1074 = Zpos m * 2 ^ (e + 1074) * 2 ^ Z.max (- e) 0)
    as Heq.
  { rewrite <- !Z.mul_assoc, <- !Z.pow_add_r by lia. do 2 f_equal. lia. }
  cbn [value_num value_den scaled]. destruct s; [| exact Heq].
  rewrite !Z.mul_opp_l. f_equal. exact Heq.
Qed.

Lemma value_den_pos x : 0 < value_den x.
Proof. destruct x; cbn [value_den]; try lia; apply Z.pow_pos_nonneg; lia. Qed.

(** Distances compare as the distances of the scaled values do. *)
Lemma no_farther_scaled x y num den :
  is_double x -> is_double y ->
  Z.abs (scaled x * den - num * 2 ^ 1074) <= Z.abs (scaled y * den - num * 2 ^ 1074) ->
  no_farther x y num den.
Proof.
  intros Hx Hy Hle. unfold no_farther.
  pose proof (scaled_value x Hx) as Hsx. pose proof (scaled_value y Hy) as Hsy.
  pose proof (value_den_pos x) as Hdx. pose proof (value_den_pos y) as Hdy.
  set (S := 2 ^ 1074) in *. assert (0 < S) as HS by (subst S; apply Z.pow_pos_nonneg; lia).
  set (dx := value_den x) in *. set (dy := value_den y) in *.
  assert (Z.abs (value_num x * den - num * dx) * S = dx * Z.abs (scaled x * den - num * S))
    as Hx'.
  { rewrite <- (Z.abs_eq S) at 1 by lia. rewrite <- (Z.abs_eq dx) at 2 by lia.
    rewrite <- !Z.abs_mul. f_equal.
    transitivity (value_num x * S * den - num * S * dx); [ring | rewrite Hsx; ring]. }
  assert (Z.abs (value_num y * den - num * dy) * S = dy * Z.abs (scaled y * den - num * S))
    as Hy'.
  { rewrite <- (Z.abs_eq S) at 1 by lia. rewrite <- (Z.abs_eq dy) at 2 by lia.
    rewrite <- !Z.abs_mul. f_equal.
    transitivity (value_num y * S * den - num * S * dy); [ring | rewrite Hsy; ring]. }
  apply (Z.mul_le_mono_pos_r _ _ S HS).
  replace (Z.abs (value_num x * den - num * dx) * dy * S)
    with (Z.abs (value_num x * den - num * dx) * S * dy) by ring.
  replace (Z.abs (value_num y * den - num * dy) * dx * S)
    with (Z.abs (value_num y * den - num * dy) * S * dx) by ring.
  rewrite Hx', Hy'.
  replace (dx * Z.abs (scaled x * den - num * S) * dy)
    with (Z.abs (scaled x * den - num * S) * (dx * dy)) by ring.
  replace (dy * Z.abs (scaled y * den - num * S) * dx)
    with (Z.abs (scaled y * den - num * S) * (dx * dy)) by ring.
  apply Z.mul_le_mono_nonneg_r; [nia | exact Hle].
Qed.

(** What the criterion says of the scaled values. *)
Lemma correctly_rounded_scaled m e num den :
  0 < den ->
  correctly_rounded (S754_finite false m e) num den = true ->
  valid (S754_finite false m e) = true /\
  2 * Z.abs (Zpos m * 2 ^ (e + 1074) * den - num * 2 ^ 1074) <= 2 ^ (e + 1074) * den /\
  (Zpos m = 2 ^ 52 -> -1074 < e -> num * 2 ^ 1074 < Zpos m * 2 ^ (e + 1074) * den ->
   4 * (Zpos m * 2 ^ (e + 1074) * den - num * 2 ^ 1074) <= 2 ^ (e + 1074) * den).
Proof.
  intros Hden Hround. unfold correctly_rounded in Hround.
  apply andb_prop in Hround as [Hv Hround]. apply andb_prop in Hround as [Hhalf Hquarter].
  change (valid (S754_finite false m e) = true) in Hv.
  destruct (valid_canonical _ _ _ Hv) as (Hemin & _ & _).
  pose proof (scaled_value (S754_finite false m e) (conj Hv I)) as Hs.
  pose proof (value_den_pos (S754_finite false m e)) as Hd.
  cbn [value_num value_den ulp_num scaled] in *.
  assert (2 ^ Z.max e 0 * 2 ^ 1074 = 2 ^ (e + 1074) * 2 ^ Z.max (- e) 0) as Hu.
  { rewrite <- !Z.pow_add_r by lia. f_equal. lia. }
  set (S := 2 ^ 1074) in *. assert (0 < S) as HS by (subst S; apply Z.pow_pos_nonneg; lia).
  set (vn := Zpos m * 2 ^ Z.max e 0) in *. set (vd := 2 ^ Z.max (- e) 0) in *.
  set (un := 2 ^ Z.max e 0) in *. set (U := 2 ^ (e + 1074)) in *.
  set (X := Zpos m * U) in *.
  set (above := vn * den - num * vd) in *.
  assert (above * S = vd * (X * den - num * S)) as Habove.
  { subst above. transitivity (vn * S * den - num * S * vd); [ring | rewrite Hs; ring]. }
  assert (un * den * S = vd * (U * den)) as Hunit.
  { transitivity (un * S * den); [ring | rewrite Hu; ring]. }
  split; [exact Hv |]. split.
  - assert (2 * Z.abs above <= un * den) as Hle.
    { apply orb_prop in Hhalf as [Hlt | Heq].
      - apply Z.ltb_lt in Hlt. lia.
      - apply andb_prop in Heq as [Heq _]. apply Z.eqb_eq in Heq. lia. }
    apply (Z.mul_le_mono_pos_l _ _ vd Hd). rewrite <- Hunit.
    replace (vd * (2 * Z.abs (X * den - num * S)))
      with (2 * (Z.abs vd * Z.abs (X * den - num * S))) by (rewrite (Z.abs_eq vd) by lia; ring).
    rewrite <- Z.abs_mul, <- Habove, Z.abs_mul, (Z.abs_eq S) by lia.
    replace (2 * (Z.abs above * S)) with (2 * Z.abs above * S) by ring.
    apply Z.mul_le_mono_nonneg_r; [lia | exact Hle].
  - intros Hpow2 Hmin Hlt.
    assert (0 < above) as Hpos.
    { assert (0 < above * S) as Hp by (rewrite Habove; apply Z.mul_pos_pos; lia).
      apply (proj1 (Z.mul_pos_cancel_r _ S HS)) in Hp. exact Hp. }
    apply Z.eqb_eq in Hpow2. apply Z.ltb_lt in Hmin, Hpos.
    rewrite Hpow2, Hmin, Hpos in Hquarter. cbn [andb] in Hquarter. apply Z.leb_le in Hquarter.
    apply (Z.mul_le_mono_pos_l _ _ vd Hd). rewrite <- Hunit.
    replace (vd * (4 * (X * den - num * S))) with (4 * (vd * (X * den - num * S))) by ring.
    rewrite <- Habove. replace (4 * (above * S)) with (4 * above * S) by ring.
    apply Z.mul_le_mono_nonneg_r; [lia | exact Hquarter].
Qed.

(** Among the positive doubles, one with a smaller exponent is smaller
    than a normal one by at least half a unit of the latter. *)
Lemma smaller_exponent_below m e m' e' :
  valid (S754_finite false m e) = true ->
  valid (S754_finite false m' e') = true ->
  e' < e ->
  2 ^ 52 <= Zpos m /\
  2 * (Zpos m' * 2 ^ (e' + 1074)) + 2 ^ (e + 1074)
    <= 2 * (2 ^ 52 * 2 ^ (e + 1074)).
Proof.
  intros Hv Hv' Hlt.
  destruct (valid_canonical _ _ _ Hv) as (_ & _ & Hnorm).
  destruct (valid_canonical _ _ _ Hv') as (Hemin' & _ & _).
  pose proof (valid_mantissa_bound _ _ _ Hv') as Hm'.
  pose proof (digits2_lower m) as Hml.
  destruct Hnorm as [-> | Hnormal]; [lia |].
  rewrite Hnormal in Hml. change (53 - 1) with 52 in Hml.
  split; [exact Hml |].
  assert (2 ^ (e + 1074) = 2 ^ (e' + 1074) * 2 ^ (e - e')) as HU
    by (rewrite <- Z.pow_add_r by lia; f_equal; lia).
  assert (2 <= 2 ^ (e - e')) as Hgap
    by (change 2 with (2 ^ 1) at 1; apply Z.pow_le_mono_r; lia).
  assert (0 < 2 ^ (e' + 1074)) as HU' by (apply Z.pow_pos_nonneg; lia).
  rewrite HU. set (U' := 2 ^ (e' + 1074)) in *. set (g := 2 ^ (e - e')) in *.
  change (2 ^ 53) with (2 * 2 ^ 52) in Hm'. set (W := 2 ^ 52) in *.
  assert (0 < W) by (subst W; lia).
  assert (Zpos m' + 1 <= 2 * W) as Hm1 by lia.
  assert ((Zpos m' + 1) * (2 * U') <= 2 * W * (U' * g)) as Hmul.
  { replace (2 * W * (U' * g)) with (2 * W * U' * g) by ring.
    replace ((Zpos m' + 1) * (2 * U')) with ((Zpos m' + 1) * U' * 2) by ring.
    apply Z.mul_le_mono_nonneg; [nia | nia | lia | exact Hgap]. }
  assert (U' * g <= 2 * W * (U' * g) - (Zpos m' + 1) * (2 * U') + U' * g) by lia.
  assert (2 * U' <= U' * g) by nia.
  nia.
Qed.

(** A double that satisfies the criterion is a double nearest to the
    fraction: no double is nearer. *)
Lemma correctly_rounded_nearest x num den :
  0 <= num -> 0 < den ->
  correctly_rounded x num den = true ->
  is_double x /\ forall y, is_double y -> no_farther x y num den.
Proof.
  intros Hnum Hden Hround.
  destruct x as [s | s | | s m e]; try discriminate Hround.
  - apply andb_prop in Hround as [Hv Hzero]. apply Z.eqb_eq in Hzero. subst num.
    split; [split; [exact Hv | exact I] |].
    intros y Hy. unfold no_farther. cbn [value_num value_den].
    transitivity 0; [apply Z.eq_le_incl; reflexivity |].
    apply Z.mul_nonneg_nonneg; [apply Z.abs_nonneg | lia].
  - destruct s; [apply andb_prop in Hround as [_ Hf]; discriminate Hf |].
    destruct (correctly_rounded_scaled m e num den Hden Hround) as (Hv & Hhalf & Hquarter).
    assert (is_double (S754_finite false m e)) as Hx by (split; [exact Hv | exact I]).
    split; [exact Hx |]. intros y Hy. apply no_farther_scaled; [exact Hx | exact Hy |].
    destruct (valid_canonical _ _ _ Hv) as (Hemin & _ & _).
    cbn [scaled].
    set (S := 2 ^ 1074) in *. assert (0 < S) as HS by (subst S; apply Z.pow_pos_nonneg; lia).
    set (U := 2 ^ (e + 1074)) in *.
    assert (0 < U) as HU by (subst U; apply Z.pow_pos_nonneg; lia).
    set (N := num * S) in *. assert (0 <= N) as HN by (subst N; lia).
    assert (U * den <= Zpos m * U * den) as HUX.
    { apply Z.mul_le_mono_nonneg_r; [lia |].
      rewrite <- (Z.mul_1_l U) at 1. apply Z.mul_le_mono_nonneg_r; lia. }
    set (Xd := Zpos m * U * den) in *. set (Ud := U * den) in *.
    assert (0 < Ud) as HUd by (subst Ud; apply Z.mul_pos_pos; lia).
    destruct Hy as [Hvy Hy].
    destruct y as [s' | s' | | s' m' e']; try contradiction.
    + cbn [scaled]. rewrite Z.mul_0_l. lia.
    + change (valid (S754_finite s' m' e') = true) in Hvy.
      destruct (valid_canonical _ _ _ Hvy) as (Hemin' & _ & _).
      cbn [scaled].
      set (U' := 2 ^ (e' + 1074)).
      assert (0 < U') as HU' by (subst U'; apply Z.pow_pos_nonneg; lia).
      destruct s'.
      * assert (- (Zpos m' * U') * den <= 0) as Hneg.
        { rewrite Z.mul_opp_l. apply Z.opp_nonpos_nonneg.
          apply Z.mul_nonneg_nonneg; [apply Z.mul_nonneg_nonneg |]; lia. }
        lia.
      * destruct (Z.le_gt_cases e e') as [Hge | Hlt].
        -- assert (U' = U * 2 ^ (e' - e)) as HUU
             by (subst U U'; rewrite <- Z.pow_add_r by lia; f_equal; lia).
           assert (0 < 2 ^ (e' - e)) as Hg by (apply Z.pow_pos_nonneg; lia).
           set (t := Zpos m' * 2 ^ (e' - e)).
           assert (Zpos m' * U' * den = t * Ud) as HY
             by (subst t Ud; rewrite HUU; ring).
           assert (Xd = Zpos m * Ud) as HX by (subst Xd Ud; ring).
           rewrite HY.
           destruct (Z.lt_trichotomy t (Zpos m)) as [Ht | [Ht | Ht]].
           ++ assert (t * Ud + Ud <= Xd) as Hstep.
              { rewrite HX. replace (t * Ud + Ud) with ((t + 1) * Ud) by ring.
                apply Z.mul_le_mono_nonneg_r; lia. }
              lia.
           ++ rewrite Ht, <- HX. lia.
           ++ assert (Xd + Ud <= t * Ud) as Hstep.
              { rewrite HX. replace (Zpos m * Ud + Ud) with ((Zpos m + 1) * Ud) by ring.
                apply Z.mul_le_mono_nonneg_r; lia. }
              lia.
        -- destruct (smaller_exponent_below m e m' e' Hv Hvy Hlt) as [Hnormal Hgap].
           fold U U' in Hgap.
           assert (2 * (Zpos m' * U' * den) + Ud <= 2 * (2 ^ 52 * Ud)) as Hgapd.
           { replace (2 * (Zpos m' * U' * den) + Ud)
               with ((2 * (Zpos m' * U') + U) * den) by (subst Ud; ring).
             replace (2 * (2 ^ 52 * Ud)) with (2 * (2 ^ 52 * U) * den) by (subst Ud; ring).
             apply Z.mul_le_mono_nonneg_r; [lia | exact Hgap]. }
           assert (Xd = Zpos m * Ud) as HX by (subst Xd Ud; ring).
           set (Yd := Zpos m' * U' * den) in *.
           destruct (Z.eq_dec (Zpos m) (2 ^ 52)) as [Hpow2 | Hnot].
           ++ specialize (Hquarter Hpow2 ltac:(lia)).
              rewrite Hpow2 in HX. rewrite <- HX in Hgapd.
              destruct (Z.lt_ge_cases N Xd) as [Habove | Hbelow].
              ** specialize (Hquarter Habove). lia.
              ** lia.
           ++ assert (2 ^ 52 * Ud + Ud <= Xd) as Hstep.
              { rewrite HX. replace (2 ^ 52 * Ud + Ud) with ((2 ^ 52 + 1) * Ud) by ring.
                apply Z.mul_le_mono_nonneg_r; lia. }
              lia.
Qed.

End PyFloatRounding.

Module SentimentApiFacts.
Import SentimentApi SentimentApiSpec PyFloatSpec.

(** *** Strings *)

Lemma lstrip_spaces s :
  Forall (fun c => PyStr.is_space c = true) s -> PyStr.lstrip s = [].
Proof. induction 1 as [| c s Hc _ IH]; simpl; [reflexivity |]. rewrite Hc. exact IH. Qed.

Lemma strip_spaces s :
  Forall (fun c => PyStr.is_space c = true) s -> PyStr.strip s = [].
Proof. intros Hs. unfold PyStr.strip. rewrite (lstrip_spaces s Hs). reflexivity. Qed.

(** *** The two result shapes *)

Lemma success_fields text top :
  let r := success_result text top in
  r !! str "text" = Some (VStr text) /\
  r !! str "label" = Some (VStr (d_label (mapped_of (cs_label top)))) /\
  r !! str "score" = Some (VFloat (PyFloat.round (cs_score top) 3)) /\
  r !! str "confidence" =
    Some (VStr (PyFloat.repr (PyFloat.round (PyFloat.mul (cs_score top) (PyFloat.of_Z 100)) 1)
                ++ str "%")) /\
  r !! str "emoji" = Some (VStr (d_emoji (mapped_of (cs_label top)))) /\
  r !! str "status" = Some (VStr (str "success")) /\
  r !! str "error" = None.
Proof.
  unfold success_result.
  generalize (mapped_of (cs_label top)); intros mapped.
  generalize (PyFloat.round (cs_score top) 3); intros rounded.
  generalize (PyFloat.repr (PyFloat.round (PyFloat.mul (cs_score top) (PyFloat.of_Z 100)) 1));
    intros pct.
  generalize (d_label mapped) (d_emoji mapped); intros l g.
  cbv zeta. repeat split; vm_compute; reflexivity.
Qed.

Lemma error_fields text e :
  let r := error_result text e in
  r !! str "text" = Some (VStr text) /\
  r !! str "error" = Some (VStr (exc_msg e)) /\
  r !! str "status" = Some (VStr (str "error")) /\
  r !! str "label" = None /\ r !! str "score" = None.
Proof.
  unfold error_result. generalize (exc_msg e); intros msg.
  cbv zeta. repeat split; vm_compute; reflexivity.
Qed.

Lemma batch_success_fields text result :
  let r := batch_success text result in
  r !! str "text" = Some (VStr text) /\
  r !! str "label" = Some (VStr (cs_label result)) /\
  r !! str "score" = Some (VFloat (PyFloat.round (cs_score result) 3)) /\
  r !! str "status" = Some (VStr (str "success")) /\
  r !! str "error" = None /\ r !! str "emoji" = None /\ r !! str "confidence" = None.
Proof.
  unfold batch_success.
  generalize (PyFloat.round (cs_score result) 3) (cs_label result); intros rounded l.
  cbv zeta. repeat split; vm_compute; reflexivity.
Qed.


Lemma success_result_text text top : success_result text top !! str "text" = Some (VStr text).
Proof. apply (success_fields text top). Qed.

Lemma error_result_text text e : error_result text e !! str "text" = Some (VStr text).
Proof. apply (error_fields text e). Qed.

Lemma batch_success_text text result :
  batch_success text result !! str "text" = Some (VStr text).
Proof. apply (batch_success_fields text result). Qed.

(** *** The maximum *)

Lemma max_from_spec rest : forall best,
  Forall (fun c => unit_like (cs_score c)) (best :: rest) ->
  max_from best rest ∈ best :: rest /\
  Forall (fun c => PyFloat.le (cs_score c) (cs_score (max_from best rest)) = true) (best :: rest).
Proof.
  induction rest as [| item rest IH]; intros best Hall.
  - simpl. split; [left |]. constructor; [| constructor].
    apply PyFloatFacts.le_refl. inversion Hall; assumption.
  - inversion Hall as [| ? ? Hbest Hrest]; subst.
    inversion Hrest as [| ? ? Hitem Hrest']; subst.
    simpl max_from.
    set (best' := if PyFloat.gt (cs_score item) (cs_score best) then item else best).
    assert (unit_like (cs_score best')) as Hb' by (subst best'; destruct (PyFloat.gt _ _); assumption).
    destruct (IH best' ltac:(constructor; assumption)) as [Hin Hle].
    inversion Hle as [| ? ? Hle_best' Hle_rest]; subst.
    assert (unit_like (cs_score (max_from best' rest))) as Htop.
    { apply list_elem_of_In in Hin. destruct Hin as [<- | Hin]; [assumption |].
      rewrite Forall_forall in Hrest'. apply Hrest'. apply list_elem_of_In. exact Hin. }
    split.
    + apply elem_of_cons in Hin as [Hin | Hin].
      * rewrite Hin. subst best'. destruct (PyFloat.gt _ _); [right; left | left].
      * right. right. exact Hin.
    + constructor; [| constructor; [| exact Hle_rest]].
      * apply PyFloatFacts.le_trans with (cs_score best'); try assumption.
        subst best'. destruct (PyFloat.gt _ _) eqn:Hgt.
        -- apply PyFloatFacts.le_of_gt in Hgt; assumption.
        -- apply PyFloatFacts.le_refl; assumption.
      * apply PyFloatFacts.le_trans with (cs_score best'); try assumption.
        subst best'. destruct (PyFloat.gt _ _) eqn:Hgt.
        -- apply PyFloatFacts.le_refl; assumption.
        -- apply PyFloatFacts.le_of_not_gt in Hgt; assumption.
Qed.

(** *** [analyze_sentiment], run *)

Lemma analyze_sentiment_import_error T text tr e :
  import_pipeline T = Raises e ->
  analyze_sentiment T text tr = (Raises e, tr ++ [Import (str "transformers")]).
Proof.
  intros Hi. unfold analyze_sentiment, bind, external. rewrite Hi. reflexivity.
Qed.

Lemma analyze_sentiment_load_error T text tr e :
  import_pipeline T = Returns tt ->
  pipeline_all_scores T = Raises e ->
  analyze_sentiment T text tr =
  (Raises e, (tr ++ [Import (str "transformers")])
             ++ [PipelineNew (str "sentiment-analysis") (Some MODEL) true]).
Proof.
  intros Hi Hp. unfold analyze_sentiment, bind, external. rewrite Hi, Hp. reflexivity.
Qed.

Lemma analyze_sentiment_loaded T text tr pipe :
  import_pipeline T = Returns tt ->
  pipeline_all_scores T = Returns pipe ->
  analyze_sentiment T text tr =
  let tr' := ((tr ++ [Import (str "transformers")])
              ++ [PipelineNew (str "sentiment-analysis") (Some MODEL) true])
             ++ [PipelineCall text] in
  match pipe text with
  | Returns ((first :: rest) :: _) => (Returns (success_result text (max_from first rest)), tr')
  | Returns ([] :: _) =>
      (Returns (error_result text (Exn ValueError (str "max() arg is an empty sequence"))), tr')
  | Returns [] =>
      (Returns (error_result text (Exn IndexError (str "list index out of range"))), tr')
  | Raises e => if is_Exception e then (Returns (error_result text e), tr') else (Raises e, tr')
  end.
Proof.
  intros Hi Hp. unfold analyze_sentiment, bind, external, try_except, lift, ret.
  rewrite Hi, Hp. cbv zeta.
  destruct (pipe text) as [[| [| first rest] more] | e]; try reflexivity.
Qed.


Lemma sentiment_endpoint_blank T P data tr :
  blank_text data -> sentiment_endpoint T P data tr = (Returns validation_error, tr).
Proof.
  intros [Hnone | (s & Hs & Hsp)]; unfold sentiment_endpoint; rewrite ?Hnone, ?Hs; simpl.
  - reflexivity.
  - rewrite (strip_spaces s Hsp). rewrite orb_true_r. reflexivity.
Qed.

(** *** [batch_sentiment_analysis], run *)

Lemma batch_step_run pipe acc text tr :
  batch_step pipe acc text tr =
  match pipe text with
  | Raises e =>
      if is_Exception e then (Returns (acc ++ [batch_entry pipe text]), tr ++ [PipelineCall text])
      else (Raises e, tr ++ [PipelineCall text])
  | Returns _ => (Returns (acc ++ [batch_entry pipe text]), tr ++ [PipelineCall text])
  end.
Proof.
  unfold batch_step, batch_entry, bind, external, try_except, lift, ret.
  destruct (pipe text) as [[| result more] | e]; try reflexivity.
Qed.

(** When no item raises outside [Exception], the loop appends one entry
    per text and calls the pipeline once per text, in order. *)
Lemma batch_loop_run pipe texts : forall acc tr,
  (forall text e, text ∈ texts -> pipe text = Raises e -> is_Exception e = true) ->
  batch_loop pipe acc texts tr =
  (Returns (acc ++ (batch_entry pipe <$> texts)), tr ++ (PipelineCall <$> texts)).
Proof.
  induction texts as [| text texts IH]; intros acc tr Hexc.
  - simpl. unfold ret. rewrite !app_nil_r. reflexivity.
  - simpl batch_loop. unfold bind. rewrite batch_step_run.
    assert (forall t e, t ∈ texts -> pipe t = Raises e -> is_Exception e = true) as Hexc'
      by (intros t e Ht; apply Hexc; right; exact Ht).
    destruct (pipe text) as [out | e] eqn:Hp.
    + rewrite IH by exact Hexc'. rewrite !fmap_cons, <- !app_assoc. reflexivity.
    + rewrite (Hexc text e ltac:(left) Hp).
      rewrite IH by exact Hexc'. rewrite !fmap_cons, <- !app_assoc. reflexivity.
Qed.

(** Whatever the loop returns extends the accumulator by one entry per text. *)
Lemma batch_loop_returns pipe texts : forall acc tr results tr',
  batch_loop pipe acc texts tr = (Returns results, tr') ->
  results = acc ++ (batch_entry pipe <$> texts).
Proof.
  induction texts as [| text texts IH]; intros acc tr results tr' Hrun.
  - simpl in Hrun. unfold ret in Hrun. injection Hrun as <- _. rewrite app_nil_r. reflexivity.
  - simpl batch_loop in Hrun. unfold bind in Hrun. rewrite batch_step_run in Hrun.
    destruct (pipe text) as [out | e] eqn:Hp.
    + apply IH in Hrun. rewrite Hrun, fmap_cons, <- app_assoc. reflexivity.
    + destruct (is_Exception e); [| discriminate].
      apply IH in Hrun. rewrite Hrun, fmap_cons, <- app_assoc. reflexivity.
Qed.

Lemma batch_entry_text pipe text : batch_entry pipe text !! str "text" = Some (VStr text).
Proof.
  unfold batch_entry. destruct (pipe text) as [[| result more] | e].
  - apply error_result_text.
  - apply batch_success_text.
  - apply error_result_text.
Qed.

Lemma batch_entry_status pipe text :
  batch_entry pipe text !! str "status" = Some (VStr (str "error")) <-> item_fails pipe text.
Proof.
  unfold batch_entry, item_fails. destruct (pipe text) as [[| result more] | e].
  - split; [intros _; exact I | intros _; apply error_fields].
  - split; [| contradiction].
    destruct (batch_success_fields text result) as (_ & _ & _ & Hst & _).
    cbv zeta in Hst. rewrite Hst. intros Heq. vm_compute in Heq. discriminate.
  - split; [intros _; exact I | intros _; apply error_fields].
Qed.

End SentimentApiFacts.

Module SentimentApiClaims.
Import SentimentApi SentimentApiSpec PyFloatSpec SentimentApiFacts.

(** C1 (the code departs from it). The lookup lowers the raw label but the
    table keeps the keys [LABEL_0], [LABEL_1], [LABEL_2] in upper case: the
    raw labels ["POSITIVE"] and ["positive"] are displayed as ["Positive"]
    with the positive glyph, while ["LABEL_2"] finds no entry and is displayed
    as the raw label ["LABEL_2"] with the fallback glyph. *)
Theorem label_lookup_misses_LABEL_2 :
  let shown label :=
    match fst (analyze_sentiment (sure_of label) (str "I love this workshop!") []) with
    | Returns r => (r !! str "label", r !! str "emoji")
    | Raises _ => (None, None)
    end in
  shown (str "POSITIVE") = (Some (VStr (str "Positive")), Some (VStr glyph_positive)) /\
  shown (str "positive") = (Some (VStr (str "Positive")), Some (VStr glyph_positive)) /\
  shown (str "LABEL_2") = (Some (VStr (str "LABEL_2")), Some (VStr glyph_unknown)) /\
  label_map !! str "LABEL_2" = Some (Display (str "Positive") glyph_positive) /\
  label_map !! PyStr.lower (str "LABEL_2") = None.
Proof. cbv zeta. repeat split; vm_compute; reflexivity. Qed.

(** C2, as the claim states it, fails: when the construction of the pipeline
    raises, [analyze_sentiment] raises the same exception to its caller. *)
Lemma analyze_sentiment_raises_on_load_error :
  fst (analyze_sentiment unloadable (str "I love this workshop!") []) = Raises load_error /\
  ~ (exists r, fst (analyze_sentiment unloadable (str "I love this workshop!") []) = Returns r).
Proof.
  rewrite (analyze_sentiment_load_error unloadable _ _ load_error eq_refl eq_refl).
  split; [reflexivity |]. intros [r Hr]. discriminate.
Qed.

(** C2, amended. Once the pipeline is constructed, [analyze_sentiment] does
    not raise an [Exception]: whatever the classifier call or the handling of
    its output raises is caught, and the result carries the input text, the
    status ["error"] and the message. An error of the import or of the
    construction of the pipeline is raised to the caller. *)
Theorem analyze_sentiment_catches_inference_errors T text tr :
  (forall pipe,
      import_pipeline T = Returns tt ->
      pipeline_all_scores T = Returns pipe ->
      (forall e, pipe text = Raises e -> is_Exception e = true) ->
      exists r,
        fst (analyze_sentiment T text tr) = Returns r /\
        (r !! str "status" = Some (VStr (str "success")) \/
         exists e, r = error_result text e /\
                   r !! str "text" = Some (VStr text) /\
                   r !! str "error" = Some (VStr (exc_msg e)) /\
                   r !! str "status" = Some (VStr (str "error")) /\
                   r !! str "label" = None /\ r !! str "score" = None) /\
        (forall e, pipe text = Raises e -> r = error_result text e) /\
        (pipe text = Returns [] ->
         r = error_result text (Exn IndexError (str "list index out of range"))) /\
        (forall more, pipe text = Returns ([] :: more) ->
         r = error_result text (Exn ValueError (str "max() arg is an empty sequence")))) /\
  (forall e, import_pipeline T = Raises e -> fst (analyze_sentiment T text tr) = Raises e) /\
  (forall e, import_pipeline T = Returns tt -> pipeline_all_scores T = Raises e ->
             fst (analyze_sentiment T text tr) = Raises e).
Proof.
  split; [| split].
  - intros pipe Hi Hp Hexc. rewrite (analyze_sentiment_loaded T text tr pipe Hi Hp). cbv zeta.
    destruct (pipe text) as [[| [| first rest] more] | e] eqn:Hrun.
    + eexists. split; [reflexivity |]. split; [| repeat split; try congruence; discriminate].
      right. eexists. split; [reflexivity |]. apply error_fields.
    + eexists. split; [reflexivity |]. split; [| repeat split; try congruence; discriminate].
      right. eexists. split; [reflexivity |]. apply error_fields.
    + eexists. split; [reflexivity |]. split; [| repeat split; discriminate].
      left. apply success_fields.
    + rewrite (Hexc e eq_refl).
      eexists. split; [reflexivity |]. split; [| repeat split; try discriminate].
      * right. eexists. split; [reflexivity |]. apply error_fields.
      * intros e' He'. injection He' as <-. reflexivity.
  - intros e Hi. rewrite (analyze_sentiment_import_error T text tr e Hi). reflexivity.
  - intros e Hi Hp. rewrite (analyze_sentiment_load_error T text tr e Hi Hp). reflexivity.
Qed.

Lemma analyze_sentiment_catches_inference_errors_witness :
  exists r, fst (analyze_sentiment fails_on_b (str "b") []) = Returns r /\
            r = error_result (str "b") runtime_error.
Proof.
  destruct (analyze_sentiment_catches_inference_errors fails_on_b (str "b") []) as [Hcaught _].
  destruct (Hcaught _ eq_refl eq_refl) as (r & Hr & _ & Herr & _).
  - intros e He. vm_compute in He. injection He as <-. reflexivity.
  - exists r. split; [exact Hr |]. apply Herr. reflexivity.
Defined.


(** C3 (the code departs from it). A text that is not blank, a classifier
    that answers with three class scores in [0, 1] and is sure of the class
    it calls ["LABEL_2"]: [analyze_sentiment] returns a result with status
    ["success"], the score 0.9 and the confidence ["90.0%"], but its label is
    the raw ["LABEL_2"], which is none of ["Positive"], ["Negative"],
    ["Neutral"], although the table, read without regard to case, has the
    entry ["Positive"] for it: the label is not unmapped. *)
Theorem success_result_keeps_LABEL_2 :
  exists r,
    analyze_sentiment index_labelled (str "I love this workshop!") [] =
    (Returns r,
     [Import (str "transformers"); PipelineNew (str "sentiment-analysis") (Some MODEL) true;
      PipelineCall (str "I love this workshop!")]) /\
    r !! str "status" = Some (VStr (str "success")) /\
    r !! str "label" = Some (VStr (str "LABEL_2")) /\
    (str "LABEL_2" ∉ [str "Positive"; str "Negative"; str "Neutral"]) /\
    table_entry (str "LABEL_2") (Display (str "Positive") glyph_positive) /\
    r !! str "score" = Some (VFloat nine_tenths) /\
    r !! str "confidence" = Some (VStr (str "90.0%")).
Proof.
  eexists. split; [reflexivity |].
  split; [vm_compute; reflexivity |].
  split; [vm_compute; reflexivity |].
  split.
  - rewrite !elem_of_cons, elem_of_nil. intros [H | [H | [H | []]]]; discriminate H.
  - split; [exists (str "LABEL_2"); split; vm_compute; reflexivity |].
    split; vm_compute; reflexivity.
Qed.

(** C4. When the request body has no ["text"] key, or its text is empty or
    whitespace only, [sentiment_endpoint] returns the object
    [{"error": "Please provide text to analyze", "status": "error"}] and
    performs no call at all: neither a remote call of [analyze_sentiment]
    nor a pipeline construction or invocation is added to the trace. *)
Theorem sentiment_endpoint_rejects_blank T P data tr :
  blank_text data ->
  exists msg,
    msg <> [] /\
    sentiment_endpoint T P data tr =
    (Returns {[ str "error" := VStr msg; str "status" := VStr (str "error") ]}, tr).
Proof.
  intros Hblank. exists (str "Please provide text to analyze").
  split; [discriminate |]. exact (sentiment_endpoint_blank T P data tr Hblank).
Qed.

Lemma sentiment_endpoint_rejects_blank_witness :
  exists msg, msg <> [] /\
    sentiment_endpoint (sure_of (str "positive")) running
      {[ str "text" := VStr (str "   ") ]} [] =
    (Returns {[ str "error" := VStr msg; str "status" := VStr (str "error") ]}, []).
Proof.
  apply (sentiment_endpoint_rejects_blank (sure_of (str "positive")) running
           {[ str "text" := VStr (str "   ") ]} []).
  right. exists (str "   "). split; [reflexivity |].
  repeat constructor.
Defined.


(** C5, as the claim states it, fails: when the pipeline cannot be
    constructed, [batch_sentiment_analysis] raises the error of the
    construction and returns no list, for two texts and for no text at
    all. *)
Lemma batch_load_error_escapes :
  fst (batch_sentiment_analysis unloadable [str "a"; str "b"] []) = Raises load_error /\
  fst (batch_sentiment_analysis unloadable [] []) = Raises load_error /\
  ~ (exists results,
       fst (batch_sentiment_analysis unloadable [str "a"; str "b"] []) = Returns results) /\
  ~ (exists results, fst (batch_sentiment_analysis unloadable [] []) = Returns results).
Proof.
  assert (forall texts, fst (batch_sentiment_analysis unloadable texts []) = Raises load_error)
    as Hraises by (intros texts; reflexivity).
  split; [apply Hraises |]. split; [apply Hraises |].
  split; intros [results Hr]; rewrite Hraises in Hr; discriminate Hr.
Qed.

(** C5, amended. Once [transformers] is imported and the default pipeline
    constructed, and with items failing with instances of [Exception] only,
    [batch_sentiment_analysis] returns one entry per input text, in input
    order: the i-th entry carries the i-th text; it has status ["error"],
    with the message, exactly when the analysis of that text failed; and
    the pipeline is called on every text, once and in order, whichever
    items fail. An error of the import or of the construction of the
    pipeline is raised to the caller before any text is analysed, whatever
    the list of texts. *)
Theorem batch_preserves_order T texts tr :
  (forall pipe,
      import_pipeline T = Returns tt ->
      pipeline_default T = Returns pipe ->
      (forall text e, text ∈ texts -> pipe text = Raises e -> is_Exception e = true) ->
      exists results,
        batch_sentiment_analysis T texts tr =
        (Returns results,
         tr ++ [Import (str "transformers"); PipelineNew (str "sentiment-analysis") None false]
            ++ (PipelineCall <$> texts)) /\
        length results = length texts /\
        forall (i : nat) text,
          texts !! i = Some text ->
          exists r,
            results !! i = Some r /\
            r !! str "text" = Some (VStr text) /\
            (r !! str "status" = Some (VStr (str "error")) <-> item_fails pipe text) /\
            (item_fails pipe text \/ r !! str "status" = Some (VStr (str "success"))) /\
            (forall e, pipe text = Raises e -> r = error_result text e)) /\
  (forall e, import_pipeline T = Raises e ->
             batch_sentiment_analysis T texts tr =
             (Raises e, tr ++ [Import (str "transformers")])) /\
  (forall e, import_pipeline T = Returns tt -> pipeline_default T = Raises e ->
             batch_sentiment_analysis T texts tr =
             (Raises e, tr ++ [Import (str "transformers");
                               PipelineNew (str "sentiment-analysis") None false])).
Proof.
  split; [| split].
  - intros pipe Hi Hp Hexc. exists (batch_entry pipe <$> texts).
    split; [| split].
    + unfold batch_sentiment_analysis, bind, external. rewrite Hi, Hp.
      rewrite (batch_loop_run pipe texts [] _ Hexc).
      rewrite app_nil_l, <- !app_assoc. reflexivity.
    + apply length_fmap.
    + intros i text Hlook. exists (batch_entry pipe text).
      split; [rewrite list_lookup_fmap, Hlook; reflexivity |].
      split; [apply batch_entry_text |].
      split; [apply batch_entry_status |].
      split.
      * unfold item_fails, batch_entry.
        destruct (pipe text) as [[| result more] | e];
          [left; exact I | right; apply batch_success_fields | left; exact I].
      * intros e He. unfold batch_entry. rewrite He. reflexivity.
  - intros e Hi. unfold batch_sentiment_analysis, bind, external. rewrite Hi. reflexivity.
  - intros e Hi Hp. unfold batch_sentiment_analysis, bind, external. rewrite Hi, Hp.
    rewrite <- app_assoc. reflexivity.
Qed.

Lemma batch_preserves_order_witness :
  exists first second,
    fst (batch_sentiment_analysis fails_on_b [str "a"; str "b"] []) = Returns [first; second] /\
    first !! str "status" = Some (VStr (str "success")) /\
    second = error_result (str "b") runtime_error.
Proof.
  destruct (batch_preserves_order fails_on_b [str "a"; str "b"] []) as [Hloaded _].
  destruct (Hloaded
              (fun text => if bool_decide (text = str "b") then Raises runtime_error
                           else Returns [ClassScore (str "POSITIVE") nine_tenths]))
    as (results & Hrun & Hlen & Hitems).
  - reflexivity.
  - reflexivity.
  - intros text e _ He. destruct (bool_decide (text = str "b")); [| discriminate].
    injection He as <-. reflexivity.
  - destruct results as [| first [| second [| third results]]]; try discriminate.
    exists first, second. rewrite Hrun. split; [reflexivity |].
    destruct (Hitems 0%nat (str "a") eq_refl) as (r0 & Hr0 & _ & _ & [Hf | Hs] & _);
      [vm_compute in Hf; contradiction |].
    destruct (Hitems 1%nat (str "b") eq_refl) as (r1 & Hr1 & _ & _ & _ & He).
    injection Hr0 as <-. injection Hr1 as <-.
    split; [exact Hs |]. apply He. reflexivity.
Defined.

(** C6. [health_check] takes no input and returns the same three-field
    payload from every state, leaving the trace as it found it: it imports
    nothing, constructs and calls no pipeline, and never raises. Two calls
    in a row return the same object twice. *)
Theorem health_check_static :
  exists payload,
    payload = {[ str "status" := VStr (str "healthy");
                 str "service" := VStr (str "sentiment-analyzer");
                 str "message" :=
                   VStr (str "Ready to analyze sentiment! Send POST requests to /sentiment_endpoint") ]} /\
    dom payload = {[ str "status"; str "service"; str "message" ]} /\
    (forall tr, health_check tr = (Returns payload, tr)) /\
    (forall tr,
        (first <- health_check ;; second <- health_check ;; ret (first, second)) tr =
        (Returns (payload, payload), tr)).
Proof.
  eexists. split; [reflexivity |]. split; [| split].
  - rewrite !dom_insert_L, dom_singleton_L. set_solver.
  - intros tr. reflexivity.
  - intros tr. reflexivity.
Qed.

(** C7. When [SENTIMENT_APP_NAME] is not in the environment the application
    name is ["sentiment-analyzer"]; when [MAX_CONCURRENT_REQUESTS] is not in
    the environment the descriptor of [analyze_sentiment] has the
    concurrency limit 10 (with the image and the timeout of 300 seconds). *)
Theorem defaults_without_overrides (int_of_str : list N -> outcome Z)
    (environ : gmap (list N) (list N)) :
  (environ !! str "SENTIMENT_APP_NAME" = None ->
   app_name environ = str "sentiment-analyzer") /\
  (environ !! str "MAX_CONCURRENT_REQUESTS" = None ->
   analyze_sentiment_options int_of_str environ =
   Returns {| fn_image := image; fn_timeout := Some 300; fn_concurrency_limit := Some 10 |}).
Proof.
  split; intros Habsent.
  - unfold app_name. rewrite Habsent. reflexivity.
  - unfold analyze_sentiment_options, concurrency_limit. rewrite Habsent. reflexivity.
Qed.

Lemma defaults_without_overrides_witness :
  app_name ∅ = str "sentiment-analyzer" /\
  analyze_sentiment_options (fun _ => Raises (Exn ValueError [])) ∅ =
  Returns {| fn_image := image; fn_timeout := Some 300; fn_concurrency_limit := Some 10 |}.
Proof.
  destruct (defaults_without_overrides (fun _ => Raises (Exn ValueError [])) ∅) as [Hname Hlimit].
  split; [apply Hname | apply Hlimit]; reflexivity.
Defined.

(** C9. Every result that [analyze_sentiment] returns, a success or an
    error, has the input text in its ["text"] field; and the ["text"] fields
    of the list that [batch_sentiment_analysis] returns are the input texts,
    one by one and in order. *)
Theorem results_carry_input_text T :
  (forall text tr r tr',
      analyze_sentiment T text tr = (Returns r, tr') -> r !! str "text" = Some (VStr text)) /\
  (forall texts tr results tr',
      batch_sentiment_analysis T texts tr = (Returns results, tr') ->
      (fun r : gmap (list N) pyval => r !! str "text") <$> results =
      (fun text => Some (VStr text)) <$> texts).
Proof.
  split.
  - intros text tr r tr' Hrun.
    destruct (import_pipeline T) as [[] | e] eqn:Hi;
      [| rewrite (analyze_sentiment_import_error T text tr e Hi) in Hrun; discriminate].
    destruct (pipeline_all_scores T) as [pipe | e] eqn:Hp;
      [| rewrite (analyze_sentiment_load_error T text tr e Hi Hp) in Hrun; discriminate].
    rewrite (analyze_sentiment_loaded T text tr pipe Hi Hp) in Hrun. cbv zeta in Hrun.
    destruct (pipe text) as [[| [| first rest] more] | e].
    + injection Hrun as <- _. apply error_result_text.
    + injection Hrun as <- _. apply error_result_text.
    + injection Hrun as <- _. apply success_result_text.
    + destruct (is_Exception e); [| discriminate].
      injection Hrun as <- _. apply error_result_text.
  - intros texts tr results tr' Hrun.
    unfold batch_sentiment_analysis, bind, external in Hrun.
    destruct (import_pipeline T) as [[] | e]; [| discriminate].
    destruct (pipeline_default T) as [pipe | e]; [| discriminate].
    apply batch_loop_returns in Hrun. rewrite Hrun, app_nil_l, <- list_fmap_compose.
    apply list_fmap_ext. intros _ text _. apply batch_entry_text.
Qed.

Lemma results_carry_input_text_witness :
  (exists r, fst (analyze_sentiment fails_on_b (str "b") []) = Returns r /\
             r !! str "text" = Some (VStr (str "b"))) /\
  (exists results,
     fst (batch_sentiment_analysis fails_on_b [str "a"; str "b"] []) = Returns results /\
     (fun r : gmap (list N) pyval => r !! str "text") <$> results =
     [Some (VStr (str "a")); Some (VStr (str "b"))]).
Proof.
  destruct (results_carry_input_text fails_on_b) as [Hone Hbatch].
  split.
  - exists (error_result (str "b") runtime_error).
    assert (analyze_sentiment fails_on_b (str "b") [] =
            (Returns (error_result (str "b") runtime_error),
             [Import (str "transformers");
              PipelineNew (str "sentiment-analysis") (Some MODEL) true;
              PipelineCall (str "b")])) as Hrun by reflexivity.
    split; [rewrite Hrun; reflexivity |]. exact (Hone _ _ _ _ Hrun).
  - exists [batch_success (str "a") (ClassScore (str "POSITIVE") nine_tenths);
            error_result (str "b") runtime_error].
    assert (batch_sentiment_analysis fails_on_b [str "a"; str "b"] [] =
            (Returns [batch_success (str "a") (ClassScore (str "POSITIVE") nine_tenths);
                      error_result (str "b") runtime_error],
             [Import (str "transformers");
              PipelineNew (str "sentiment-analysis") None false;
              PipelineCall (str "a"); PipelineCall (str "b")])) as Hrun by reflexivity.
    split; [rewrite Hrun; reflexivity |]. exact (Hbatch _ _ _ _ Hrun).
Defined.

End SentimentApiClaims.

Module ModalSetupFacts.
Import ModalSetup ModalSetupSpec.

Ltac unfold_script :=
  unfold script, main, check_modal_installation, load_environment, setup_modal_auth,
    verify_modal_connection, try_except, bind, external, print, ret.

Ltac unfold_spec :=
  unfold step1_ok, step2_ok, step3_ok, step4_ok, auth_fails, verification_fails,
    step1_actions, step2_actions, is_returned.

(** Case analysis on what the host answers, in the order the script asks. *)
Ltac ask o := destruct o as [[] | ?] eqn:?.

Ltac host_case :=
  match goal with
  | |- context [match import_modal ?H with Returns _ => _ | Raises _ => _ end] =>
      ask (import_modal H)
  | |- context [if is_ImportError ?e then _ else _] => destruct (is_ImportError e) eqn:?
  | |- context [match pip_install ?H with Returns _ => _ | Raises _ => _ end] =>
      ask (pip_install H)
  | |- context [if env_local_exists ?H then _ else _] => destruct (env_local_exists H) eqn:?
  | |- context [match load_dotenv ?H with Returns _ => _ | Raises _ => _ end] =>
      ask (load_dotenv H)
  | |- context [match modal_setup ?H with Returns _ => _ | Raises _ => _ end] =>
      ask (modal_setup H)
  | |- context [if is_CalledProcessError ?e then _ else _] =>
      destruct (is_CalledProcessError e) eqn:?
  | |- context [match import_modal_again ?H with Returns _ => _ | Raises _ => _ end] =>
      ask (import_modal_again H)
  | |- context [match app_new ?H with Returns _ => _ | Raises _ => _ end] =>
      ask (app_new H)
  | |- context [match app_function ?H with Returns _ => _ | Raises _ => _ end] =>
      ask (app_function H)
  | |- context [if is_Exception ?e then _ else _] => destruct (is_Exception e) eqn:?
  end.

Ltac host_cases :=
  unfold_script; unfold_spec; repeat (host_case; cbn [negb andb fst snd]).

Lemma printed_spec line tr : printed line tr = true <-> Print line ∈ tr.
Proof.
  unfold printed. rewrite existsb_exists. split.
  - intros (ev & Hin & Hev). destruct ev; try discriminate.
    apply bool_decide_eq_true in Hev. subst. apply list_elem_of_In. exact Hin.
  - intros Hin. exists (Print line). split; [apply list_elem_of_In; exact Hin |].
    apply bool_decide_eq_true. reflexivity.
Qed.

Lemma not_printed_spec line tr : printed line tr = false <-> Print line ∉ tr.
Proof.
  rewrite <- printed_spec. destruct (printed line tr); split; intros; congruence.
Qed.

Lemma printed_app line tr tr' : printed line (tr ++ tr') = printed line tr || printed line tr'.
Proof. apply existsb_app. Qed.

(** *** [check_modal_installation] *)

Lemma check_modal_installation_run H tr :
  fst (check_modal_installation H tr) =
  match import_modal H with
  | Returns _ => Returns true
  | Raises e =>
      if is_ImportError e then
        match pip_install H with
        | Returns _ => Returns true
        | Raises e' => Raises e'
        end
      else Raises e
  end.
Proof. host_cases; reflexivity. Qed.

(** *** The script as a whole *)

(** One case analysis on the host gives every fact about a run of [main]
    that the statements below use. *)
Lemma main_summary H :
  exists out tr,
    main H [] = (out, tr) /\
    (out = Returns true <-> step1_ok H && step2_ok H && step3_ok H && step4_ok H = true) /\
    List.filter is_action tr =
      step1_actions H ++
      (if step1_ok H then
         step2_actions H ++
         (if step2_ok H then
            step3_actions ++ (if step3_ok H then step4_attempted H else [])
          else [])
       else []) /\
    (step1_ok H = true -> step2_ok H = true -> auth_fails H = true -> out = Returns false) /\
    (step1_ok H = true -> step2_ok H = true -> step3_ok H = true ->
     verification_fails H = true -> out = Returns false) /\
    printed step4_banner tr = step1_ok H && step2_ok H && step3_ok H /\
    printed install_failed tr = false.
Proof.
  unfold step4_attempted. host_cases.
  all: eexists _, _; split; [reflexivity |].
  all: split; [split; first [reflexivity | discriminate] |].
  all: split; [reflexivity |].
  all: split; [intros; first [discriminate | reflexivity] |].
  all: split; [intros; first [discriminate | reflexivity] |].
  all: split; vm_compute; reflexivity.
Qed.

Lemma script_of_main H out tr :
  main H [] = (out, tr) ->
  script H =
  match out with
  | Returns true => (tr ++ [Print (nl ++ str "You're all set! Start with sentiment_api.py")], 0)
  | Returns false =>
      (tr ++ [Print (nl ++ str "Setup failed - please ask for help before proceeding")], 1)
  | Raises e => (tr, if is_Exception e then 1 else 130)
  end.
Proof. intros Hm. unfold script. rewrite Hm. destruct out as [[] |]; reflexivity. Qed.

Lemma script_summary H :
  (snd (script H) = 0 <-> step1_ok H && step2_ok H && step3_ok H && step4_ok H = true) /\
  (fst (main H []) = Returns true <->
   step1_ok H && step2_ok H && step3_ok H && step4_ok H = true) /\
  List.filter is_action (fst (script H)) =
    step1_actions H ++
    (if step1_ok H then
       step2_actions H ++
       (if step2_ok H then
          step3_actions ++ (if step3_ok H then step4_attempted H else [])
        else [])
     else []) /\
  (step1_ok H = true -> step2_ok H = true -> auth_fails H = true ->
   fst (main H []) = Returns false /\ snd (script H) = 1) /\
  (step1_ok H = true -> step2_ok H = true -> step3_ok H = true ->
   verification_fails H = true ->
   fst (main H []) = Returns false /\ snd (script H) = 1) /\
  (Print step4_banner ∈ fst (script H) <-> step1_ok H && step2_ok H && step3_ok H = true) /\
  Print install_failed ∉ fst (script H).
Proof.
  destruct (main_summary H) as (out & tr & Hm & Htrue & Hact & Hauth & Hver & Hban & Hinst).
  rewrite (script_of_main H out tr Hm), Hm. cbn [fst].
  split; [| split; [exact Htrue | split; [| split; [| split; [| split]]]]].
  - rewrite <- Htrue. destruct out as [[] | e]; cbn [snd].
    + split; reflexivity.
    + split; discriminate.
    + split; [destruct (is_Exception e) |]; discriminate.
  - rewrite <- Hact. destruct out as [[] | e]; cbn [fst]; [| | reflexivity];
      rewrite List.filter_app, app_nil_r; reflexivity.
  - intros H1 H2 H3. rewrite (Hauth H1 H2 H3). split; reflexivity.
  - intros H1 H2 H3 H4. rewrite (Hver H1 H2 H3 H4). split; reflexivity.
  - rewrite <- printed_spec, <- Hban.
    destruct out as [[] | e]; cbn [fst]; [| | reflexivity];
      rewrite printed_app, orb_false_r; reflexivity.
  - rewrite <- not_printed_spec.
    destruct out as [[] | e]; cbn [fst]; [| | exact Hinst];
      rewrite printed_app, Hinst; reflexivity.
Qed.


Lemma main_returns_true H :
  fst (main H []) = Returns true <->
  step1_ok H && step2_ok H && step3_ok H && step4_ok H = true.
Proof. apply script_summary. Qed.





(** The branch of [main] that reports a failed installation is never taken. *)
Lemma install_failed_never_printed H : Print install_failed ∉ fst (script H).
Proof. apply script_summary. Qed.

End ModalSetupFacts.

Module ModalSetupClaims.
Import ModalSetup ModalSetupSpec ModalSetupFacts.



(** C10. [check_modal_installation] returns [True] whenever it returns: when
    the import succeeds, and when the import fails with an [ImportError]
    and the installation succeeds; when the installation fails it raises, as
    it does on an import error of another class. The line
    ["Failed to install Modal - please install manually"] of [main] is
    therefore printed in no run. *)
Theorem check_modal_installation_never_false H :
  (forall tr b tr', check_modal_installation H tr = (Returns b, tr') -> b = true) /\
  (forall tr, import_modal H = Returns tt ->
              fst (check_modal_installation H tr) = Returns true) /\
  (forall tr e, import_modal H = Raises e -> is_ImportError e = true ->
                pip_install H = Returns tt ->
                fst (check_modal_installation H tr) = Returns true) /\
  (forall tr e e', import_modal H = Raises e -> is_ImportError e = true ->
                   pip_install H = Raises e' ->
                   fst (check_modal_installation H tr) = Raises e') /\
  (forall tr e, import_modal H = Raises e -> is_ImportError e = false ->
                fst (check_modal_installation H tr) = Raises e) /\
  Print install_failed ∉ fst (script H).
Proof.
  split; [| split; [| split; [| split; [| split]]]].
  - intros tr b tr' Hrun.
    pose proof (check_modal_installation_run H tr) as Hfst. rewrite Hrun in Hfst. simpl in Hfst.
    destruct (import_modal H) as [[] | e]; [congruence |].
    destruct (is_ImportError e); [| discriminate].
    destruct (pip_install H) as [[] | e']; congruence.
  - intros tr Hi. rewrite check_modal_installation_run, Hi. reflexivity.
  - intros tr e Hi He Hp. rewrite check_modal_installation_run, Hi, He, Hp. reflexivity.
  - intros tr e e' Hi He Hp. rewrite check_modal_installation_run, Hi, He, Hp. reflexivity.
  - intros tr e Hi He. rewrite check_modal_installation_run, Hi, He. reflexivity.
  - apply install_failed_never_printed.
Qed.

Lemma check_modal_installation_never_false_witness :
  fst (check_modal_installation uninstallable []) = Raises pip_failed /\
  Print install_failed ∉ fst (script uninstallable).
Proof.
  destruct (check_modal_installation_never_false uninstallable) as (_ & _ & _ & Hraise & _ & Hline).
  split; [| exact Hline].
  apply (Hraise [] (Exn ModuleNotFoundError (str "No module named 'modal'"))); reflexivity.
Defined.

End ModalSetupClaims.

Module SentimentApiMore.
Import SentimentApi SentimentApiSpec PyFloatSpec SentimentApiFacts.

(** *** Stripping *)

Lemma lstrip_Exists s :
  Exists (fun c => PyStr.is_space c = false) s ->
  Exists (fun c => PyStr.is_space c = false) (PyStr.lstrip s).
Proof.
  induction 1 as [c s Hc | c s _ IH]; simpl.
  - rewrite Hc. left. exact Hc.
  - destruct (PyStr.is_space c) eqn:Hc; [exact IH | left; exact Hc].
Qed.

Lemma strip_nonempty s :
  Exists (fun c => PyStr.is_space c = false) s -> PyStr.strip s <> [].
Proof.
  intros Hs. unfold PyStr.strip, PyStr.rstrip.
  apply lstrip_Exists in Hs. apply Exists_exists in Hs as (c & Hin & Hc).
  assert (Exists (fun c => PyStr.is_space c = false) (rev (PyStr.lstrip s))) as Hr.
  { apply Exists_exists. exists c. split; [| exact Hc].
    apply list_elem_of_In, in_rev. rewrite rev_involutive. apply list_elem_of_In. exact Hin. }
  apply lstrip_Exists in Hr. intros Hnil.
  apply (f_equal (@rev N)) in Hnil. rewrite rev_involutive in Hnil. simpl in Hnil.
  rewrite Hnil in Hr. inversion Hr.
Qed.

(** *** Lowering *)

Lemma lower_char_not_upper c : ((65 <=? PyStr.lower_char c) && (PyStr.lower_char c <=? 90))%N = false.
Proof.
  unfold PyStr.lower_char.
  destruct ((65 <=? c) && (c <=? 90))%N eqn:Hc; [| exact Hc].
  apply andb_true_iff in Hc as [H1 H2]. apply N.leb_le in H1, H2.
  apply andb_false_iff. right. apply N.leb_gt. lia.
Qed.

Lemma lower_not_upper s c :
  c ∈ PyStr.lower s -> ((65 <=? c) && (c <=? 90))%N = false.
Proof.
  unfold PyStr.lower. intros Hin. apply list_elem_of_fmap in Hin as (c' & -> & _).
  apply lower_char_not_upper.
Qed.

(** No lowered label is one of the upper-case keys. *)
Lemma lower_misses_LABEL s :
  PyStr.lower s <> str "LABEL_0" /\ PyStr.lower s <> str "LABEL_1" /\
  PyStr.lower s <> str "LABEL_2".
Proof.
  repeat split; intros Heq;
    (assert (76%N ∈ PyStr.lower s) as Hin by (rewrite Heq; left));
    apply lower_not_upper in Hin; discriminate Hin.
Qed.


Lemma bind_ret {A} (c : M A) tr : (x <- c ;; ret x) tr = c tr.
Proof. unfold bind, ret. destruct (c tr) as [[a | e] tr']; reflexivity. Qed.

(** *** The label mapping, key by key *)

Lemma label_map_lookup key :
  label_map !! key =
  if decide (str "LABEL_0" = key) then Some (Display (str "Negative") glyph_negative)
  else if decide (str "LABEL_1" = key) then Some (Display (str "Neutral") glyph_neutral)
  else if decide (str "LABEL_2" = key) then Some (Display (str "Positive") glyph_positive)
  else if decide (str "negative" = key) then Some (Display (str "Negative") glyph_negative)
  else if decide (str "neutral" = key) then Some (Display (str "Neutral") glyph_neutral)
  else if decide (str "positive" = key) then Some (Display (str "Positive") glyph_positive)
  else None.
Proof.
  unfold label_map. rewrite !lookup_insert, lookup_singleton.
  repeat (case_decide; [reflexivity |]). reflexivity.
Qed.

(** A label is mapped to one of the three displays, or it is kept, and
    then it is none of the three display labels. *)
Lemma mapped_of_kept_or_displayed label :
  (mapped_of label = Display label glyph_unknown /\
   (label <> str "Positive" /\ label <> str "Negative" /\ label <> str "Neutral")) \/
  mapped_of label = Display (str "Positive") glyph_positive \/
  mapped_of label = Display (str "Negative") glyph_negative \/
  mapped_of label = Display (str "Neutral") glyph_neutral.
Proof.
  destruct (lower_misses_LABEL label) as (H0 & H1 & H2).
  unfold mapped_of. rewrite label_map_lookup.
  repeat (case_decide; [congruence |]).
  case_decide; [right; right; left; reflexivity |].
  case_decide; [right; right; right; reflexivity |].
  case_decide; [right; left; reflexivity |].
  left. split; [reflexivity |].
  repeat split; intros ->; vm_compute in *; congruence.
Qed.

(** *** The maximum is the first of the maximal classes *)

Lemma max_from_first rest : forall before best skipped,
  Forall (fun c => unit_like (cs_score c)) (before ++ best :: skipped ++ rest) ->
  Forall (fun c => PyFloat.lt (cs_score c) (cs_score best) = true) before ->
  Forall (fun c => PyFloat.le (cs_score c) (cs_score best) = true) skipped ->
  exists before' after,
    before ++ best :: skipped ++ rest = before' ++ max_from best rest :: after /\
    Forall (fun c => PyFloat.lt (cs_score c) (cs_score (max_from best rest)) = true) before' /\
    Forall (fun c => PyFloat.le (cs_score c) (cs_score (max_from best rest)) = true) after.
Proof.
  induction rest as [| item rest IH]; intros before best skipped Hall Hlt Hle.
  - exists before, skipped. rewrite app_nil_r. auto.
  - simpl max_from.
    assert (unit_like (cs_score best) /\ unit_like (cs_score item)) as [Hb Hi].
    { rewrite Forall_app, Forall_cons, Forall_app, Forall_cons in Hall. tauto. }
    assert (Forall (fun c => unit_like (cs_score c)) before) as Hub
      by (rewrite Forall_app in Hall; tauto).
    assert (Forall (fun c => unit_like (cs_score c)) skipped) as Hus
      by (rewrite Forall_app, Forall_cons, Forall_app in Hall; tauto).
    destruct (PyFloat.gt (cs_score item) (cs_score best)) eqn:Hgt.
    + destruct (IH (before ++ best :: skipped) item []) as (b' & a' & Heq & Hlt' & Hle').
      * rewrite <- app_assoc. simpl. exact Hall.
      * rewrite Forall_app, Forall_cons. split; [| split].
        -- rewrite Forall_forall in Hlt, Hub |- *. intros c Hc.
           apply PyFloatFacts.lt_trans with (cs_score best); auto.
        -- exact Hgt.
        -- rewrite Forall_forall in Hle, Hus |- *. intros c Hc.
           apply PyFloatFacts.le_lt_trans with (cs_score best); auto.
      * constructor.
      * exists b', a'. rewrite <- Heq, <- app_assoc. simpl. auto.
    + destruct (IH before best (skipped ++ [item])) as (b' & a' & Heq & Hlt' & Hle').
      * rewrite <- app_assoc. simpl. exact Hall.
      * exact Hlt.
      * rewrite Forall_app, Forall_singleton. split; [exact Hle |].
        apply PyFloatFacts.le_of_not_gt; assumption.
      * exists b', a'. rewrite <- Heq, <- app_assoc. simpl. auto.
Qed.

(** *** The batch loop, piece by piece *)

Lemma batch_loop_app pipe l1 : forall l2 acc tr,
  batch_loop pipe acc (l1 ++ l2) tr =
  (acc' <- batch_loop pipe acc l1 ;; batch_loop pipe acc' l2) tr.
Proof.
  induction l1 as [| text l1 IH]; intros l2 acc tr.
  - reflexivity.
  - simpl. unfold bind.
    destruct (batch_step pipe acc text tr) as [[acc' | e] tr']; [| reflexivity].
    rewrite IH. reflexivity.
Qed.

End SentimentApiMore.

Module SentimentApiExtras.
Import SentimentApi SentimentApiSpec PyFloatSpec SentimentApiFacts SentimentApiMore.
Import PyFloatRounding.

(** X1. A request whose text is a string with at least one character that
    is not whitespace is handed to [analyze_sentiment] through one remote
    call, with the text as received (surrounding whitespace included). When
    the platform refuses the call, the endpoint raises that error and the
    analysis does not run; when the platform runs it and hands the result
    back, the endpoint returns or raises exactly what the analysis does;
    when the platform fails to hand a returned result back, that failure is
    raised in its place. *)
Theorem sentiment_endpoint_delegates T P data s tr :
  data !! str "text" = Some (VStr s) ->
  Exists (fun c => PyStr.is_space c = false) s ->
  sentiment_endpoint T P data tr =
  match remote_call P analysis s with
  | Raises e => (Raises e, tr ++ [RemoteCall analysis s])
  | Returns _ =>
      match analyze_sentiment T s (tr ++ [RemoteCall analysis s]) with
      | (Returns r, tr') =>
          match remote_return P analysis s with
          | Returns _ => (Returns r, tr')
          | Raises e => (Raises e, tr')
          end
      | raised => raised
      end
  end.
Proof.
  intros Hs Hns. unfold sentiment_endpoint. rewrite Hs. cbn [from_option id].
  pose proof (strip_nonempty s Hns) as Hstrip.
  destruct s as [| c s']; [inversion Hns |].
  cbn [truthy negb orb].
  rewrite bool_decide_eq_false_2 by exact Hstrip.
  rewrite bind_ret. unfold analyze_sentiment_remote, analysis, bind, external, lift, ret.
  destruct (remote_call P _ _) as [[] | e]; [| reflexivity].
  destruct (analyze_sentiment T _ _) as [[r | e] tr']; [| reflexivity].
  destruct (remote_return P _ _) as [[] | e]; reflexivity.
Qed.

Lemma sentiment_endpoint_delegates_witness :
  sentiment_endpoint (sure_of (str "positive")) running {[ str "text" := VStr (str " ok ") ]} [] =
    analyze_sentiment (sure_of (str "positive")) (str " ok ") [RemoteCall analysis (str " ok ")] /\
  sentiment_endpoint (sure_of (str "positive")) not_running
    {[ str "text" := VStr (str " ok ") ]} [] =
    (Raises execution_error, [RemoteCall analysis (str " ok ")]) /\
  fst (sentiment_endpoint (sure_of (str "positive")) timing_out
         {[ str "text" := VStr (str " ok ") ]} []) = Raises timeout_error.
Proof.
  split; [| split].
  - rewrite (sentiment_endpoint_delegates (sure_of (str "positive")) running
               {[ str "text" := VStr (str " ok ") ]} (str " ok ") []).
    + reflexivity.
    + reflexivity.
    + right. left. reflexivity.
  - apply (sentiment_endpoint_delegates (sure_of (str "positive")) not_running
             {[ str "text" := VStr (str " ok ") ]} (str " ok ") []).
    + reflexivity.
    + right. left. reflexivity.
  - rewrite (sentiment_endpoint_delegates (sure_of (str "positive")) timing_out
               {[ str "text" := VStr (str " ok ") ]} (str " ok ") []).
    + reflexivity.
    + reflexivity.
    + right. left. reflexivity.
Defined.

(** X2. When the ["text"] value is not a string, the endpoint never reaches
    the model: a falsy value ([None], [False], [0], [0.0], [[]], [{}]) gets
    the validation error, and a truthy one (a non-zero number, [True], a
    non-empty list or dict) makes [text.strip()] raise [AttributeError]. *)
Theorem sentiment_endpoint_non_string T P data v tr :
  data !! str "text" = Some v ->
  (forall s, v <> VStr s) ->
  sentiment_endpoint T P data tr =
  if truthy v then
    (Raises (Exn AttributeError
               (str "'" ++ type_name v ++ str "' object has no attribute 'strip'")), tr)
  else (Returns validation_error, tr).
Proof.
  intros Hv Hns. unfold sentiment_endpoint. rewrite Hv. cbn [from_option id].
  destruct v as [| b | z | f | s | l | d];
    try (exfalso; exact (Hns _ eq_refl));
    unfold raise, ret; destruct (truthy _); reflexivity.
Qed.

Lemma sentiment_endpoint_non_string_witness :
  sentiment_endpoint (sure_of (str "positive")) running {[ str "text" := VInt 5 ]} [] =
  (Raises (Exn AttributeError (str "'int' object has no attribute 'strip'")), []).
Proof.
  apply (sentiment_endpoint_non_string (sure_of (str "positive")) running
           {[ str "text" := VInt 5 ]} (VInt 5) []).
  - reflexivity.
  - intros s Hs. discriminate Hs.
Defined.

(** X3. Among classes whose scores are doubles in [0, 1], the top
    prediction is the first one with the maximal score: every class before
    it has a strictly smaller score, and no class after it a greater one. *)
Theorem max_by_score_first_maximal results top :
  Forall (fun c => PyFloat.in_unit (cs_score c) = true) results ->
  max_by_score results = Returns top ->
  exists before after,
    results = before ++ top :: after /\
    Forall (fun c => PyFloat.lt (cs_score c) (cs_score top) = true) before /\
    Forall (fun c => PyFloat.le (cs_score c) (cs_score top) = true) after.
Proof.
  intros Hall Hmax. destruct results as [| first rest]; [discriminate |].
  injection Hmax as <-.
  destruct (max_from_first rest [] first []) as (before & after & Heq & Hlt & Hle).
  - simpl. eapply Forall_impl; [exact Hall |]. intros c. apply PyFloatFacts.in_unit_like.
  - constructor.
  - constructor.
  - exists before, after. split; [exact Heq | split; assumption].
Qed.

Lemma max_by_score_first_maximal_witness :
  exists before after,
    [ClassScore (str "negative") one_tenth; ClassScore (str "neutral") nine_tenths;
     ClassScore (str "positive") nine_tenths]
    = before ++ ClassScore (str "neutral") nine_tenths :: after /\
    Forall (fun c => PyFloat.lt (cs_score c) nine_tenths = true) before.
Proof.
  destruct (max_by_score_first_maximal
              [ClassScore (str "negative") one_tenth; ClassScore (str "neutral") nine_tenths;
               ClassScore (str "positive") nine_tenths]
              (ClassScore (str "neutral") nine_tenths))
    as (before & after & Heq & Hlt & _).
  - repeat constructor.
  - vm_compute. reflexivity.
  - exists before, after. split; [exact Heq | exact Hlt].
Defined.


(** X4. What a raw label is displayed as depends on its lowered form only:
    ["negative"], ["neutral"] and ["positive"] (in any mix of cases) get their
    display label and glyph; every other raw label, [LABEL_0], [LABEL_1] and
    [LABEL_2] included, is displayed as itself with the fallback glyph. The
    three upper-case keys of the table are never found. *)
Theorem mapped_of_by_lowered_label label :
  mapped_of label =
    (if decide (PyStr.lower label = str "negative") then
       Display (str "Negative") glyph_negative
     else if decide (PyStr.lower label = str "neutral") then
       Display (str "Neutral") glyph_neutral
     else if decide (PyStr.lower label = str "positive") then
       Display (str "Positive") glyph_positive
     else Display label glyph_unknown) /\
  PyStr.lower label ∉ [str "LABEL_0"; str "LABEL_1"; str "LABEL_2"].
Proof.
  destruct (lower_misses_LABEL label) as (H0 & H1 & H2).
  split.
  - unfold mapped_of. rewrite label_map_lookup.
    repeat case_decide; first [reflexivity | congruence].
  - rewrite !elem_of_cons, elem_of_nil. tauto.
Qed.

(** X5. In every result that [analyze_sentiment] returns, the glyph goes
    with the display label: the label is ["Positive"] exactly when the
    glyph is the positive one, and likewise for ["Negative"] and
    ["Neutral"]; an unmapped label never carries one of the three glyphs. *)
Theorem result_glyph_matches_label T text tr r tr' :
  analyze_sentiment T text tr = (Returns r, tr') ->
  (r !! str "label" = Some (VStr (str "Positive")) <->
   r !! str "emoji" = Some (VStr glyph_positive)) /\
  (r !! str "label" = Some (VStr (str "Negative")) <->
   r !! str "emoji" = Some (VStr glyph_negative)) /\
  (r !! str "label" = Some (VStr (str "Neutral")) <->
   r !! str "emoji" = Some (VStr glyph_neutral)).
Proof.
  intros Hrun.
  assert (forall e, error_result text e !! str "label" = None /\
                    error_result text e !! str "emoji" = None) as Herr.
  { intros e. unfold error_result. generalize (exc_msg e). intros msg.
    split; vm_compute; reflexivity. }
  assert (forall r0 : gmap (list N) pyval,
            r0 !! str "label" = None -> r0 !! str "emoji" = None ->
            (r0 !! str "label" = Some (VStr (str "Positive")) <->
             r0 !! str "emoji" = Some (VStr glyph_positive)) /\
            (r0 !! str "label" = Some (VStr (str "Negative")) <->
             r0 !! str "emoji" = Some (VStr glyph_negative)) /\
            (r0 !! str "label" = Some (VStr (str "Neutral")) <->
             r0 !! str "emoji" = Some (VStr glyph_neutral))) as Hnone.
  { intros r0 -> ->. repeat split; discriminate. }
  destruct (import_pipeline T) as [[] | e] eqn:Hi;
    [| rewrite (analyze_sentiment_import_error T text tr e Hi) in Hrun; discriminate].
  destruct (pipeline_all_scores T) as [pipe | e] eqn:Hp;
    [| rewrite (analyze_sentiment_load_error T text tr e Hi Hp) in Hrun; discriminate].
  rewrite (analyze_sentiment_loaded T text tr pipe Hi Hp) in Hrun. cbv zeta in Hrun.
  destruct (pipe text) as [[| [| first rest] more] | e].
  - injection Hrun as <- _. apply Hnone; apply Herr.
  - injection Hrun as <- _. apply Hnone; apply Herr.
  - injection Hrun as <- _.
    destruct (success_fields text (max_from first rest)) as (_ & -> & _ & _ & -> & _).
    destruct (mapped_of_kept_or_displayed (cs_label (max_from first rest)))
      as [(-> & Hl) | [-> | [-> | ->]]].
    + cbn [d_label d_emoji]. destruct Hl as (Hp' & Hn' & Hu').
      repeat split; intros Heq; injection Heq as Heq;
        first [discriminate Heq | contradiction].
    + cbn [d_label d_emoji]. repeat split; intros Heq; first [reflexivity | discriminate Heq].
    + cbn [d_label d_emoji]. repeat split; intros Heq; first [reflexivity | discriminate Heq].
    + cbn [d_label d_emoji]. repeat split; intros Heq; first [reflexivity | discriminate Heq].
  - destruct (is_Exception e); [| discriminate].
    injection Hrun as <- _. apply Hnone; apply Herr.
Qed.


Lemma result_glyph_matches_label_witness :
  exists r, fst (analyze_sentiment (sure_of (str "POSITIVE")) (str "great") []) = Returns r /\
            (r !! str "label" = Some (VStr (str "Positive")) <->
             r !! str "emoji" = Some (VStr glyph_positive)).
Proof.
  exists (success_result (str "great") (ClassScore (str "POSITIVE") nine_tenths)).
  split; [reflexivity |].
  apply (result_glyph_matches_label (sure_of (str "POSITIVE")) (str "great") [] _
           [Import (str "transformers");
            PipelineNew (str "sentiment-analysis") (Some MODEL) true;
            PipelineCall (str "great")]).
  reflexivity.
Defined.

(** X6. Every call of [analyze_sentiment] imports transformers and
    constructs the pipeline anew, and when that succeeds calls it exactly
    once on the text, whatever the classifier answers or raises. Nothing is
    kept from one call to the next: a second call repeats the import and
    the construction. *)
Theorem analyze_sentiment_events T text tr :
  snd (analyze_sentiment T text tr) = tr ++ analysis_events T text /\
  forall text2,
    snd ((analyze_sentiment T text ;; analyze_sentiment T text2) tr) =
    tr ++ analysis_events T text
       ++ (if is_returned (fst (analyze_sentiment T text tr)) then analysis_events T text2
           else []).
Proof.
  assert (forall t tr0, snd (analyze_sentiment T t tr0) = tr0 ++ analysis_events T t) as Hev.
  { intros t tr0. unfold analysis_events.
    destruct (import_pipeline T) as [[] | e] eqn:Hi;
      [| rewrite (analyze_sentiment_import_error T t tr0 e Hi); reflexivity].
    destruct (pipeline_all_scores T) as [pipe | e] eqn:Hp;
      [| rewrite (analyze_sentiment_load_error T t tr0 e Hi Hp), <- app_assoc; reflexivity].
    rewrite (analyze_sentiment_loaded T t tr0 pipe Hi Hp). cbv zeta.
    destruct (pipe t) as [[| [| first rest] more] | e];
      try destruct (is_Exception e); rewrite <- !app_assoc; reflexivity. }
  split; [apply Hev |].
  intros text2. unfold bind.
  pose proof (Hev text tr) as H1.
  destruct (analyze_sentiment T text tr) as [[r | e] tr1]; cbn [fst snd is_returned] in *;
    subst tr1.
  - rewrite Hev, <- app_assoc. reflexivity.
  - rewrite app_nil_r. reflexivity.
Qed.


(** X7. [batch_sentiment_analysis] raises, and returns no list, when the
    import or the construction of the pipeline fails (even for an empty list
    of texts) and when the analysis of an item raises outside [Exception]
    (a [KeyboardInterrupt]): the entries gathered so far are lost and the
    texts after that item are not analysed. *)
Theorem batch_raises T texts tr :
  (forall e, import_pipeline T = Raises e ->
     batch_sentiment_analysis T texts tr = (Raises e, tr ++ [Import (str "transformers")])) /\
  (forall e, import_pipeline T = Returns tt -> pipeline_default T = Raises e ->
     batch_sentiment_analysis T texts tr =
     (Raises e, tr ++ [Import (str "transformers");
                       PipelineNew (str "sentiment-analysis") None false])) /\
  (forall pipe before text after e,
     import_pipeline T = Returns tt -> pipeline_default T = Returns pipe ->
     texts = before ++ text :: after ->
     (forall t e', t ∈ before -> pipe t = Raises e' -> is_Exception e' = true) ->
     pipe text = Raises e -> is_Exception e = false ->
     batch_sentiment_analysis T texts tr =
     (Raises e, tr ++ [Import (str "transformers");
                       PipelineNew (str "sentiment-analysis") None false]
                   ++ (PipelineCall <$> before) ++ [PipelineCall text])).
Proof.
  split; [| split].
  - intros e Hi. unfold batch_sentiment_analysis, bind, external. rewrite Hi. reflexivity.
  - intros e Hi Hp. unfold batch_sentiment_analysis, bind, external. rewrite Hi, Hp.
    rewrite <- app_assoc. reflexivity.
  - intros pipe before text after e Hi Hp -> Hbefore Hraise Hbase.
    unfold batch_sentiment_analysis, bind, external. rewrite Hi, Hp.
    rewrite batch_loop_app. unfold bind.
    rewrite (batch_loop_run pipe before [] _ Hbefore).
    simpl batch_loop. unfold bind. rewrite batch_step_run, Hraise, Hbase.
    rewrite <- !app_assoc. reflexivity.
Qed.

Lemma batch_raises_witness :
  batch_sentiment_analysis interrupted_on_b [str "a"; str "b"; str "c"] [] =
  (Raises keyboard_interrupt,
   [Import (str "transformers"); PipelineNew (str "sentiment-analysis") None false;
    PipelineCall (str "a"); PipelineCall (str "b")]).
Proof.
  destruct (batch_raises interrupted_on_b [str "a"; str "b"; str "c"] []) as (_ & _ & Hmid).
  apply (Hmid (fun text => if bool_decide (text = str "b") then Raises keyboard_interrupt
                           else Returns [ClassScore (str "POSITIVE") nine_tenths])
              [str "a"] (str "b") [str "c"] keyboard_interrupt); try reflexivity.
  intros t e' Ht He'. apply list_elem_of_singleton in Ht. subst t. discriminate He'.
Defined.

(** X8. The entries of a batch have another shape than the results of
    [analyze_sentiment]: they never have an ["emoji"] or a ["confidence"]
    field, and a successful entry carries the raw label of the classifier,
    not the display label. *)
Theorem batch_entries_are_raw T texts tr results tr' :
  batch_sentiment_analysis T texts tr = (Returns results, tr') ->
  Forall (fun r : gmap (list N) pyval =>
            r !! str "emoji" = None /\ r !! str "confidence" = None) results /\
  forall pipe (i : nat) text result more,
    pipeline_default T = Returns pipe ->
    texts !! i = Some text ->
    pipe text = Returns (result :: more) ->
    exists r, results !! i = Some r /\
              r !! str "label" = Some (VStr (cs_label result)) /\
              r !! str "score" = Some (VFloat (PyFloat.round (cs_score result) 3)).
Proof.
  intros Hrun. unfold batch_sentiment_analysis, bind, external in Hrun.
  destruct (import_pipeline T) as [[] | e]; [| discriminate].
  destruct (pipeline_default T) as [pipe | e]; [| discriminate].
  apply batch_loop_returns in Hrun. rewrite app_nil_l in Hrun. subst results.
  split.
  - apply Forall_fmap, Forall_forall. intros text _. unfold batch_entry. simpl.
    assert (forall e, error_result text e !! str "emoji" = None /\
                      error_result text e !! str "confidence" = None) as Herr.
    { intros e. unfold error_result. generalize (exc_msg e). intros msg.
      split; vm_compute; reflexivity. }
    destruct (pipe text) as [[| result more] | e]; [apply Herr | | apply Herr].
    destruct (batch_success_fields text result) as (_ & _ & _ & _ & _ & He & Hc).
    split; assumption.
  - intros pipe' i text result more Hp Htext Hans. injection Hp as <-.
    exists (batch_entry pipe text). split; [rewrite list_lookup_fmap, Htext; reflexivity |].
    unfold batch_entry. rewrite Hans.
    destruct (batch_success_fields text result) as (_ & Hl & Hs & _).
    split; assumption.
Qed.

Lemma batch_entries_are_raw_witness :
  exists r, fst (batch_sentiment_analysis (sure_of (str "LABEL_2")) [str "great"] []) = Returns [r] /\
            r !! str "label" = Some (VStr (str "LABEL_2")) /\ r !! str "emoji" = None.
Proof.
  assert (batch_sentiment_analysis (sure_of (str "LABEL_2")) [str "great"] [] =
          (Returns [batch_success (str "great") (ClassScore (str "LABEL_2") nine_tenths)],
           [Import (str "transformers"); PipelineNew (str "sentiment-analysis") None false;
            PipelineCall (str "great")])) as Hrun by reflexivity.
  destruct (batch_entries_are_raw _ _ _ _ _ Hrun) as [Hshape Hraw].
  destruct (Hraw (fun _ => Returns [ClassScore (str "LABEL_2") nine_tenths]) 0%nat (str "great")
              (ClassScore (str "LABEL_2") nine_tenths) [] eq_refl eq_refl eq_refl)
    as (r & Hr & Hl & _).
  injection Hr as <-.
  eexists. split; [rewrite Hrun; reflexivity |]. split; [exact Hl |].
  inversion Hshape as [| ? ? [He _] _]. exact He.
Defined.

(** X9. A result of [analyze_sentiment] has one of two shapes: the six
    fields text, label, score, confidence, emoji, status with status
    ["success"], or the three fields text, error, status with status
    ["error"]; it never mixes them. *)
Theorem result_shapes T text tr r tr' :
  analyze_sentiment T text tr = (Returns r, tr') ->
  (dom r = {[ str "text"; str "label"; str "score"; str "confidence"; str "emoji";
              str "status" ]} /\
   r !! str "status" = Some (VStr (str "success"))) \/
  (dom r = {[ str "text"; str "error"; str "status" ]} /\
   r !! str "status" = Some (VStr (str "error"))).
Proof.
  intros Hrun.
  assert (forall e, dom (error_result text e) = {[ str "text"; str "error"; str "status" ]} /\
                    error_result text e !! str "status" = Some (VStr (str "error"))) as Herr.
  { intros e. split; [| apply error_fields].
    unfold error_result. rewrite !dom_insert_L, dom_singleton_L. set_solver. }
  destruct (import_pipeline T) as [[] | e] eqn:Hi;
    [| rewrite (analyze_sentiment_import_error T text tr e Hi) in Hrun; discriminate].
  destruct (pipeline_all_scores T) as [pipe | e] eqn:Hp;
    [| rewrite (analyze_sentiment_load_error T text tr e Hi Hp) in Hrun; discriminate].
  rewrite (analyze_sentiment_loaded T text tr pipe Hi Hp) in Hrun. cbv zeta in Hrun.
  destruct (pipe text) as [[| [| first rest] more] | e].
  - injection Hrun as <- _. right. apply Herr.
  - injection Hrun as <- _. right. apply Herr.
  - injection Hrun as <- _. left. split; [| apply success_fields].
    unfold success_result. rewrite !dom_insert_L, dom_singleton_L. set_solver.
  - destruct (is_Exception e); [| discriminate].
    injection Hrun as <- _. right. apply Herr.
Qed.

Lemma result_shapes_witness :
  dom (error_result (str "b") runtime_error) = {[ str "text"; str "error"; str "status" ]}.
Proof.
  destruct (result_shapes fails_on_b (str "b") [] (error_result (str "b") runtime_error)
              [Import (str "transformers");
               PipelineNew (str "sentiment-analysis") (Some MODEL) true;
               PipelineCall (str "b")] eq_refl) as [[_ Hs] | [Hd _]].
  - exfalso. destruct (error_fields (str "b") runtime_error) as (_ & _ & He & _).
    cbv zeta in He. rewrite He in Hs. discriminate Hs.
  - exact Hd.
Defined.

(** X19. When the pipeline is constructed and answers [text] with a
    non-empty list of class scores, each a valid double with a value in
    [0, 1], [analyze_sentiment] returns a success built from a class [top]
    of maximal score, in which
    - the score is a double in [0, 1] that is [k / 1000] rounded to the
      nearest double (no double is nearer to [k / 1000]), where [k] is the
      integer nearest to a thousand times the top score (the even one on a
      tie);
    - the confidence is the numeral of [j / 10] with one decimal place
      followed by ["%"] (after a minus sign when the top score is the
      negative zero), where [j] is the integer nearest to ten times [p]
      (the even one on a tie), and [p], at most 100, is the exact product
      of the top score with 100 rounded to the nearest double, ties to
      even (no double is nearer to the exact product). *)
Theorem success_result_numbers T text tr pipe scores more :
  import_pipeline T = Returns tt ->
  pipeline_all_scores T = Returns pipe ->
  pipe text = Returns (scores :: more) ->
  scores <> [] ->
  Forall (fun c => probability (cs_score c)) scores ->
  exists top r x k p j,
    fst (analyze_sentiment T text tr) = Returns r /\
    top ∈ scores /\
    Forall (fun c => SFleb (cs_score c) (cs_score top) = true) scores /\
    r !! str "status" = Some (VStr (str "success")) /\
    r !! str "score" = Some (VFloat x) /\
    0 <= k <= 1000 /\
    nearest_integer k (value_num (cs_score top) * 1000) (value_den (cs_score top)) /\
    correctly_rounded x k 1000 = true /\
    (forall y, is_double y -> no_farther x y k 1000) /\
    0 <= value_num x <= value_den x /\
    correctly_rounded p (value_num (cs_score top) * 100) (value_den (cs_score top)) = true /\
    (forall y, is_double y ->
               no_farther p y (value_num (cs_score top) * 100) (value_den (cs_score top))) /\
    0 <= value_num p <= 100 * value_den p /\
    0 <= j <= 1000 /\
    nearest_integer j (value_num p * 10) (value_den p) /\
    r !! str "confidence" =
      Some (VStr ((if sign_of (cs_score top) then str "-" else []) ++ tenths j ++ str "%")).
Proof.
  intros Hi Hp Hrun Hne Hall.
  destruct scores as [| first rest]; [contradiction |].
  assert (Forall (fun c => unit_like (cs_score c)) (first :: rest)) as Hunit.
  { eapply Forall_impl; [exact Hall |]. intros c (_ & Hc & _). exact Hc. }
  destruct (max_from_spec rest first Hunit) as [Hin Hmax].
  set (top := max_from first rest) in *.
  rewrite Forall_forall in Hall.
  destruct (probability_in_unit _ (Hall _ Hin)) as [Hv Hu].
  assert (0 <= value_num (cs_score top)) as Hsign.
  { destruct (Hall _ Hin) as (_ & Hlike & _).
    destruct (cs_score top) as [s | s | | s m e]; simpl in Hlike; try contradiction;
      [simpl; lia |].
    subst s. cbn [value_num]. apply Z.mul_nonneg_nonneg; [lia |]. apply Z.pow_nonneg. lia. }
  pose proof (value_den_pos (cs_score top)) as Hden.
  destruct (success_fields text top) as (_ & _ & Hscore & Hconf & _ & Hstatus & _).
  cbv zeta in Hscore, Hconf, Hstatus.
  destruct (score_rounded (cs_score top) Hv Hu) as (k & Hk & Hnear & Hround & Hrange).
  assert (exists p j,
             correctly_rounded p (value_num (cs_score top) * 100) (value_den (cs_score top))
               = true /\
             0 <= value_num p <= 100 * value_den p /\
             0 <= j <= 1000 /\
             nearest_integer j (value_num p * 10) (value_den p) /\
             PyFloat.repr (PyFloat.round (PyFloat.mul (cs_score top) (PyFloat.of_Z 100)) 1) =
             (if sign_of (cs_score top) then str "-" else []) ++ tenths j) as Hpct.
  { destruct (PyFloatFacts.in_unit_cases _ Hu) as [[s Hs] | (m & e & Hs & _)]; rewrite Hs in *.
    - exists (S754_zero s), 0. rewrite of_Z_100.
      split; [reflexivity |]. split; [simpl; lia |]. split; [lia |].
      split; [split; simpl; lia |]. destruct s; reflexivity.
    - destruct (mul_hundred m e Hv Hu) as (mp & ep & Hmul & _ & Hep & Hle & Hrounded).
      destruct (confidence_printed mp ep Hep Hle) as (j & Hj & Hjnear & Hrepr).
      exists (S754_finite false mp ep), j. rewrite Hmul.
      split; [exact Hrounded |]. split.
      + cbn [value_num value_den].
        replace (Z.max ep 0) with 0 by lia. replace (Z.max (- ep) 0) with (- ep) by lia.
        rewrite Z.pow_0_r. lia.
      + split; [exact Hj |]. split; [exact Hjnear | exact Hrepr]. }
  destruct Hpct as (p & j & Hp_rounded & Hp_range & Hj & Hjnear & Hrepr).
  exists top, (success_result text top), (PyFloat.round (cs_score top) 3), k, p, j.
  rewrite (analyze_sentiment_loaded T text tr pipe Hi Hp), Hrun. cbv zeta.
  split; [reflexivity |]. split; [exact Hin |]. split; [exact Hmax |].
  split; [exact Hstatus |]. split; [exact Hscore |]. split; [exact Hk |].
  split; [exact Hnear |]. split; [exact Hround |].
  split; [apply (correctly_rounded_nearest _ k 1000); [lia | lia | exact Hround] |].
  split; [exact Hrange |]. split; [exact Hp_rounded |].
  split; [apply correctly_rounded_nearest; [lia | exact Hden | exact Hp_rounded] |].
  split; [exact Hp_range |]. split; [exact Hj |].
  split; [exact Hjnear |].
  rewrite Hconf, Hrepr, <- app_assoc. reflexivity.
Qed.

Lemma success_result_numbers_witness :
  exists r j,
    fst (analyze_sentiment fails_on_b (str "a") []) = Returns r /\
    0 <= j <= 1000 /\
    r !! str "confidence" = Some (VStr (tenths j ++ str "%")).
Proof.
  destruct (success_result_numbers fails_on_b (str "a") []
              (fun text => if bool_decide (text = str "b") then Raises runtime_error
                           else Returns [[ClassScore (str "neutral") one_tenth;
                                          ClassScore (str "positive") nine_tenths]])
              [ClassScore (str "neutral") one_tenth; ClassScore (str "positive") nine_tenths] [])
    as (top & r & x & k & p & j & Hr & Hin & _ & _ & _ & _ & _ & _ & _ & _ & _ & _ & _
        & Hj & _ & Hconf).
  - reflexivity.
  - reflexivity.
  - reflexivity.
  - discriminate.
  - repeat constructor; try (vm_compute; reflexivity); vm_compute; discriminate.
  - exists r, j. split; [exact Hr |]. split; [exact Hj |].
    rewrite Hconf.
    replace (sign_of (cs_score top)) with false; [reflexivity |].
    apply elem_of_cons in Hin as [-> | Hin]; [reflexivity |].
    apply list_elem_of_singleton in Hin as ->. reflexivity.
Defined.

End SentimentApiExtras.

Module TestLocalFacts.
Import SentimentApi SentimentApiLocal SentimentApiSpec SentimentApiFacts SentimentApiMore.

(** The outcome of [analyze_sentiment] does not depend on the trace, and
    its events are appended to it. *)
Lemma analyze_sentiment_frame T text tr :
  analyze_sentiment T text tr =
  (fst (analyze_sentiment T text []), tr ++ analysis_events T text).
Proof.
  unfold analysis_events.
  destruct (import_pipeline T) as [[] | e] eqn:Hi;
    [| rewrite !(analyze_sentiment_import_error T text _ e Hi); reflexivity].
  destruct (pipeline_all_scores T) as [pipe | e] eqn:Hp;
    [| rewrite !(analyze_sentiment_load_error T text _ e Hi Hp), <- app_assoc; reflexivity].
  rewrite !(analyze_sentiment_loaded T text _ pipe Hi Hp). cbv zeta.
  destruct (pipe text) as [[| [| first rest] more] | e];
    try destruct (is_Exception e); rewrite <- !app_assoc; reflexivity.
Qed.

(** A returned result is one of the two shapes. *)
Lemma analyze_sentiment_result T text r :
  fst (analyze_sentiment T text []) = Returns r ->
  (exists top, r = success_result text top) \/ (exists e, r = error_result text e).
Proof.
  intros Hrun.
  destruct (import_pipeline T) as [[] | e] eqn:Hi;
    [| rewrite (analyze_sentiment_import_error T text _ e Hi) in Hrun; discriminate].
  destruct (pipeline_all_scores T) as [pipe | e] eqn:Hp;
    [| rewrite (analyze_sentiment_load_error T text _ e Hi Hp) in Hrun; discriminate].
  rewrite (analyze_sentiment_loaded T text _ pipe Hi Hp) in Hrun. cbv zeta in Hrun.
  destruct (pipe text) as [[| [| first rest] more] | e].
  - injection Hrun as <-. right. eauto.
  - injection Hrun as <-. right. eauto.
  - injection Hrun as <-. left. eauto.
  - destruct (is_Exception e); [| discriminate]. injection Hrun as <-. right. eauto.
Qed.

Lemma success_status_shape T text r :
  fst (analyze_sentiment T text []) = Returns r ->
  r !! str "status" = Some (VStr (str "success")) ->
  exists top, r = success_result text top.
Proof.
  intros Hrun Hst. destruct (analyze_sentiment_result T text r Hrun) as [Hs | [e ->]]; [exact Hs |].
  destruct (error_fields text e) as (_ & _ & He & _). cbv zeta in He.
  rewrite He in Hst. discriminate Hst.
Qed.

Lemma error_status_shape T text r :
  fst (analyze_sentiment T text []) = Returns r ->
  r !! str "status" = Some (VStr (str "error")) ->
  exists e, r = error_result text e.
Proof.
  intros Hrun Hst. destruct (analyze_sentiment_result T text r Hrun) as [[top ->] | He]; [| exact He].
  destruct (success_fields text top) as (_ & _ & _ & _ & _ & Hs & _). cbv zeta in Hs.
  rewrite Hs in Hst. discriminate Hst.
Qed.

(** One round of the loop on a success: three lines. *)
Lemma test_one_success T P sov text top tr :
  delivers P text ->
  fst (analyze_sentiment T text []) = Returns (success_result text top) ->
  exists line,
    test_one T P sov text tr =
    (Returns tt,
     tr ++ test_calls T text
        ++ [Print (str "Text: '" ++ text ++ str "'"); Print line; Print rule]).
Proof.
  intros [Hcall Hback] Hrun. unfold analysis in Hcall, Hback.
  unfold test_one, analyze_sentiment_remote, bind, external, print, lift, ret.
  rewrite Hcall, analyze_sentiment_frame, Hrun. cbn [fst snd]. rewrite Hback.
  destruct (success_fields text top) as (_ & Hl & _ & Hc & He & _ & _). cbv zeta in Hl, Hc, He.
  unfold getitem. rewrite Hl, He, Hc. eexists.
  unfold test_calls. rewrite <- !app_assoc. reflexivity.
Qed.

(** One round of the loop on an error result: the harness raises. *)
Lemma test_one_error T P sov text e tr :
  delivers P text ->
  fst (analyze_sentiment T text []) = Returns (error_result text e) ->
  test_one T P sov text tr =
  (Raises (key_error (str "label")),
   tr ++ test_calls T text ++ [Print (str "Text: '" ++ text ++ str "'")]).
Proof.
  intros [Hcall Hback] Hrun. unfold analysis in Hcall, Hback.
  unfold test_one, analyze_sentiment_remote, bind, external, print, lift, ret.
  rewrite Hcall, analyze_sentiment_frame, Hrun. cbn [fst snd]. rewrite Hback.
  destruct (error_fields text e) as (_ & _ & _ & Hl & _). cbv zeta in Hl.
  unfold getitem. rewrite Hl.
  unfold test_calls. rewrite <- !app_assoc. reflexivity.
Qed.

(** One round of the loop on a call that the platform refuses. *)
Lemma test_one_refused T P sov text e tr :
  remote_call P analysis text = Raises e ->
  test_one T P sov text tr = (Raises e, tr ++ [RemoteCall analysis text]).
Proof.
  intros Hcall. unfold analysis in Hcall.
  unfold test_one, analyze_sentiment_remote, bind, external. rewrite Hcall. reflexivity.
Qed.

Lemma filter_calls_prints tr prints :
  Forall (fun ev => is_print ev = true) prints ->
  List.filter is_call (tr ++ prints) = List.filter is_call tr.
Proof.
  intros Hp. rewrite List.filter_app.
  replace (List.filter is_call prints) with (@nil event); [apply app_nil_r |].
  induction Hp as [| ev prints Hev _ IH]; [reflexivity |].
  simpl. unfold is_call at 1. rewrite Hev. exact IH.
Qed.

Lemma filter_calls_analysis T text : List.filter is_call (test_calls T text) = test_calls T text.
Proof.
  unfold test_calls, analysis_events.
  destruct (import_pipeline T); [destruct (pipeline_all_scores T) |]; reflexivity.
Qed.

(** The loop over texts that are all analysed with success. *)
Lemma test_loop_success T P sov texts : forall tr,
  (forall text, text ∈ texts ->
     delivers P text /\
     exists r, fst (analyze_sentiment T text []) = Returns r /\
               r !! str "status" = Some (VStr (str "success"))) ->
  exists tr',
    test_loop T P sov texts tr = (Returns tt, tr') /\
    List.filter is_call tr' = List.filter is_call tr ++ concat (test_calls T <$> texts) /\
    length (List.filter is_print tr') =
      (length (List.filter is_print tr) + 3 * length texts)%nat.
Proof.
  induction texts as [| text texts IH]; intros tr Hok.
  - exists tr. simpl. rewrite app_nil_r. repeat split. lia.
  - destruct (Hok text ltac:(left)) as (Hd & r & Hr & Hst).
    destruct (success_status_shape T text r Hr Hst) as [top ->].
    destruct (test_one_success T P sov text top tr Hd Hr) as [line Hone].
    destruct (IH (tr ++ test_calls T text
                     ++ [Print (str "Text: '" ++ text ++ str "'"); Print line; Print rule]))
      as (tr' & Hloop & Hcalls & Hprints).
    { intros t Ht. apply Hok. right. exact Ht. }
    exists tr'. simpl test_loop. unfold bind. rewrite Hone. split; [exact Hloop |].
    split.
    + rewrite Hcalls, !app_assoc, filter_calls_prints by (repeat constructor).
      rewrite List.filter_app, filter_calls_analysis, fmap_cons. simpl concat.
      rewrite <- !app_assoc. reflexivity.
    + rewrite Hprints, !List.filter_app, !length_app.
      assert (List.filter is_print (test_calls T text) = []) as ->.
      { unfold test_calls, analysis_events.
        destruct (import_pipeline T); [destruct (pipeline_all_scores T) |]; reflexivity. }
      simpl. lia.
Qed.


Lemma test_loop_app T P sov l1 : forall l2 tr,
  test_loop T P sov (l1 ++ l2) tr = (test_loop T P sov l1 ;; test_loop T P sov l2) tr.
Proof.
  induction l1 as [| text l1 IH]; intros l2 tr.
  - reflexivity.
  - simpl. unfold bind.
    destruct (test_one T P sov text tr) as [[[] | e] tr1]; [| reflexivity].
    rewrite IH. reflexivity.
Qed.

End TestLocalFacts.

Module TestLocalExtras.
Import SentimentApi SentimentApiLocal SentimentApiSpec SentimentApiFacts SentimentApiMore.
Import TestLocalFacts.

(** X10. When the platform runs the remote call of each of the four
    example texts and hands its result back, and each analysis succeeds,
    [test_local] returns after analysing the texts in the order of the
    list, one remote call (with import, pipeline construction and
    classifier call) per text, and prints thirteen lines: the banner and
    three lines per text. *)
Theorem test_local_success T P sov tr :
  (forall text, text ∈ test_texts ->
     delivers P text /\
     exists r, fst (analyze_sentiment T text []) = Returns r /\
               r !! str "status" = Some (VStr (str "success"))) ->
  exists tr',
    test_local T P sov tr = (Returns tt, tr') /\
    List.filter is_call tr' = List.filter is_call tr ++ concat (test_calls T <$> test_texts) /\
    length (List.filter is_print tr') = (length (List.filter is_print tr) + 13)%nat.
Proof.
  intros Hok. unfold test_local, bind, print.
  destruct (test_loop_success T P sov test_texts (tr ++ [Print test_banner]) Hok)
    as (tr' & Hloop & Hcalls & Hprints).
  exists tr'. split; [exact Hloop |]. split.
  - rewrite Hcalls, filter_calls_prints by (repeat constructor). reflexivity.
  - rewrite Hprints, List.filter_app, length_app. simpl. lia.
Qed.

Lemma test_local_success_witness :
  exists tr', test_local (sure_of (str "positive")) running (fun _ => []) [] = (Returns tt, tr') /\
              length (List.filter is_print tr') = 13%nat.
Proof.
  destruct (test_local_success (sure_of (str "positive")) running (fun _ => []) [])
    as (tr' & Hrun & _ & Hprints).
  - intros text _. split; [split; reflexivity |].
    exists (success_result text (ClassScore (str "positive") nine_tenths)).
    split; [reflexivity | apply success_fields].
  - exists tr'. split; [exact Hrun | exact Hprints].
Defined.

(** X11. When the analysis of one of the example texts reports an error
    (a result with status ["error"]) after the texts before it succeeded,
    the platform running every call and handing every result back,
    [test_local] raises [KeyError] for the key ['label'] right after
    printing the text: the error message is not shown and the texts that
    follow are not analysed. *)
Theorem test_local_stops_at_error_result T P sov tr before text after r :
  test_texts = before ++ text :: after ->
  (forall t, t ∈ before ->
     delivers P t /\
     exists r', fst (analyze_sentiment T t []) = Returns r' /\
                r' !! str "status" = Some (VStr (str "success"))) ->
  delivers P text ->
  fst (analyze_sentiment T text []) = Returns r ->
  r !! str "status" = Some (VStr (str "error")) ->
  exists tr',
    test_local T P sov tr = (Raises (key_error (str "label")), tr') /\
    List.filter is_call tr' =
      List.filter is_call tr ++ concat (test_calls T <$> before ++ [text]) /\
    last tr' = Some (Print (str "Text: '" ++ text ++ str "'")).
Proof.
  intros Htexts Hbefore Hd Hrun Hst.
  destruct (error_status_shape T text r Hrun Hst) as [e ->].
  unfold test_local, bind, print. rewrite Htexts, test_loop_app. unfold bind.
  destruct (test_loop_success T P sov before (tr ++ [Print test_banner]) Hbefore)
    as (tr1 & Hloop & Hcalls & _).
  rewrite Hloop. simpl test_loop. unfold bind.
  rewrite (test_one_error T P sov text e tr1 Hd Hrun).
  eexists. split; [reflexivity |]. split.
  - rewrite !app_assoc, filter_calls_prints by (repeat constructor).
    rewrite List.filter_app, filter_calls_analysis, Hcalls.
    rewrite filter_calls_prints by (repeat constructor).
    rewrite fmap_app, concat_app. simpl. rewrite app_nil_r, <- !app_assoc. reflexivity.
  - rewrite !app_assoc. apply last_snoc.
Qed.

Lemma test_local_stops_at_error_result_witness :
  exists tr',
    test_local unanswered running (fun _ => []) [] = (Raises (key_error (str "label")), tr') /\
    List.filter is_call tr' = test_calls unanswered (str "I love this workshop!").
Proof.
  destruct (test_local_stops_at_error_result unanswered running (fun _ => []) [] []
              (str "I love this workshop!")
              [str "This is terrible"; str "It's an okay day";
               str "Machine learning is amazing!"]
              (error_result (str "I love this workshop!")
                 (Exn IndexError (str "list index out of range"))))
    as (tr' & Hrun & Hcalls & _).
  - reflexivity.
  - intros t Ht. inversion Ht.
  - split; reflexivity.
  - reflexivity.
  - apply error_fields.
  - exists tr'. split; [exact Hrun |]. rewrite Hcalls. reflexivity.
Defined.

(** X18. When the platform refuses the remote call of one of the example
    texts (the application is not running) after the texts before it were
    analysed with success, [test_local] raises the error of the platform:
    the refused call is the last thing the run does, no line is printed for
    that text, and neither its analysis nor any later call is made. *)
Theorem test_local_stops_at_refused_call T P sov tr before text after e :
  test_texts = before ++ text :: after ->
  (forall t, t ∈ before ->
     delivers P t /\
     exists r', fst (analyze_sentiment T t []) = Returns r' /\
                r' !! str "status" = Some (VStr (str "success"))) ->
  remote_call P analysis text = Raises e ->
  exists tr',
    test_local T P sov tr = (Raises e, tr') /\
    List.filter is_call tr' =
      List.filter is_call tr ++ concat (test_calls T <$> before) ++ [RemoteCall analysis text] /\
    last tr' = Some (RemoteCall analysis text) /\
    length (List.filter is_print tr') =
      (length (List.filter is_print tr) + 1 + 3 * length before)%nat.
Proof.
  intros Htexts Hbefore Hcall.
  unfold test_local, bind, print. rewrite Htexts, test_loop_app. unfold bind.
  destruct (test_loop_success T P sov before (tr ++ [Print test_banner]) Hbefore)
    as (tr1 & Hloop & Hcalls & Hprints).
  rewrite Hloop. simpl test_loop. unfold bind.
  rewrite (test_one_refused T P sov text e tr1 Hcall).
  eexists. split; [reflexivity |]. split; [| split].
  - rewrite List.filter_app, Hcalls, filter_calls_prints by (repeat constructor).
    rewrite <- app_assoc. reflexivity.
  - apply last_snoc.
  - rewrite List.filter_app, length_app, Hprints, List.filter_app, length_app. simpl. lia.
Qed.

Lemma test_local_stops_at_refused_call_witness :
  exists tr',
    test_local (sure_of (str "positive")) not_running (fun _ => []) [] =
      (Raises execution_error, tr') /\
    List.filter is_call tr' = [RemoteCall analysis (str "I love this workshop!")] /\
    length (List.filter is_print tr') = 1%nat.
Proof.
  destruct (test_local_stops_at_refused_call (sure_of (str "positive")) not_running
              (fun _ => []) [] [] (str "I love this workshop!")
              [str "This is terrible"; str "It's an okay day";
               str "Machine learning is amazing!"] execution_error)
    as (tr' & Hrun & Hcalls & _ & Hprints).
  - reflexivity.
  - intros t Ht. inversion Ht.
  - reflexivity.
  - exists tr'. split; [exact Hrun |]. split; [exact Hcalls | exact Hprints].
Defined.

End TestLocalExtras.

Module ModalSetupMore.
Import ModalSetup ModalSetupSpec ModalSetupFacts.

Ltac unfold_more :=
  unfold escaping, escaping_step1, escaping_step2, escaping_step3, escaping_verification,
    step4_attempted.

Ltac actions_leaf := rewrite <- ?app_assoc, ?List.filter_app; reflexivity.

(** What [main] returns or raises, and which of its lines it prints. *)
Lemma main_run_lines H :
  exists out tr,
    main H [] = (out, tr) /\
    out = match escaping H with
          | Some e => Raises e
          | None =>
              if auth_fails H then Returns false
              else match escaping_verification H with
                   | Some e => Raises e
                   | None => Returns (step4_ok H)
                   end
          end /\
    printed step1_banner tr = true /\
    printed step2_banner tr = step1_ok H /\
    printed step3_banner tr = step1_ok H && step2_ok H /\
    printed auth_failed_line tr = step1_ok H && step2_ok H && auth_fails H /\
    printed connection_failed_line tr =
      step1_ok H && step2_ok H && step3_ok H && verification_fails H /\
    printed complete_line tr = step1_ok H && step2_ok H && step3_ok H && step4_ok H /\
    printed setup_failed_line tr = false /\
    printed all_set_line tr = false.
Proof.
  unfold_more. host_cases.
  all: eexists _, _; split; [reflexivity |].
  all: split; [reflexivity |].
  all: repeat split; vm_compute; reflexivity.
Qed.


Lemma escaping_after_steps H :
  step1_ok H = true -> step2_ok H = true ->
  escaping H = escaping_step3 H.
Proof.
  unfold step1_ok, step2_ok, escaping, escaping_step1, escaping_step2, is_returned. intros H1 H2.
  destruct (import_modal H) as [[] | e1].
  - destruct (env_local_exists H); [destruct (load_dotenv H); [| discriminate] |]; reflexivity.
  - destruct (is_ImportError e1); [| discriminate].
    destruct (pip_install H); [| discriminate].
    destruct (env_local_exists H); [destruct (load_dotenv H); [| discriminate] |]; reflexivity.
Qed.

End ModalSetupMore.

Module ModalSetupExtras.
Import ModalSetup ModalSetupSpec ModalSetupFacts ModalSetupMore.

(** X12. [verify_modal_connection] turns every [Exception] of its three
    calls into the answer [False]: it returns [True] exactly when the
    import, the construction of the app and the registration of the test
    function all return, and only an exception outside [Exception]
    escapes. Each call is made only when the one before it returned. *)
Theorem verify_modal_connection_catches H tr :
  fst (verify_modal_connection H tr) =
    match escaping_verification H with
    | Some e => Raises e
    | None => Returns (step4_ok H)
    end /\
  (forall e, fst (verify_modal_connection H tr) = Raises e -> is_Exception e = false) /\
  (fst (verify_modal_connection H tr) = Returns false <-> verification_fails H = true) /\
  List.filter is_action (snd (verify_modal_connection H tr)) =
    List.filter is_action tr ++ step4_attempted H.
Proof.
  unfold_more. host_cases.
  all: split; [reflexivity |].
  all: split; [intros e' He'; first [discriminate He' | injection He' as <-; assumption] |].
  all: split; [split; first [reflexivity | discriminate] | actions_leaf].
Qed.

Lemma verify_modal_connection_catches_witness :
  fst (verify_modal_connection offline []) = Returns false /\
  List.filter is_action (snd (verify_modal_connection offline [])) =
    [Import (str "modal"); AppNew (str "test-connection")].
Proof.
  destruct (verify_modal_connection_catches offline []) as (_ & _ & Hfalse & Hactions).
  split; [apply Hfalse; reflexivity | exact Hactions].
Defined.

(** X13. [setup_modal_auth] answers [False] for a [CalledProcessError]
    only. Any other failure of the command, such as the [FileNotFoundError]
    of a machine without the [modal] executable, escapes from it and from
    [main]: the script then ends on the uncaught exception with a non-zero
    status, without the lines "Authentication failed" and "Setup failed". *)
Theorem setup_modal_auth_outcomes H tr :
  fst (setup_modal_auth H tr) =
    match modal_setup H with
    | Returns _ => Returns true
    | Raises e => if is_CalledProcessError e then Returns false else Raises e
    end /\
  List.filter is_action (snd (setup_modal_auth H tr)) =
    List.filter is_action tr ++ step3_actions /\
  (forall e,
     step1_ok H = true -> step2_ok H = true ->
     modal_setup H = Raises e -> is_CalledProcessError e = false ->
     fst (main H []) = Raises e /\
     printed auth_failed_line (fst (script H)) = false /\
     printed setup_failed_line (fst (script H)) = false /\
     snd (script H) = (if is_Exception e then 1 else 130)).
Proof.
  split; [| split].
  - host_cases; reflexivity.
  - host_cases; actions_leaf.
  - intros e H1 H2 Hs He.
    destruct (main_run_lines H)
      as (out & tr0 & Hm & Hout & _ & _ & _ & Hauth & _ & _ & Hfailed & _).
    rewrite (escaping_after_steps H H1 H2) in Hout. unfold escaping_step3 in Hout.
    rewrite Hs, He in Hout. subst out.
    rewrite (script_of_main H _ _ Hm), Hm. cbn [fst snd].
    rewrite Hauth, Hfailed. unfold auth_fails. rewrite Hs, He, !andb_false_r.
    repeat split.
Qed.

Lemma setup_modal_auth_outcomes_witness :
  fst (main without_cli []) = Raises no_modal_command /\
  printed auth_failed_line (fst (script without_cli)) = false /\
  snd (script without_cli) = 1.
Proof.
  destruct (setup_modal_auth_outcomes without_cli []) as (_ & _ & Hescape).
  destruct (Hescape no_modal_command) as (Hmain & Hline & _ & Hstatus); try reflexivity.
  split; [exact Hmain |]. split; [exact Hline | exact Hstatus].
Defined.

(** X14. [load_environment] looks for [.env.local] and loads it only when
    it exists; a missing file is no error. It raises only what
    [load_dotenv] raises, and otherwise prints two lines. *)
Theorem load_environment_optional H tr :
  fst (load_environment H tr) =
    (if env_local_exists H then load_dotenv H else Returns tt) /\
  List.filter is_action (snd (load_environment H tr)) =
    List.filter is_action tr ++ step2_actions H /\
  (step2_ok H = true ->
   exists line1 line2, snd (load_environment H tr) =
                       tr ++ step2_actions H ++ [Print line1; Print line2]).
Proof.
  split; [| split].
  - host_cases; reflexivity.
  - host_cases; actions_leaf.
  - host_cases; intros Hok; try discriminate Hok;
      eexists _, _; rewrite <- ?app_assoc; reflexivity.
Qed.

Lemma load_environment_optional_witness :
  exists line1 line2,
    snd (load_environment ready []) = [PathExists (str ".env.local"); Print line1; Print line2].
Proof.
  destruct (load_environment_optional ready []) as (_ & _ & Hlines).
  destruct (Hlines eq_refl) as (line1 & line2 & Hrun).
  exists line1, line2. exact Hrun.
Defined.

(** X15. [main] raises exactly the first exception that its steps do not
    handle: an import error of another class than [ImportError], a failed
    installation, a failing [load_dotenv], a failure of [modal setup]
    other than a [CalledProcessError], or an exception outside [Exception]
    during verification. In every other run it returns a boolean, [False]
    when authentication or verification fails. *)
Theorem main_outcome H :
  fst (main H []) =
  match escaping H with
  | Some e => Raises e
  | None =>
      if auth_fails H then Returns false
      else match escaping_verification H with
           | Some e => Raises e
           | None => Returns (step4_ok H)
           end
  end.
Proof.
  destruct (main_run_lines H) as (out & tr & Hm & Hout & _).
  rewrite Hm. exact Hout.
Qed.

(** X16. The script exits with status 0, 1 or 130. It prints its closing
    line "You're all set!" and [main] its line "Setup complete!" exactly
    when the status is 0; it prints "Setup failed" exactly when [main]
    returned [False]; and the status is 130 exactly when an exception
    outside [Exception] escaped. *)
Theorem script_exit H :
  (snd (script H) = 0 \/ snd (script H) = 1 \/ snd (script H) = 130) /\
  (printed all_set_line (fst (script H)) = true <-> snd (script H) = 0) /\
  (printed complete_line (fst (script H)) = true <-> snd (script H) = 0) /\
  (printed setup_failed_line (fst (script H)) = true <-> fst (main H []) = Returns false) /\
  (snd (script H) = 130 <->
   exists e, fst (main H []) = Raises e /\ is_Exception e = false).
Proof.
  destruct (main_run_lines H)
    as (out & tr & Hm & _ & _ & _ & _ & _ & _ & Hcomplete & Hfailed & Hset).
  pose proof (main_returns_true H) as Htrue. rewrite Hm in Htrue. cbn [fst] in Htrue.
  rewrite (script_of_main H out tr Hm), Hm. cbn [fst].
  destruct out as [[] | e]; cbn [fst snd]; rewrite ?printed_app, ?Hcomplete, ?Hfailed, ?Hset.
  - destruct Htrue as [Htrue _]. rewrite (Htrue eq_refl).
    repeat split; try (intros; first [reflexivity | discriminate]); auto.
    intros (e & He & _). discriminate He.
  - assert (step1_ok H && step2_ok H && step3_ok H && step4_ok H = false) as ->.
    { destruct (step1_ok H && step2_ok H && step3_ok H && step4_ok H); [| reflexivity].
      destruct Htrue as [_ Htrue]. discriminate (Htrue eq_refl). }
    repeat split; try (intros; first [reflexivity | discriminate]); auto.
    intros (e & He & _). discriminate He.
  - assert (step1_ok H && step2_ok H && step3_ok H && step4_ok H = false) as ->.
    { destruct (step1_ok H && step2_ok H && step3_ok H && step4_ok H); [| reflexivity].
      destruct Htrue as [_ Htrue]. discriminate (Htrue eq_refl). }
    destruct (is_Exception e) eqn:He.
    + repeat split; try (intros; first [reflexivity | discriminate]); auto.
      intros (e' & He' & Hb). injection He' as <-. congruence.
    + repeat split; try (intros; first [reflexivity | discriminate]); auto.
      intros _. exists e. split; [reflexivity | exact He].
Qed.

(** X17. [main] announces a step exactly when the steps before it
    succeeded, and explains a failure exactly when it is one it handles:
    the banner of step 1 is always printed, that of step 2 after a
    successful step 1, that of step 3 after successful steps 1 and 2; the
    line "Authentication failed" is printed exactly when authentication is
    reached and fails, the line "Connection test failed" exactly when
    verification is reached and fails. *)
Theorem main_progress_lines H :
  printed step1_banner (fst (script H)) = true /\
  printed step2_banner (fst (script H)) = step1_ok H /\
  printed step3_banner (fst (script H)) = step1_ok H && step2_ok H /\
  printed auth_failed_line (fst (script H)) = step1_ok H && step2_ok H && auth_fails H /\
  printed connection_failed_line (fst (script H)) =
    step1_ok H && step2_ok H && step3_ok H && verification_fails H.
Proof.
  destruct (main_run_lines H)
    as (out & tr & Hm & _ & Hb1 & Hb2 & Hb3 & Hauth & Hconn & _).
  rewrite (script_of_main H out tr Hm).
  destruct out as [[] | e]; cbn [fst];
    rewrite ?printed_app, Hb1, Hb2, Hb3, Hauth, Hconn, ?orb_false_r; repeat split.
Qed.

End ModalSetupExtras.
